(** * Shopify connector: order synchronisation

    A shallow embedding of
    [erpnext/erpnext_integrations/connectors/shopify_connection.py].

    The connector is glue over the Frappe document store.  The embedding
    keeps the store explicit: a database with an uncommitted working copy
    and a committed copy, documents as records, and the connector's
    functions as computations in a state-and-exception monad, one
    definition per Python function, under the Python name. *)

From Stdlib Require Import ZArith QArith List String Bool Lia.
From Stdlib Require Import PrimFloat.
Import ListNotations.

#[local] Set Warnings "-inexact-float".

Local Open Scope string_scope.
Local Open Scope Z_scope.

(** ** Python values *)

(** Truthiness of the Python values the connector tests with [if], [not],
    [and] and [or]: [None], [0], [0.0], the empty string and the empty list
    are false. *)

Definition truthy_Z (z : Z) : bool := negb (z =? 0).

Definition truthy_Q (q : Q) : bool := negb (Qnum q =? 0).

Definition truthy_str (s : string) : bool := negb (s =? "")%string.

Definition truthy_opt {A} (t : A -> bool) (o : option A) : bool :=
  match o with
  | Some a => t a
  | None => false
  end.

Definition is_some {A} (o : option A) : bool :=
  match o with
  | Some _ => true
  | None => false
  end.

(** [a or b] on optional values: [a] when it is true, else [b]. *)
Definition py_or {A} (t : A -> bool) (a b : option A) : option A :=
  if truthy_opt t a then a else b.

(** [a or "literal"]. *)
Definition or_default (a : option string) (b : string) : string :=
  match a with
  | Some s => if truthy_str s then s else b
  | None => b
  end.

(** [a or b] on lists. *)
Definition py_or_list {A} (a b : list A) : list A :=
  match a with
  | [] => b
  | _ :: _ => a
  end.

Definition opt_eqb {A} (eqb : A -> A -> bool) (a b : option A) : bool :=
  match a, b with
  | Some x, Some y => eqb x y
  | None, None => true
  | _, _ => false
  end.

(** [frappe.utils.cint] and [cstr] on values that are already numbers: the
    store keeps a Shopify id as the number its text denotes, so converting
    an id with [cstr] before a query does not change what it matches. *)
Definition cint (z : Z) : Z := z.
Definition cstr (z : Z) : Z := z.

(** The numbers the connector computes with are Python floats, that is
    IEEE 754 doubles: they are the machine's doubles here, with the
    machine's rounded addition and multiplication.  The numbers it only
    copies from the payload to a document (prices, quantities) stay as the
    payload writes them. *)

(** [frappe.utils.flt]: the double a value denotes; a missing or unreadable
    number is [0.0]. *)
Definition flt (o : option float) : float :=
  match o with
  | Some x => x
  | None => 0%float
  end.

(** A key of a JSON object that the payload may leave out, or send with
    [null], or send with a value.  Python's [d.get(key, default)] answers
    the default for the first only: a [null] that is there is returned as
    [None]. *)
Inductive Field (A : Type) :=
  | Missing
  | Null
  | Value (a : A).

Arguments Missing {A}.
Arguments Null {A}.
Arguments Value {A} a.

(** The translation function [_] leaves the connector's literals alone. *)
Definition translate (s : string) : string := s.

(** ** The order payload *)

(** The JSON objects of a Shopify order.  A key read with [.get] is an
    optional field; a key read with [[...]] is optional too where the
    connector also reads it with [.get], and indexing it when absent raises
    [KeyError].  The lists of a payload are there, possibly empty, as
    Shopify sends them. *)

Record CustomerPayload := {
  cust_id : option Z;
  cust_first_name : option string
}.

Record LineItem := {
  li_id : option Z;
  li_product_id : option Z;
  li_variant_id : option Z;
  li_title : option string;
  li_name : option string;
  li_price : option Q;
  li_quantity : option Z;
  li_uom : option string
}.

Record DiscountCode := {
  dc_code : option string;
  dc_amount : option float
}.

(** A tax line.  A shipping charge read as a tax line shows its own
    [title] and [price] and has no [rate]. *)
Record TaxLine := {
  tl_title : option string;
  tl_rate : option float;
  tl_price : option Q
}.

Record ShippingLine := {
  sl_title : option string;
  sl_price : option Q;
  sl_tax_lines : list TaxLine
}.

Record Fulfillment := {
  fl_id : option Z;
  fl_order_id : option Z;
  fl_created_at : option string;
  fl_line_items : list LineItem
}.

Record Order := {
  o_id : Z;
  o_name : option string;
  o_customer : Field CustomerPayload;
  o_line_items : list LineItem;
  o_discount_codes : list DiscountCode;
  o_tax_lines : list TaxLine;
  o_shipping_lines : list ShippingLine;
  o_taxes_included : bool;
  o_fulfillments : list Fulfillment;
  o_financial_status : option string;
  o_created_at : option string
}.

(** ** Documents *)

Inductive Doctype :=
  | SalesOrder
  | SalesInvoice
  | PaymentEntry
  | DeliveryNote.

Definition doctype_eqb (a b : Doctype) : bool :=
  match a, b with
  | SalesOrder, SalesOrder => true
  | SalesInvoice, SalesInvoice => true
  | PaymentEntry, PaymentEntry => true
  | DeliveryNote, DeliveryNote => true
  | _, _ => false
  end.

(** A document name is issued by a naming series when the document is
    inserted, and is never empty: a name read back from the store is true
    for Python.  A document that was not inserted yet is [Unsaved]. *)
Inductive DocName :=
  | Unsaved
  | Name (series : string) (number : nat).

Definition docname_eqb (a b : DocName) : bool :=
  match a, b with
  | Unsaved, Unsaved => true
  | Name s n, Name s' n' => (s =? s')%string && (n =? n')%nat
  | _, _ => false
  end.

(** A row of a document's [items] table. *)
Record DocItem := {
  item_code : option string;
  item_name : option string;
  rate : option Q;
  item_delivery_date : option string;
  qty : option Z;
  stock_uom : string;
  warehouse : option string;
  cost_center : option string;
  allow_zero_valuation_rate : Z
}.

(** The text of a charge line's description: a title, or the
    ["{0} - {1}%"] of a title and a percentage. *)
Inductive Description :=
  | DescTitle (title : string)
  | DescPercent (title : option string) (percent : float).

(** A row of a document's [taxes] table. *)
Record TaxRow := {
  charge_type : string;
  account_head : string;
  description : Description;
  tax_rate : option float;
  tax_amount : option Q;
  included_in_print_rate : Z;
  tax_cost_center : option string
}.

(** The transactional documents the connector builds.  All four doctypes
    share one record, as they share one class in the framework; a field a
    doctype does not use keeps its default. *)
Record Doc := {
  doctype : Doctype;
  name : DocName;
  docstatus : Z;
  naming_series : option string;
  shopify_order_id : option Z;
  shopify_order_number : option string;
  shopify_fulfillment_id : option Z;
  customer : option string;
  delivery_date : option string;
  company : option string;
  selling_price_list : option string;
  ignore_pricing_rule : Z;
  items : list DocItem;
  taxes : list TaxRow;
  apply_discount_on : option string;
  discount_amount : float;
  status : option string;
  per_billed : Q;
  set_posting_time : Z;
  posting_date : option string;
  is_return : Z;
  return_against : option DocName;
  reference_no : option DocName;
  reference_date : option string;
  paid_to : option string;
  ignore_mandatory : bool
}.

Definition new_doc (dt : Doctype) : Doc :=
  {| doctype := dt; name := Unsaved; docstatus := 0; naming_series := None;
     shopify_order_id := None; shopify_order_number := None;
     shopify_fulfillment_id := None; customer := None; delivery_date := None;
     company := None; selling_price_list := None; ignore_pricing_rule := 0;
     items := []; taxes := []; apply_discount_on := None;
     discount_amount := 0%float; status := None; per_billed := 0%Q;
     set_posting_time := 0; posting_date := None; is_return := 0;
     return_against := None; reference_no := None; reference_date := None;
     paid_to := None; ignore_mandatory := false |}.

(** Attribute assignment [doc.field = v]. *)
Definition set_name v (d : Doc) : Doc :=
  {| doctype := doctype d; name := v; docstatus := docstatus d;
     naming_series := naming_series d;
     shopify_order_id := shopify_order_id d;
     shopify_order_number := shopify_order_number d;
     shopify_fulfillment_id := shopify_fulfillment_id d;
     customer := customer d; delivery_date := delivery_date d;
     company := company d; selling_price_list := selling_price_list d;
     ignore_pricing_rule := ignore_pricing_rule d; items := items d;
     taxes := taxes d; apply_discount_on := apply_discount_on d;
     discount_amount := discount_amount d; status := status d;
     per_billed := per_billed d; set_posting_time := set_posting_time d;
     posting_date := posting_date d; is_return := is_return d;
     return_against := return_against d; reference_no := reference_no d;
     reference_date := reference_date d; paid_to := paid_to d;
     ignore_mandatory := ignore_mandatory d |}.

Definition set_docstatus v (d : Doc) : Doc :=
  {| doctype := doctype d; name := name d; docstatus := v;
     naming_series := naming_series d;
     shopify_order_id := shopify_order_id d;
     shopify_order_number := shopify_order_number d;
     shopify_fulfillment_id := shopify_fulfillment_id d;
     customer := customer d; delivery_date := delivery_date d;
     company := company d; selling_price_list := selling_price_list d;
     ignore_pricing_rule := ignore_pricing_rule d; items := items d;
     taxes := taxes d; apply_discount_on := apply_discount_on d;
     discount_amount := discount_amount d; status := status d;
     per_billed := per_billed d; set_posting_time := set_posting_time d;
     posting_date := posting_date d; is_return := is_return d;
     return_against := return_against d; reference_no := reference_no d;
     reference_date := reference_date d; paid_to := paid_to d;
     ignore_mandatory := ignore_mandatory d |}.

Definition set_naming_series v (d : Doc) : Doc :=
  {| doctype := doctype d; name := name d; docstatus := docstatus d;
     naming_series := v; shopify_order_id := shopify_order_id d;
     shopify_order_number := shopify_order_number d;
     shopify_fulfillment_id := shopify_fulfillment_id d;
     customer := customer d; delivery_date := delivery_date d;
     company := company d; selling_price_list := selling_price_list d;
     ignore_pricing_rule := ignore_pricing_rule d; items := items d;
     taxes := taxes d; apply_discount_on := apply_discount_on d;
     discount_amount := discount_amount d; status := status d;
     per_billed := per_billed d; set_posting_time := set_posting_time d;
     posting_date := posting_date d; is_return := is_return d;
     return_against := return_against d; reference_no := reference_no d;
     reference_date := reference_date d; paid_to := paid_to d;
     ignore_mandatory := ignore_mandatory d |}.

Definition set_shopify_order_id v (d : Doc) : Doc :=
  {| doctype := doctype d; name := name d; docstatus := docstatus d;
     naming_series := naming_series d; shopify_order_id := v;
     shopify_order_number := shopify_order_number d;
     shopify_fulfillment_id := shopify_fulfillment_id d;
     customer := customer d; delivery_date := delivery_date d;
     company := company d; selling_price_list := selling_price_list d;
     ignore_pricing_rule := ignore_pricing_rule d; items := items d;
     taxes := taxes d; apply_discount_on := apply_discount_on d;
     discount_amount := discount_amount d; status := status d;
     per_billed := per_billed d; set_posting_time := set_posting_time d;
     posting_date := posting_date d; is_return := is_return d;
     return_against := return_against d; reference_no := reference_no d;
     reference_date := reference_date d; paid_to := paid_to d;
     ignore_mandatory := ignore_mandatory d |}.

Definition set_shopify_order_number v (d : Doc) : Doc :=
  {| doctype := doctype d; name := name d; docstatus := docstatus d;
     naming_series := naming_series d;
     shopify_order_id := shopify_order_id d; shopify_order_number := v;
     shopify_fulfillment_id := shopify_fulfillment_id d;
     customer := customer d; delivery_date := delivery_date d;
     company := company d; selling_price_list := selling_price_list d;
     ignore_pricing_rule := ignore_pricing_rule d; items := items d;
     taxes := taxes d; apply_discount_on := apply_discount_on d;
     discount_amount := discount_amount d; status := status d;
     per_billed := per_billed d; set_posting_time := set_posting_time d;
     posting_date := posting_date d; is_return := is_return d;
     return_against := return_against d; reference_no := reference_no d;
     reference_date := reference_date d; paid_to := paid_to d;
     ignore_mandatory := ignore_mandatory d |}.

Definition set_shopify_fulfillment_id v (d : Doc) : Doc :=
  {| doctype := doctype d; name := name d; docstatus := docstatus d;
     naming_series := naming_series d;
     shopify_order_id := shopify_order_id d;
     shopify_order_number := shopify_order_number d;
     shopify_fulfillment_id := v; customer := customer d;
     delivery_date := delivery_date d; company := company d;
     selling_price_list := selling_price_list d;
     ignore_pricing_rule := ignore_pricing_rule d; items := items d;
     taxes := taxes d; apply_discount_on := apply_discount_on d;
     discount_amount := discount_amount d; status := status d;
     per_billed := per_billed d; set_posting_time := set_posting_time d;
     posting_date := posting_date d; is_return := is_return d;
     return_against := return_against d; reference_no := reference_no d;
     reference_date := reference_date d; paid_to := paid_to d;
     ignore_mandatory := ignore_mandatory d |}.

Definition set_company v (d : Doc) : Doc :=
  {| doctype := doctype d; name := name d; docstatus := docstatus d;
     naming_series := naming_series d;
     shopify_order_id := shopify_order_id d;
     shopify_order_number := shopify_order_number d;
     shopify_fulfillment_id := shopify_fulfillment_id d;
     customer := customer d; delivery_date := delivery_date d; company := v;
     selling_price_list := selling_price_list d;
     ignore_pricing_rule := ignore_pricing_rule d; items := items d;
     taxes := taxes d; apply_discount_on := apply_discount_on d;
     discount_amount := discount_amount d; status := status d;
     per_billed := per_billed d; set_posting_time := set_posting_time d;
     posting_date := posting_date d; is_return := is_return d;
     return_against := return_against d; reference_no := reference_no d;
     reference_date := reference_date d; paid_to := paid_to d;
     ignore_mandatory := ignore_mandatory d |}.

Definition set_items v (d : Doc) : Doc :=
  {| doctype := doctype d; name := name d; docstatus := docstatus d;
     naming_series := naming_series d;
     shopify_order_id := shopify_order_id d;
     shopify_order_number := shopify_order_number d;
     shopify_fulfillment_id := shopify_fulfillment_id d;
     customer := customer d; delivery_date := delivery_date d;
     company := company d; selling_price_list := selling_price_list d;
     ignore_pricing_rule := ignore_pricing_rule d; items := v;
     taxes := taxes d; apply_discount_on := apply_discount_on d;
     discount_amount := discount_amount d; status := status d;
     per_billed := per_billed d; set_posting_time := set_posting_time d;
     posting_date := posting_date d; is_return := is_return d;
     return_against := return_against d; reference_no := reference_no d;
     reference_date := reference_date d; paid_to := paid_to d;
     ignore_mandatory := ignore_mandatory d |}.

Definition set_status v (d : Doc) : Doc :=
  {| doctype := doctype d; name := name d; docstatus := docstatus d;
     naming_series := naming_series d;
     shopify_order_id := shopify_order_id d;
     shopify_order_number := shopify_order_number d;
     shopify_fulfillment_id := shopify_fulfillment_id d;
     customer := customer d; delivery_date := delivery_date d;
     company := company d; selling_price_list := selling_price_list d;
     ignore_pricing_rule := ignore_pricing_rule d; items := items d;
     taxes := taxes d; apply_discount_on := apply_discount_on d;
     discount_amount := discount_amount d; status := v;
     per_billed := per_billed d; set_posting_time := set_posting_time d;
     posting_date := posting_date d; is_return := is_return d;
     return_against := return_against d; reference_no := reference_no d;
     reference_date := reference_date d; paid_to := paid_to d;
     ignore_mandatory := ignore_mandatory d |}.

Definition set_set_posting_time v (d : Doc) : Doc :=
  {| doctype := doctype d; name := name d; docstatus := docstatus d;
     naming_series := naming_series d;
     shopify_order_id := shopify_order_id d;
     shopify_order_number := shopify_order_number d;
     shopify_fulfillment_id := shopify_fulfillment_id d;
     customer := customer d; delivery_date := delivery_date d;
     company := company d; selling_price_list := selling_price_list d;
     ignore_pricing_rule := ignore_pricing_rule d; items := items d;
     taxes := taxes d; apply_discount_on := apply_discount_on d;
     discount_amount := discount_amount d; status := status d;
     per_billed := per_billed d; set_posting_time := v;
     posting_date := posting_date d; is_return := is_return d;
     return_against := return_against d; reference_no := reference_no d;
     reference_date := reference_date d; paid_to := paid_to d;
     ignore_mandatory := ignore_mandatory d |}.

Definition set_posting_date v (d : Doc) : Doc :=
  {| doctype := doctype d; name := name d; docstatus := docstatus d;
     naming_series := naming_series d;
     shopify_order_id := shopify_order_id d;
     shopify_order_number := shopify_order_number d;
     shopify_fulfillment_id := shopify_fulfillment_id d;
     customer := customer d; delivery_date := delivery_date d;
     company := company d; selling_price_list := selling_price_list d;
     ignore_pricing_rule := ignore_pricing_rule d; items := items d;
     taxes := taxes d; apply_discount_on := apply_discount_on d;
     discount_amount := discount_amount d; status := status d;
     per_billed := per_billed d; set_posting_time := set_posting_time d;
     posting_date := v; is_return := is_return d;
     return_against := return_against d; reference_no := reference_no d;
     reference_date := reference_date d; paid_to := paid_to d;
     ignore_mandatory := ignore_mandatory d |}.

Definition set_is_return v (d : Doc) : Doc :=
  {| doctype := doctype d; name := name d; docstatus := docstatus d;
     naming_series := naming_series d;
     shopify_order_id := shopify_order_id d;
     shopify_order_number := shopify_order_number d;
     shopify_fulfillment_id := shopify_fulfillment_id d;
     customer := customer d; delivery_date := delivery_date d;
     company := company d; selling_price_list := selling_price_list d;
     ignore_pricing_rule := ignore_pricing_rule d; items := items d;
     taxes := taxes d; apply_discount_on := apply_discount_on d;
     discount_amount := discount_amount d; status := status d;
     per_billed := per_billed d; set_posting_time := set_posting_time d;
     posting_date := posting_date d; is_return := v;
     return_against := return_against d; reference_no := reference_no d;
     reference_date := reference_date d; paid_to := paid_to d;
     ignore_mandatory := ignore_mandatory d |}.

Definition set_return_against v (d : Doc) : Doc :=
  {| doctype := doctype d; name := name d; docstatus := docstatus d;
     naming_series := naming_series d;
     shopify_order_id := shopify_order_id d;
     shopify_order_number := shopify_order_number d;
     shopify_fulfillment_id := shopify_fulfillment_id d;
     customer := customer d; delivery_date := delivery_date d;
     company := company d; selling_price_list := selling_price_list d;
     ignore_pricing_rule := ignore_pricing_rule d; items := items d;
     taxes := taxes d; apply_discount_on := apply_discount_on d;
     discount_amount := discount_amount d; status := status d;
     per_billed := per_billed d; set_posting_time := set_posting_time d;
     posting_date := posting_date d; is_return := is_return d;
     return_against := v; reference_no := reference_no d;
     reference_date := reference_date d; paid_to := paid_to d;
     ignore_mandatory := ignore_mandatory d |}.

Definition set_reference_no v (d : Doc) : Doc :=
  {| doctype := doctype d; name := name d; docstatus := docstatus d;
     naming_series := naming_series d;
     shopify_order_id := shopify_order_id d;
     shopify_order_number := shopify_order_number d;
     shopify_fulfillment_id := shopify_fulfillment_id d;
     customer := customer d; delivery_date := delivery_date d;
     company := company d; selling_price_list := selling_price_list d;
     ignore_pricing_rule := ignore_pricing_rule d; items := items d;
     taxes := taxes d; apply_discount_on := apply_discount_on d;
     discount_amount := discount_amount d; status := status d;
     per_billed := per_billed d; set_posting_time := set_posting_time d;
     posting_date := posting_date d; is_return := is_return d;
     return_against := return_against d; reference_no := v;
     reference_date := reference_date d; paid_to := paid_to d;
     ignore_mandatory := ignore_mandatory d |}.

Definition set_reference_date v (d : Doc) : Doc :=
  {| doctype := doctype d; name := name d; docstatus := docstatus d;
     naming_series := naming_series d;
     shopify_order_id := shopify_order_id d;
     shopify_order_number := shopify_order_number d;
     shopify_fulfillment_id := shopify_fulfillment_id d;
     customer := customer d; delivery_date := delivery_date d;
     company := company d; selling_price_list := selling_price_list d;
     ignore_pricing_rule := ignore_pricing_rule d; items := items d;
     taxes := taxes d; apply_discount_on := apply_discount_on d;
     discount_amount := discount_amount d; status := status d;
     per_billed := per_billed d; set_posting_time := set_posting_time d;
     posting_date := posting_date d; is_return := is_return d;
     return_against := return_against d; reference_no := reference_no d;
     reference_date := v; paid_to := paid_to d;
     ignore_mandatory := ignore_mandatory d |}.

Definition set_paid_to v (d : Doc) : Doc :=
  {| doctype := doctype d; name := name d; docstatus := docstatus d;
     naming_series := naming_series d;
     shopify_order_id := shopify_order_id d;
     shopify_order_number := shopify_order_number d;
     shopify_fulfillment_id := shopify_fulfillment_id d;
     customer := customer d; delivery_date := delivery_date d;
     company := company d; selling_price_list := selling_price_list d;
     ignore_pricing_rule := ignore_pricing_rule d; items := items d;
     taxes := taxes d; apply_discount_on := apply_discount_on d;
     discount_amount := discount_amount d; status := status d;
     per_billed := per_billed d; set_posting_time := set_posting_time d;
     posting_date := posting_date d; is_return := is_return d;
     return_against := return_against d; reference_no := reference_no d;
     reference_date := reference_date d; paid_to := v;
     ignore_mandatory := ignore_mandatory d |}.

Definition set_ignore_mandatory v (d : Doc) : Doc :=
  {| doctype := doctype d; name := name d; docstatus := docstatus d;
     naming_series := naming_series d;
     shopify_order_id := shopify_order_id d;
     shopify_order_number := shopify_order_number d;
     shopify_fulfillment_id := shopify_fulfillment_id d;
     customer := customer d; delivery_date := delivery_date d;
     company := company d; selling_price_list := selling_price_list d;
     ignore_pricing_rule := ignore_pricing_rule d; items := items d;
     taxes := taxes d; apply_discount_on := apply_discount_on d;
     discount_amount := discount_amount d; status := status d;
     per_billed := per_billed d; set_posting_time := set_posting_time d;
     posting_date := posting_date d; is_return := is_return d;
     return_against := return_against d; reference_no := reference_no d;
     reference_date := reference_date d; paid_to := paid_to d;
     ignore_mandatory := v |}.

Definition set_customer v (d : Doc) : Doc :=
  {| doctype := doctype d; name := name d; docstatus := docstatus d;
     naming_series := naming_series d;
     shopify_order_id := shopify_order_id d;
     shopify_order_number := shopify_order_number d;
     shopify_fulfillment_id := shopify_fulfillment_id d; customer := v;
     delivery_date := delivery_date d; company := company d;
     selling_price_list := selling_price_list d;
     ignore_pricing_rule := ignore_pricing_rule d; items := items d;
     taxes := taxes d; apply_discount_on := apply_discount_on d;
     discount_amount := discount_amount d; status := status d;
     per_billed := per_billed d; set_posting_time := set_posting_time d;
     posting_date := posting_date d; is_return := is_return d;
     return_against := return_against d; reference_no := reference_no d;
     reference_date := reference_date d; paid_to := paid_to d;
     ignore_mandatory := ignore_mandatory d |}.

(** ** The store *)

Record Customer := {
  customer_name : string;
  shopify_customer_id : option Z
}.

Record Item := {
  it_item_code : string;
  it_item_name : option string;
  shopify_product_id : option Z;
  shopify_variant_id : option Z
}.

(** A row of the settings' tax table, doctype [Shopify Tax Account]. *)
Record ShopifyTaxAccount := {
  parent : string;
  shopify_tax : string;
  tax_account : string
}.

(** The single [Shopify Settings] document. *)
Record ShopifySettings := {
  ss_warehouse : option string;
  ss_default_customer : option string;
  ss_company : option string;
  ss_price_list : option string;
  ss_cost_center : option string;
  ss_cash_bank_account : option string;
  ss_sales_order_series : option string;
  ss_sales_invoice_series : option string;
  ss_delivery_note_series : option string;
  ss_sync_sales_invoice : Z;
  ss_sync_delivery_note : Z
}.

(** A call into framework code that is not part of the connector.  The call
    is kept with its arguments: it is what a failure of that code is blamed
    on. *)
Inductive Call :=
  | call_create_customer (c : CustomerPayload)
  | call_make_item (wh : option string) (li : LineItem)
  | call_make_sales_invoice (so : DocName)
  | call_make_sales_return (si : DocName)
  | call_make_delivery_note (so : DocName)
  | call_get_payment_entry (dt : Doctype) (dn : DocName)
  | call_getdate (s : option string)
  | call_insert (d : Doc)
  | call_submit (d : Doc)
  | call_cancel (d : Doc).

Inductive Exc :=
  | ValidationError (msg : string)
  | AttributeError
  | TypeError
  | KeyError (key : string)
  | DoesNotExistError (dt : Doctype) (dn : DocName)
  | FrameworkError (c : Call).

(** A [Shopify Log] record. *)
Record ShopifyLog := {
  log_status : string;
  log_response_data : Order;
  log_exception : option Exc;
  log_request_id : option string
}.

(** The tables.  [tabDoc] holds the transactional documents, newest first. *)
Record DB := {
  tabCustomer : list Customer;
  tabItem : list Item;
  tabDoc : list Doc;
  tabShopifyLog : list ShopifyLog;
  tabShopifyTaxAccount : list ShopifyTaxAccount;
  shopify_settings : ShopifySettings
}.

Definition set_tabCustomer v (db : DB) : DB :=
  {| tabCustomer := v; tabItem := tabItem db; tabDoc := tabDoc db;
     tabShopifyLog := tabShopifyLog db;
     tabShopifyTaxAccount := tabShopifyTaxAccount db;
     shopify_settings := shopify_settings db |}.

Definition set_tabItem v (db : DB) : DB :=
  {| tabCustomer := tabCustomer db; tabItem := v; tabDoc := tabDoc db;
     tabShopifyLog := tabShopifyLog db;
     tabShopifyTaxAccount := tabShopifyTaxAccount db;
     shopify_settings := shopify_settings db |}.

Definition set_tabDoc v (db : DB) : DB :=
  {| tabCustomer := tabCustomer db; tabItem := tabItem db; tabDoc := v;
     tabShopifyLog := tabShopifyLog db;
     tabShopifyTaxAccount := tabShopifyTaxAccount db;
     shopify_settings := shopify_settings db |}.

Definition set_tabShopifyLog v (db : DB) : DB :=
  {| tabCustomer := tabCustomer db; tabItem := tabItem db;
     tabDoc := tabDoc db; tabShopifyLog := v;
     tabShopifyTaxAccount := tabShopifyTaxAccount db;
     shopify_settings := shopify_settings db |}.

(** The state of a run: the connection's uncommitted view of the store
    ([work]), what the last commit made durable ([durable]), the session
    ([frappe.flags.request_id], the user), and the run's environment: which
    framework calls fail ([faults], asked with the store as the call finds
    it), and the date. *)
Record State := {
  work : DB;
  durable : DB;
  flags_request_id : option string;
  session_user : string;
  faults : Call -> DB -> bool;
  today : string
}.

Definition set_work v (st : State) : State :=
  {| work := v; durable := durable st;
     flags_request_id := flags_request_id st;
     session_user := session_user st; faults := faults st;
     today := today st |}.

Definition set_durable v (st : State) : State :=
  {| work := work st; durable := v;
     flags_request_id := flags_request_id st;
     session_user := session_user st; faults := faults st;
     today := today st |}.

Definition set_flags_request_id v (st : State) : State :=
  {| work := work st; durable := durable st; flags_request_id := v;
     session_user := session_user st; faults := faults st;
     today := today st |}.

Definition set_session_user v (st : State) : State :=
  {| work := work st; durable := durable st;
     flags_request_id := flags_request_id st; session_user := v;
     faults := faults st; today := today st |}.

(** ** Computations *)

(** A Python call either returns or raises; either way the state it leaves
    is the state the caller goes on with (nothing is undone by an
    exception). *)
Inductive Result (A : Type) :=
  | Ok (a : A)
  | Raise (e : Exc).

Arguments Ok {A} a.
Arguments Raise {A} e.

Definition M (A : Type) : Type := State -> Result A * State.

Definition ret {A} (a : A) : M A := fun st => (Ok a, st).

Definition throw {A} (e : Exc) : M A := fun st => (Raise e, st).

Definition bind {A B} (m : M A) (k : A -> M B) : M B :=
  fun st =>
    match m st with
    | (Ok a, st') => k a st'
    | (Raise e, st') => (Raise e, st')
    end.

Notation "x <- m ;; k" := (bind m (fun x => k))
  (at level 61, m at next level, right associativity).
Notation "m ;; k" := (bind m (fun _ => k))
  (at level 61, right associativity).

(** [try: body / except Exception as e: handler e / else: orelse a]. *)
Definition try_except {A B} (body : M A) (handler : Exc -> M B)
    (orelse : A -> M B) : M B :=
  fun st =>
    match body st with
    | (Ok a, st') => orelse a st'
    | (Raise e, st') => handler e st'
    end.

Definition gets {A} (f : State -> A) : M A := fun st => (Ok (f st), st).

Definition modify (f : State -> State) : M unit := fun st => (Ok tt, f st).

(** [for x in l: body x]. *)
Fixpoint for_each {A} (l : list A) (body : A -> M unit) : M unit :=
  match l with
  | [] => ret tt
  | x :: l' => body x ;; for_each l' body
  end.

(** A list built by a loop that appends to it. *)
Fixpoint for_collect {A B} (l : list A) (body : A -> M (list B))
    : M (list B) :=
  match l with
  | [] => ret []
  | x :: l' => ys <- body x ;; zs <- for_collect l' body ;; ret (ys ++ zs)%list
  end.

(** ** Framework primitives *)

(** A framework call raises when the run's environment says so. *)
Definition framework (c : Call) : M unit :=
  fun st =>
    if faults st c (work st) then (Raise (FrameworkError c), st)
    else (Ok tt, st).

Definition set_user (u : string) : M unit := modify (set_session_user u).

Definition set_request_id (r : option string) : M unit :=
  modify (set_flags_request_id r).

Definition nowdate : M string := gets today.

(** [frappe.utils.getdate]: the framework reads the text as a date, or
    raises. *)
Definition getdate (s : option string) : M (option string) :=
  framework (call_getdate s) ;; ret s.

Definition db_commit : M unit := modify (fun st => set_durable (work st) st).

Definition db_rollback : M unit := modify (fun st => set_work (durable st) st).

Definition get_single_settings : M ShopifySettings :=
  gets (fun st => shopify_settings (work st)).

(** [frappe.db.get_value(doctype, filters)] on a transactional doctype: the
    name of the first document that passes the filters. *)
Definition find_doc (dt : Doctype) (filters : Doc -> bool) (db : DB)
    : option Doc :=
  find (fun d => doctype_eqb (doctype d) dt && filters d) (tabDoc db).

Definition db_get_value (dt : Doctype) (filters : Doc -> bool)
    : M (option DocName) :=
  gets (fun st => option_map name (find_doc dt filters (work st))).

Definition has_name (n : DocName) (d : Doc) : bool := docname_eqb (name d) n.

(** [frappe.get_doc(doctype, name)]. *)
Definition get_doc (dt : Doctype) (n : DocName) : M Doc :=
  fun st =>
    match find_doc dt (has_name n) (work st) with
    | Some d => (Ok d, st)
    | None => (Raise (DoesNotExistError dt n), st)
    end.

(** Rewrite the first document of the table that has this doctype and
    name. *)
Fixpoint update_doc (dt : Doctype) (n : DocName) (f : Doc -> Doc)
    (l : list Doc) : list Doc :=
  match l with
  | [] => []
  | d :: l' =>
      if doctype_eqb (doctype d) dt && has_name n d then f d :: l'
      else d :: update_doc dt n f l'
  end.

Definition default_series (dt : Doctype) : string :=
  match dt with
  | SalesOrder => "SO-"
  | SalesInvoice => "SI-"
  | PaymentEntry => "PE-"
  | DeliveryNote => "DN-"
  end.

Definition count_doctype (dt : Doctype) (l : list Doc) : nat :=
  List.length (filter (fun d => doctype_eqb (doctype d) dt) l).

Definition next_name (d : Doc) (db : DB) : DocName :=
  Name (or_default (naming_series d) (default_series (doctype d)))
       (S (count_doctype (doctype d) (tabDoc db))).

Definition unresolved_item (i : DocItem) : bool :=
  negb (truthy_opt truthy_str (item_code i)).

(** Modelled from the spec: the framework's [insert] (and [save] of a new
    document), which is not part of the connector.  A missing item aborts
    order creation with an error: a Sales Order with a row whose item is
    unresolved is refused.  Otherwise the document gets its name and joins
    the table as a draft, unless the framework fails. *)
Definition doc_insert (d : Doc) : M Doc :=
  framework (call_insert d) ;;
  if doctype_eqb (doctype d) SalesOrder && existsb unresolved_item (items d)
  then throw (ValidationError "Item Code is mandatory")
  else
    fun st =>
      let d' := set_docstatus 0 (set_name (next_name d (work st)) d) in
      (Ok d', set_work (set_tabDoc (d' :: tabDoc (work st)) (work st)) st).

Definition submit_row (d : Doc) : Doc :=
  if docstatus d =? 0 then set_docstatus 1 d else d.

Definition cancel_row (d : Doc) : Doc :=
  if docstatus d =? 1 then set_docstatus 2 d else d.

(** Modelled from the spec: the framework's [submit], which turns a draft
    into a submitted document (docstatus 0 to 1) and refuses anything
    else. *)
Definition doc_submit (d : Doc) : M Doc :=
  framework (call_submit d) ;;
  if docstatus d =? 0 then
    modify (fun st =>
      set_work (set_tabDoc
        (update_doc (doctype d) (name d) submit_row (tabDoc (work st)))
        (work st)) st) ;;
    ret (set_docstatus 1 d)
  else throw (ValidationError "Cannot submit").

(** Modelled from the spec: the framework's [cancel], which turns a
    submitted document into a cancelled one (docstatus 1 to 2) and refuses
    anything else. *)
Definition doc_cancel (d : Doc) : M unit :=
  framework (call_cancel d) ;;
  if docstatus d =? 1 then
    modify (fun st =>
      set_work (set_tabDoc
        (update_doc (doctype d) (name d) cancel_row (tabDoc (work st)))
        (work st)) st)
  else throw (ValidationError "Cannot cancel").

(** Modelled from the spec: [make_shopify_log] of the Shopify Log doctype,
    which is not part of the connector.  The log is an append-only audit
    trail: one record with the status, the raw payload and the exception,
    tied to the request at hand, committed at once.  The flag [rollback],
    which [cancel_shopify_order] and the two [prepare_] functions set, is
    taken at its word: the uncommitted work of the connection is discarded
    before the record is written. *)
Definition make_shopify_log (status : string) (response_data : Order)
    (exception : option Exc) (rollback : bool) : M unit :=
  (if rollback then db_rollback else ret tt) ;;
  modify (fun st =>
    set_work (set_tabShopifyLog
      ({| log_status := status; log_response_data := response_data;
          log_exception := exception;
          log_request_id := flags_request_id st |}
       :: tabShopifyLog (work st)) (work st)) st) ;;
  db_commit.

(** Modelled from the spec: [create_customer] of the settings' customer
    sync, which is not part of the connector: a customer that maps to the
    external id is created from the payload. *)
Definition create_customer (c : CustomerPayload) (settings : ShopifySettings)
    : M unit :=
  framework (call_create_customer c) ;;
  modify (fun st =>
    set_work (set_tabCustomer
      ({| customer_name := or_default (cust_first_name c) "Shopify Customer";
          shopify_customer_id := cust_id c |}
       :: tabCustomer (work st)) (work st)) st).

(** Modelled from the spec: [make_item] of the settings' product sync,
    which is not part of the connector: an item that maps to the line
    item's external ids is created from the line item. *)
Definition make_item (wh : option string) (li : LineItem) : M unit :=
  framework (call_make_item wh li) ;;
  modify (fun st =>
    set_work (set_tabItem
      ({| it_item_code := or_default (li_title li) "";
          it_item_name := li_title li;
          shopify_product_id :=
            py_or truthy_Z (li_product_id li) (li_id li);
          shopify_variant_id := li_variant_id li |}
       :: tabItem (work st)) (work st)) st).

(** What the framework's document mapper carries from a source document to
    the document made from it. *)
Definition mapped_doc (dt : Doctype) (source : Doc) : Doc :=
  set_items (items source)
    {| doctype := dt; name := Unsaved; docstatus := 0; naming_series := None;
       shopify_order_id := None; shopify_order_number := None;
       shopify_fulfillment_id := None; customer := customer source;
       delivery_date := None; company := company source;
       selling_price_list := selling_price_list source;
       ignore_pricing_rule := ignore_pricing_rule source;
       items := []; taxes := taxes source;
       apply_discount_on := apply_discount_on source;
       discount_amount := discount_amount source; status := None;
       per_billed := 0%Q; set_posting_time := 0; posting_date := None;
       is_return := 0; return_against := None; reference_no := None;
       reference_date := None; paid_to := None; ignore_mandatory := false |}.

(** Modelled from the spec: [make_sales_invoice] of the Sales Order
    doctype, which is not part of the connector: the draft invoice of a
    Sales Order. *)
Definition make_sales_invoice (so_name : DocName) : M Doc :=
  framework (call_make_sales_invoice so_name) ;;
  so <- get_doc SalesOrder so_name ;;
  ret (mapped_doc SalesInvoice so).

(** Modelled from the spec: [make_delivery_note] of the Sales Order
    doctype, which is not part of the connector: the draft delivery note
    of a Sales Order. *)
Definition make_delivery_note (so_name : DocName) : M Doc :=
  framework (call_make_delivery_note so_name) ;;
  so <- get_doc SalesOrder so_name ;;
  ret (mapped_doc DeliveryNote so).

(** Modelled from the spec: [make_sales_return] of the Sales Invoice
    doctype, which is not part of the connector: the draft return invoice
    that references a Sales Invoice.  A return is not keyed by the external
    order id. *)
Definition make_sales_return (si_name : DocName) : M Doc :=
  framework (call_make_sales_return si_name) ;;
  si <- get_doc SalesInvoice si_name ;;
  ret (set_return_against (Some si_name)
        (set_is_return 1 (mapped_doc SalesInvoice si))).

(** Modelled from the spec: [get_payment_entry] of the Payment Entry
    doctype, which is not part of the connector: the draft payment that
    settles a document into the given account. *)
Definition get_payment_entry (dt : Doctype) (dn : DocName)
    (bank_account : option string) : M Doc :=
  framework (call_get_payment_entry dt dn) ;;
  d <- get_doc dt dn ;;
  ret (set_paid_to bank_account
        (set_company (company d)
          (set_customer (customer d) (new_doc PaymentEntry)))).

(** ** The connector *)

(** [d[key]] on a payload object. *)
Definition index {A} (key : string) (o : option A) : M A :=
  match o with
  | Some a => ret a
  | None => throw (KeyError key)
  end.

(** [frappe.db.get_value("Shopify Tax Account", {...}, "tax_account")]. *)
Definition tax_account_get_value (tax_title : string) (db : DB)
    : option string :=
  option_map tax_account
    (find (fun r => (parent r =? "Shopify Settings")%string
                    && (shopify_tax r =? tax_title)%string)
          (tabShopifyTaxAccount db)).

Definition get_tax_account_head (tax : TaxLine) : M string :=
  match tl_title tax with
  | None => throw AttributeError
  | Some tax_title =>
      tax_account <- gets (fun st => tax_account_get_value tax_title (work st)) ;;
      match tax_account with
      | Some a =>
          if truthy_str a then ret a
          else throw (ValidationError
                 ("Tax Account not specified for Shopify Tax " ++ tax_title))
      | None =>
          throw (ValidationError
            ("Tax Account not specified for Shopify Tax " ++ tax_title))
      end
  end.

(** A shipping charge read as a tax line: the same object, of which a
    charge line uses the title and the price. *)
Definition as_tax_line (shipping_charge : ShippingLine) : TaxLine :=
  {| tl_title := sl_title shipping_charge; tl_rate := None;
     tl_price := sl_price shipping_charge |}.

(** The lines the inner loop runs over:
    [[shipping_charge] or shipping_charge.get('tax_lines')]. *)
Definition shipping_tax_lines (shipping_charge : ShippingLine)
    : list TaxLine :=
  py_or_list [as_tax_line shipping_charge] (sl_tax_lines shipping_charge).

Definition shipping_charge_row (settings : ShopifySettings) (tax : TaxLine)
    : M (list TaxRow) :=
  head <- get_tax_account_head tax ;;
  title <- index "title" (tl_title tax) ;;
  price <- index "price" (tl_price tax) ;;
  ret [ {| charge_type := translate "Actual"; account_head := head;
           description := DescTitle title; tax_rate := None;
           tax_amount := Some price; included_in_print_rate := 0;
           tax_cost_center := ss_cost_center settings |} ].

Definition update_taxes_with_shipping_lines (taxes : list TaxRow)
    (shipping_lines : list ShippingLine) (settings : ShopifySettings)
    : M (list TaxRow) :=
  added <- for_collect shipping_lines (fun shipping_charge =>
             for_collect (shipping_tax_lines shipping_charge)
               (shipping_charge_row settings)) ;;
  ret (taxes ++ added)%list.

(** [tax.get("rate") * 100.0]: the product of two doubles, rounded as the
    machine rounds it; [None * 100.0] raises. *)
Definition percent (r : option float) : M float :=
  match r with
  | Some x => ret (x * 100)%float
  | None => throw TypeError
  end.

Definition order_tax_row (shopify_order : Order) (settings : ShopifySettings)
    (tax : TaxLine) : M (list TaxRow) :=
  head <- get_tax_account_head tax ;;
  pct <- percent (tl_rate tax) ;;
  ret [ {| charge_type := translate "On Net Total"; account_head := head;
           description := DescPercent (tl_title tax) pct;
           tax_rate := Some pct; tax_amount := None;
           included_in_print_rate :=
             if o_taxes_included shopify_order then 1 else 0;
           tax_cost_center := ss_cost_center settings |} ].

Definition get_order_taxes (shopify_order : Order)
    (settings : ShopifySettings) : M (list TaxRow) :=
  taxes <- for_collect (o_tax_lines shopify_order)
             (order_tax_row shopify_order settings) ;;
  update_taxes_with_shipping_lines taxes (o_shipping_lines shopify_order)
    settings.

(** [frappe.db.get_value("Item", {...}, "item_code")]. *)
Definition item_get_value (filters : Item -> bool) (db : DB)
    : option string :=
  option_map it_item_code (find filters (tabItem db)).

Definition by_variant_id (shopify_item : LineItem) (i : Item) : bool :=
  opt_eqb Z.eqb (shopify_variant_id i) (li_variant_id shopify_item).

Definition by_product_id (shopify_item : LineItem) (i : Item) : bool :=
  opt_eqb Z.eqb (shopify_product_id i)
    (py_or truthy_Z (li_product_id shopify_item) (li_id shopify_item)).

Definition by_item_name (shopify_item : LineItem) (i : Item) : bool :=
  opt_eqb String.eqb (it_item_name i) (li_title shopify_item).

(** [get_item_code] only reads the store, which is passed to it. *)
Definition get_item_code (db : DB) (shopify_item : LineItem)
    : option string :=
  let item_code := item_get_value (by_variant_id shopify_item) db in
  let item_code :=
    if negb (truthy_opt truthy_str item_code)
    then item_get_value (by_product_id shopify_item) db
    else item_code in
  let item_code :=
    if negb (truthy_opt truthy_str item_code)
    then item_get_value (by_item_name shopify_item) db
    else item_code in
  item_code.

(** The row [get_order_items] appends for a line item. *)
Definition order_item_row (settings : ShopifySettings)
    (code : option string) (date : string) (shopify_item : LineItem)
    : DocItem :=
  {| item_code := code; item_name := li_name shopify_item;
     rate := li_price shopify_item; item_delivery_date := Some date;
     qty := li_quantity shopify_item;
     stock_uom := or_default (li_uom shopify_item) (translate "Nos");
     warehouse := ss_warehouse settings; cost_center := None;
     allow_zero_valuation_rate := 0 |}.

Definition get_order_items (order_items : list LineItem)
    (settings : ShopifySettings) : M (list DocItem) :=
  for_collect order_items (fun shopify_item =>
    code <- gets (fun st => get_item_code (work st) shopify_item) ;;
    date <- nowdate ;;
    ret [order_item_row settings code date shopify_item]).

(** [sum(flt(discount.get("amount")) for discount in ...)]: [sum] starts
    from zero and adds the doubles one by one, from the left, rounding
    every partial sum. *)
Definition get_discounted_amount (order : Order) : float :=
  fold_left PrimFloat.add
    (map (fun discount => flt (dc_amount discount)) (o_discount_codes order))
    0%float.

Definition dn_item_update (item : LineItem) (dn_item : DocItem) : DocItem :=
  {| item_code := item_code dn_item; item_name := item_name dn_item;
     rate := rate dn_item; item_delivery_date := item_delivery_date dn_item;
     qty := li_quantity item; stock_uom := stock_uom dn_item;
     warehouse := warehouse dn_item; cost_center := cost_center dn_item;
     allow_zero_valuation_rate := 1 |}.

Definition fulfils (db : DB) (item : LineItem) (dn_item : DocItem) : bool :=
  opt_eqb String.eqb (get_item_code db item) (item_code dn_item).

(** The comprehension updates the rows of [dn_items] in place and collects
    them: a row that several fulfilled items match is collected once per
    match and shows, everywhere, the last update made to it. *)
Definition get_fulfillment_items (db : DB) (dn_items : list DocItem)
    (fulfillment_items : list LineItem) : list DocItem :=
  let final dn_item :=
    fold_left (fun row item =>
                 if fulfils db item dn_item then dn_item_update item row
                 else row)
              fulfillment_items dn_item in
  flat_map (fun item => map final (filter (fulfils db item) dn_items))
           fulfillment_items.

Definition by_fulfillment_id (fulfillment : Fulfillment) (d : Doc) : bool :=
  opt_eqb Z.eqb (shopify_fulfillment_id d) (fl_id fulfillment).

(** One turn of the loop of [create_delivery_note]. *)
Definition delivery_note_for (shopify_order : Order)
    (settings : ShopifySettings) (so : Doc) (fulfillment : Fulfillment)
    : M (list DocName) :=
  existing <- db_get_value DeliveryNote (by_fulfillment_id fulfillment) ;;
  if negb (is_some existing) && (docstatus so =? 1) then
    dn <- make_delivery_note (name so) ;;
    date <- getdate (fl_created_at fulfillment) ;;
    dn_items <- gets (fun st =>
      get_fulfillment_items (work st) (items dn)
        (fl_line_items fulfillment)) ;;
    let dn := set_shopify_order_id (fl_order_id fulfillment) dn in
    let dn := set_shopify_order_number (o_name shopify_order) dn in
    let dn := set_set_posting_time 1 dn in
    let dn := set_posting_date date dn in
    let dn := set_shopify_fulfillment_id (fl_id fulfillment) dn in
    let dn := set_naming_series
                (Some (or_default (ss_delivery_note_series settings)
                         "DN-Shopify-")) dn in
    let dn := set_items dn_items dn in
    let dn := set_ignore_mandatory true dn in
    dn <- doc_insert dn ;;
    dn <- doc_submit dn ;;
    db_commit ;;
    ret [name dn]
  else ret [].

Definition create_delivery_note (shopify_order : Order)
    (settings : ShopifySettings) (so : Doc) : M (option (list DocName)) :=
  if negb (truthy_Z (cint (ss_sync_delivery_note settings))) then ret None
  else
    delivery_notes <- for_collect (o_fulfillments shopify_order)
                        (delivery_note_for shopify_order settings so) ;;
    ret (Some delivery_notes).

Definition set_cost_center (l : list DocItem) (cc : option string)
    : list DocItem :=
  map (fun item =>
         {| item_code := item_code item; item_name := item_name item;
            rate := rate item;
            item_delivery_date := item_delivery_date item; qty := qty item;
            stock_uom := stock_uom item; warehouse := warehouse item;
            cost_center := cc;
            allow_zero_valuation_rate := allow_zero_valuation_rate item |})
      l.

Definition make_payment_entry_against_sales_invoice (doc : Doc)
    (settings : ShopifySettings) : M unit :=
  payment_entry <- get_payment_entry (doctype doc) (name doc)
                     (ss_cash_bank_account settings) ;;
  date <- nowdate ;;
  let payment_entry := set_ignore_mandatory true payment_entry in
  let payment_entry := set_reference_no (Some (name doc)) payment_entry in
  let payment_entry := set_reference_date (Some date) payment_entry in
  payment_entry <- doc_insert payment_entry ;;
  _ <- doc_submit payment_entry ;;
  ret tt.

Definition by_order_id (id : Z) (d : Doc) : bool :=
  opt_eqb Z.eqb (shopify_order_id d) (Some id).

Definition create_sales_invoice (shopify_order : Order)
    (settings : ShopifySettings) (so : Doc) : M (option DocName) :=
  existing <- db_get_value SalesInvoice (by_order_id (o_id shopify_order)) ;;
  if negb (is_some existing) && (docstatus so =? 1)
     && negb (truthy_Q (per_billed so))
     && truthy_Z (cint (ss_sync_sales_invoice settings))
  then
    si <- make_sales_invoice (name so) ;;
    date <- getdate (o_created_at shopify_order) ;;
    let si := set_shopify_order_id (Some (o_id shopify_order)) si in
    let si := set_shopify_order_number (o_name shopify_order) si in
    let si := set_set_posting_time 1 si in
    let si := set_posting_date date si in
    let si := set_naming_series
                (Some (or_default (ss_sales_invoice_series settings)
                         "SI-Shopify-")) si in
    let si := set_ignore_mandatory true si in
    let si := set_items (set_cost_center (items si) (ss_cost_center settings))
                si in
    si <- doc_insert si ;;
    si <- doc_submit si ;;
    make_payment_entry_against_sales_invoice si settings ;;
    db_commit ;;
    ret (Some (name si))
  else ret None.

Definition open_order (id : Z) (d : Doc) : bool :=
  (docstatus d <? 2) && by_order_id id d.

(** [frappe.db.get_value("Customer", {...}, "name")]. *)
Definition customer_get_value (id : option Z) (db : DB) : option string :=
  option_map customer_name
    (find (fun c => opt_eqb Z.eqb (shopify_customer_id c) id)
          (tabCustomer db)).

(** [order.get("customer", {}).get("id")]: the default [{}] stands in for
    a key that is missing only; on [null], [.get("id")] is asked of [None]
    and raises. *)
Definition order_customer_id (order : Order) : M (option Z) :=
  match o_customer order with
  | Missing => ret None
  | Null => throw AttributeError
  | Value c => ret (cust_id c)
  end.

(** The document [create_sales_order] hands to [frappe.get_doc]. *)
Definition new_sales_order (shopify_order : Order)
    (settings : ShopifySettings) (customer : option string)
    (items : list DocItem) (date : string) (taxes : list TaxRow) : Doc :=
  {| doctype := SalesOrder; name := Unsaved; docstatus := 0;
     naming_series :=
       Some (or_default (ss_sales_order_series settings) "SO-Shopify-");
     shopify_order_id := Some (o_id shopify_order);
     shopify_order_number := None; shopify_fulfillment_id := None;
     customer := py_or truthy_str customer (ss_default_customer settings);
     delivery_date := Some date; company := ss_company settings;
     selling_price_list := ss_price_list settings;
     ignore_pricing_rule := 1; items := items; taxes := taxes;
     apply_discount_on := Some "Grand Total";
     discount_amount := get_discounted_amount shopify_order;
     status := None; per_billed := 0%Q; set_posting_time := 0;
     posting_date := None; is_return := 0; return_against := None;
     reference_no := None; reference_date := None; paid_to := None;
     ignore_mandatory := false |}.

Definition create_sales_order (shopify_order : Order)
    (settings : ShopifySettings) (company : option string) : M Doc :=
  customer_id <- order_customer_id shopify_order ;;
  customer <- gets (fun st => customer_get_value customer_id (work st)) ;;
  so <- db_get_value SalesOrder (open_order (o_id shopify_order)) ;;
  so <- match so with
        | None =>
            items <- get_order_items (o_line_items shopify_order) settings ;;
            date <- nowdate ;;
            taxes <- get_order_taxes shopify_order settings ;;
            let so := new_sales_order shopify_order settings customer items
                        date taxes in
            let so :=
              if truthy_opt truthy_str company
              then set_status (Some "Draft") (set_company company so)
              else so in
            let so := set_ignore_mandatory true so in
            so <- doc_insert so ;;
            doc_submit so
        | Some n => get_doc SalesOrder n
        end ;;
  db_commit ;;
  ret so.

Definition validate_customer (order : Order) (settings : ShopifySettings)
    : M unit :=
  customer_id <- order_customer_id order ;;
  if truthy_opt truthy_Z customer_id then
    known <- gets (fun st => customer_get_value customer_id (work st)) ;;
    if negb (truthy_opt truthy_str known) then
      match o_customer order with
      | Value c => create_customer c settings
      | _ => ret tt
      end
    else ret tt
  else ret tt.

(** [frappe.db.exists("Item", {"shopify_product_id": product_id})]. *)
Definition item_exists (product_id : option Z) (db : DB) : bool :=
  existsb (fun i => opt_eqb Z.eqb (shopify_product_id i) product_id)
          (tabItem db).

Definition validate_item (order : Order) (settings : ShopifySettings)
    : M unit :=
  for_each (o_line_items order) (fun item =>
    let product_id := py_or truthy_Z (li_product_id item) (li_id item) in
    known <- gets (fun st => item_exists product_id (work st)) ;;
    if truthy_opt truthy_Z product_id && negb known
    then make_item (ss_warehouse settings) item
    else ret tt).

(** The guarded part of the order stage. *)
Definition order_stage (order : Order) (settings : ShopifySettings)
    : M Doc :=
  validate_customer order settings ;;
  validate_item order settings ;;
  create_sales_order order settings None.

Definition create_shopify_order (order : Order) (request_id : option string)
    : M (option Doc) :=
  settings <- get_single_settings ;;
  set_request_id request_id ;;
  existing_so <- db_get_value SalesOrder (open_order (cstr (o_id order))) ;;
  match existing_so with
  | Some n => so <- get_doc SalesOrder n ;; ret (Some so)
  | None =>
      try_except (order_stage order settings)
        (fun e => make_shopify_log "Error" order (Some e) false ;; ret None)
        (fun so => make_shopify_log "Success" order None false ;;
                   ret (Some so))
  end.

Definition status_in (s : option string) (l : list string) : bool :=
  match s with
  | Some x => existsb (String.eqb x) l
  | None => false
  end.

(** The guarded part of the invoice stage. *)
Definition invoice_stage (order : Order) (settings : ShopifySettings)
    (so : Doc) : M (option DocName) :=
  si <- create_sales_invoice order settings so ;;
  match si with
  | Some n =>
      if opt_eqb String.eqb (o_financial_status order) (Some "refunded") then
        return_invoice <- make_sales_return n ;;
        return_invoice <- doc_insert return_invoice ;;
        _ <- doc_submit return_invoice ;;
        ret si
      else ret si
  | None => ret si
  end.

Definition create_shopify_invoice (order : Order) (so : Doc)
    (request_id : option string) : M (option DocName) :=
  settings <- get_single_settings ;;
  set_request_id request_id ;;
  if negb (status_in (o_financial_status order) ["paid"; "refunded"])
  then ret None
  else
    try_except (invoice_stage order settings so)
      (fun e => make_shopify_log "Error" order (Some e) false ;; ret None)
      (fun si => ret si).

Definition create_shopify_delivery (order : Order) (so : Doc)
    (request_id : option string) : M (option (list DocName)) :=
  settings <- get_single_settings ;;
  set_request_id request_id ;;
  match o_fulfillments order with
  | [] => ret None
  | _ :: _ =>
      try_except (create_delivery_note order settings so)
        (fun e => make_shopify_log "Error" order (Some e) false ;; ret None)
        (fun delivery_notes => ret delivery_notes)
  end.

Definition sync_sales_order (order : Order) (request_id : option string)
    : M unit :=
  set_user "Administrator" ;;
  set_request_id request_id ;;
  so <- create_shopify_order order request_id ;;
  match so with
  | Some so =>
      _ <- create_shopify_invoice order so request_id ;;
      _ <- create_shopify_delivery order so request_id ;;
      ret tt
  | None => ret tt
  end.

Definition submitted_order (id : Z) (d : Doc) : bool :=
  (docstatus d =? 1) && by_order_id id d.

(** One turn of the cancellation loop. *)
Definition cancel_doctype (order : Order) (dt : Doctype) : M unit :=
  found <- db_get_value dt (submitted_order (cstr (o_id order))) ;;
  match found with
  | Some n =>
      try_except (d <- get_doc dt n ;; doc_cancel d)
        (fun e => make_shopify_log "Error" order (Some e) true)
        (fun _ => ret tt)
  | None => ret tt
  end.

Definition cancel_shopify_order (order : Order) (request_id : option string)
    : M unit :=
  set_user "Administrator" ;;
  set_request_id request_id ;;
  let doctypes := [DeliveryNote; SalesInvoice; SalesOrder] in
  for_each doctypes (cancel_doctype order).

Definition get_sales_order (shopify_order_id : Z) : M (option Doc) :=
  sales_order <- db_get_value SalesOrder (by_order_id shopify_order_id) ;;
  match sales_order with
  | Some n => so <- get_doc SalesOrder n ;; ret (Some so)
  | None => ret None
  end.

(** The guarded part of [prepare_sales_invoice]. *)
Definition invoice_preparation (order : Order) (settings : ShopifySettings)
    : M unit :=
  sales_order <- get_sales_order (cstr (o_id order)) ;;
  match sales_order with
  | Some so =>
      _ <- create_sales_invoice order settings so ;;
      make_shopify_log "Success" order None false
  | None => ret tt
  end.

Definition prepare_sales_invoice (order : Order) (request_id : option string)
    : M unit :=
  set_user "Administrator" ;;
  settings <- get_single_settings ;;
  set_request_id request_id ;;
  try_except (invoice_preparation order settings)
    (fun e => make_shopify_log "Error" order (Some e) true)
    (fun _ => ret tt).

(** The guarded part of [prepare_delivery_note]. *)
Definition delivery_preparation (order : Order) (settings : ShopifySettings)
    : M unit :=
  sales_order <- get_sales_order (cstr (o_id order)) ;;
  match sales_order with
  | Some so => _ <- create_delivery_note order settings so ;; ret tt
  | None => ret tt
  end ;;
  make_shopify_log "Success" order None false.

Definition prepare_delivery_note (order : Order) (request_id : option string)
    : M unit :=
  set_user "Administrator" ;;
  settings <- get_single_settings ;;
  set_request_id request_id ;;
  try_except (delivery_preparation order settings)
    (fun e => make_shopify_log "Error" order (Some e) true)
    (fun _ => ret tt).

(** ** Vocabulary of the properties *)

(** A computation is [readonly] when it leaves the state as it found it,
    whether it returns or raises. *)
Definition readonly {A} (m : M A) : Prop := forall st, snd (m st) = st.

(** [run P m Q E]: from a state in [P], [m] returns [a] in a state in [Q a],
    or raises in a state in [E]. *)
Definition run {A} (P : State -> Prop) (m : M A) (Q : A -> State -> Prop)
    (E : State -> Prop) : Prop :=
  forall st, P st ->
    match m st with
    | (Ok a, st') => Q a st'
    | (Raise _, st') => E st'
    end.

(** [keeps P m]: [m] keeps [P], however it ends. *)
Definition keeps {A} (P : State -> Prop) (m : M A) : Prop :=
  run P m (fun _ => P) P.

(** A computation that never raises. *)
Definition total {A} (m : M A) : Prop :=
  forall st, exists a st', m st = (Ok a, st').

(** The document as the table stores it on insertion, and the state after
    the insertion. *)
Definition stored (d : Doc) (st : State) : Doc :=
  set_docstatus 0 (set_name (next_name d (work st)) d).

Definition inserted (d : Doc) (st : State) : State :=
  set_work (set_tabDoc (stored d st :: tabDoc (work st)) (work st)) st.

Definition submitted (d : Doc) (st : State) : State :=
  set_work (set_tabDoc
    (update_doc (doctype d) (name d) submit_row (tabDoc (work st)))
    (work st)) st.

(** The state after a document was inserted and then submitted, and after
    a commit. *)
Definition posted (d : Doc) (st : State) : State :=
  submitted (stored d st) (inserted d st).

Definition committed (st : State) : State := set_durable (work st) st.

(** The state after the first document of a doctype with a given name was
    cancelled. *)
Definition cancelled (dt : Doctype) (n : DocName) (st : State) : State :=
  set_work (set_tabDoc
    (update_doc dt n cancel_row (tabDoc (work st))) (work st)) st.

(** The record [make_shopify_log] writes, and the state it leaves when it
    does not roll back. *)
Definition log_record (status : string) (order : Order)
    (exc : option Exc) (st : State) : ShopifyLog :=
  {| log_status := status; log_response_data := order;
     log_exception := exc; log_request_id := flags_request_id st |}.

Definition logged (status : string) (order : Order) (exc : option Exc)
    (st : State) : State :=
  let w := set_tabShopifyLog
             (log_record status order exc st :: tabShopifyLog (work st))
             (work st) in
  set_durable w (set_work w st).

(** What the guards of the connector establish before a document is
    inserted: no document of the doctype answers the key the new one is
    stored under. *)
Definition same_fulfillment (d r : Doc) : bool :=
  opt_eqb Z.eqb (shopify_fulfillment_id r) (shopify_fulfillment_id d).

Definition insertable (d : Doc) (db : DB) : Prop :=
  match doctype d with
  | SalesOrder =>
      match shopify_order_id d with
      | Some id => find_doc SalesOrder (open_order id) db = None
      | None => True
      end
  | SalesInvoice =>
      match shopify_order_id d with
      | Some id => find_doc SalesInvoice (by_order_id id) db = None
      | None => True
      end
  | DeliveryNote => find_doc DeliveryNote (same_fulfillment d) db = None
  | PaymentEntry => True
  end.

(** The two validations that open the order stage. *)
Definition masters_validated (order : Order) (settings : ShopifySettings)
    : M unit :=
  validate_customer order settings ;; validate_item order settings.

(** The documents, the log, the tax table and the committed store of [st]
    are those of [st0]. *)
Definition same_documents (st0 st : State) : Prop :=
  tabDoc (work st) = tabDoc (work st0) /\
  tabShopifyLog (work st) = tabShopifyLog (work st0) /\
  tabShopifyTaxAccount (work st) = tabShopifyTaxAccount (work st0) /\
  durable st = durable st0 /\
  flags_request_id st = flags_request_id st0.

(** The customer id of a payload that has one to read: what
    [order_customer_id] returns when it returns. *)
Definition customer_id_read (order : Order) : option Z :=
  match o_customer order with
  | Value c => cust_id c
  | _ => None
  end.

(** The order the connector inserts for a payload. *)
Definition order_to_insert (order : Order) (settings : ShopifySettings)
    (taxes : list TaxRow) (st : State) : Doc :=
  set_ignore_mandatory true
    (new_sales_order order settings
       (customer_get_value (customer_id_read order) (work st))
       (map (fun li => order_item_row settings (get_item_code (work st) li)
                         (today st) li) (o_line_items order))
       (today st) taxes).

(** The guard of [create_sales_invoice]. *)
Definition invoice_due (order : Order) (settings : ShopifySettings)
    (so : Doc) (db : DB) : bool :=
  negb (is_some (option_map name
          (find_doc SalesInvoice (by_order_id (o_id order)) db)))
  && (docstatus so =? 1)
  && negb (truthy_Q (per_billed so))
  && truthy_Z (cint (ss_sync_sales_invoice settings)).

(** A fulfillment needs no Delivery Note from the connector, for the order
    [so]: one carries its id already, or the order is not submitted. *)
Definition delivered (so : Doc) (db : DB) (f : Fulfillment) : bool :=
  is_some (option_map name (find_doc DeliveryNote (by_fulfillment_id f) db))
  || negb (docstatus so =? 1).

(** An order is settled in a store when the store has an open Sales Order
    for it, no invoice is due for it, and none of its fulfillments needs a
    Delivery Note. *)
Definition settled (order : Order) (db : DB) : Prop :=
  exists d so,
    find_doc SalesOrder (open_order (o_id order)) db = Some d /\
    find_doc SalesOrder (has_name (name d)) db = Some so /\
    (status_in (o_financial_status order) ["paid"; "refunded"] = true ->
     invoice_due order (shopify_settings db) so db = false) /\
    (truthy_Z (cint (ss_sync_delivery_note (shopify_settings db))) = true ->
     forallb (delivered so db) (o_fulfillments order) = true).

(** The number of Error records in the log. *)
Definition error_count (db : DB) : nat :=
  List.length
    (filter (fun r => (log_status r =? "Error")%string) (tabShopifyLog db)).

(** A title has a mapping when the tax table of the settings has a row for
    it; the table is filled when every row names an account. *)
Definition tax_mapped (db : DB) (title : string) : Prop :=
  exists r, In r (tabShopifyTaxAccount db) /\
            parent r = "Shopify Settings" /\ shopify_tax r = title.

Definition tax_table_filled (db : DB) : Prop :=
  Forall (fun r => tax_account r <> "") (tabShopifyTaxAccount db).

(** The lines of an order whose titles the connector resolves. *)
Definition resolved_tax_lines (order : Order) : list TaxLine :=
  (o_tax_lines order ++ map as_tax_line (o_shipping_lines order))%list.

(** The first row of a table that satisfies [P]. *)
Definition first_such {A} (P : A -> Prop) (l : list A) (a : A) : Prop :=
  exists before after,
    l = (before ++ a :: after)%list /\ Forall (fun b => ~ P b) before /\ P a.

(** The three mappings of item resolution, as the specification names
    them, on the fields of a stored item: the item carries the line item's
    variant id; it carries the line item's product id (the line item's own
    id, where it has no product id); its name is the line item's title. *)
Definition variant_mapping (shopify_item : LineItem) (i : Item) : Prop :=
  shopify_variant_id i = li_variant_id shopify_item.

Definition product_key (shopify_item : LineItem) : option Z :=
  match li_product_id shopify_item with
  | Some p => if p =? 0 then li_id shopify_item else Some p
  | None => li_id shopify_item
  end.

Definition product_mapping (shopify_item : LineItem) (i : Item) : Prop :=
  shopify_product_id i = product_key shopify_item.

Definition name_match (shopify_item : LineItem) (i : Item) : Prop :=
  it_item_name i = li_title shopify_item.

(** A mapping yields a code when the first item of the table that it maps
    to has one; it yields none when it maps to no item, or to an item
    without a code. *)
Definition yields (P : Item -> Prop) (db : DB) (code : string) : Prop :=
  exists i,
    first_such P (tabItem db) i /\ it_item_code i = code /\ code <> "".

Definition yields_none (P : Item -> Prop) (db : DB) : Prop :=
  Forall (fun i => ~ P i) (tabItem db) \/
  exists i, first_such P (tabItem db) i /\ it_item_code i = "".

(** The sum of the discount codes' amounts, as the specification states
    it, for doubles: the amounts are added to a running total in the order
    of the list, from a total of zero. *)
Fixpoint running_total (total : float) (amounts : list float) : float :=
  match amounts with
  | [] => total
  | amount :: rest => running_total (total + amount)%float rest
  end.

Definition sum_of_amounts (order : Order) : float :=
  running_total 0%float
    (map (fun discount => flt (dc_amount discount)) (o_discount_codes order)).

(** A stored document is kept when it is still there, as it was or
    submitted since; the documents of a table are kept when the table holds
    them all, in their order, under whatever was added on top. *)
Definition row_kept (d d' : Doc) : Prop := d' = d \/ d' = submit_row d.

Definition docs_kept (l l' : list Doc) : Prop :=
  exists new old, l' = (new ++ old)%list /\ Forall2 row_kept l old.

(** [st] follows [st0]: the connection still holds the documents of [st0],
    and so does every commit made since. *)
Definition follows (st0 st : State) : Prop :=
  docs_kept (tabDoc (work st0)) (tabDoc (work st)) /\
  (durable st = durable st0 \/
   docs_kept (tabDoc (work st0)) (tabDoc (durable st)) /\
   docs_kept (tabDoc (durable st)) (tabDoc (work st))).

(** The connection holds what was committed. *)
Definition coherent (st : State) : Prop :=
  docs_kept (tabDoc (durable st)) (tabDoc (work st)).

(** A computation is contained at [st] when it returns, without raising,
    in a state that keeps the committed and the pending documents of
    [st]. *)
Definition contained {A} (m : M A) (st : State) : Prop :=
  exists a st',
    m st = (Ok a, st') /\
    docs_kept (tabDoc (durable st)) (tabDoc (durable st')) /\
    docs_kept (tabDoc (work st)) (tabDoc (work st')) /\
    coherent st'.

(** The two ways the cancellation of a document fails: the framework
    raises, or the document is not a submitted one. *)
Definition cancel_fails (d : Doc) (st : State) (e : Exc) : Prop :=
  faults st (call_cancel d) (work st) = true /\
    e = FrameworkError (call_cancel d)
  \/
  faults st (call_cancel d) (work st) = false /\ docstatus d <> 1 /\
    e = ValidationError "Cannot cancel".

(** One doctype's turn in a cancellation, as the specification words it:
    the submitted document keyed by the order id is looked for; if there is
    none nothing happens; if there is one it is cancelled, or the failure
    to cancel it is logged, on its own, after a rollback. *)
Inductive cancel_turn (order : Order) (dt : Doctype) (st : State)
    : State -> Prop :=
  | turn_nothing :
      find_doc dt (submitted_order (o_id order)) (work st) = None ->
      cancel_turn order dt st st
  | turn_cancelled found d :
      find_doc dt (submitted_order (o_id order)) (work st) = Some found ->
      find_doc dt (has_name (name found)) (work st) = Some d ->
      faults st (call_cancel d) (work st) = false ->
      docstatus d = 1 ->
      cancel_turn order dt st (cancelled dt (name found) st)
  | turn_failed found d e :
      find_doc dt (submitted_order (o_id order)) (work st) = Some found ->
      find_doc dt (has_name (name found)) (work st) = Some d ->
      cancel_fails d st e ->
      cancel_turn order dt st
        (logged "Error" order (Some e) (set_work (durable st) st)).

(** The document a doctype's turn is after, on the fields of a stored
    document: submitted, and keyed by the order id. *)
Definition keyed_submitted (dt : Doctype) (id : Z) (d : Doc) : Prop :=
  doctype d = dt /\ docstatus d = 1 /\ shopify_order_id d = Some id.

(** The document stored under a doctype and a name is a cancelled one. *)
Definition stored_cancelled (dt : Doctype) (n : DocName) (db : DB) : Prop :=
  exists d, find_doc dt (has_name n) db = Some d /\ docstatus d = 2.

(** What the specification says of a cancellation, between the state
    before and the state after: of each of the three doctypes, the
    submitted document keyed by the order id is cancelled. *)
Definition all_cancelled (order : Order) (st st' : State) : Prop :=
  forall dt d,
    In dt [DeliveryNote; SalesInvoice; SalesOrder] ->
    first_such (keyed_submitted dt (o_id order)) (tabDoc (work st)) d ->
    stored_cancelled dt (name d) (work st').

(** Nothing is pending on the connection: what it holds is what was
    committed. *)
Definition clean (st : State) : Prop := work st = durable st.

(** The documents the invariant of the data model counts. *)
Definition is_open_order (id : Z) (d : Doc) : bool :=
  doctype_eqb (doctype d) SalesOrder && open_order id d.

Definition is_invoice_of (id : Z) (d : Doc) : bool :=
  doctype_eqb (doctype d) SalesInvoice && by_order_id id d.

Definition is_delivery_of (fid : Z) (d : Doc) : bool :=
  doctype_eqb (doctype d) DeliveryNote
  && opt_eqb Z.eqb (shopify_fulfillment_id d) (Some fid).

Definition count_docs (f : Doc -> bool) (db : DB) : nat :=
  List.length (filter f (tabDoc db)).

(** At most one Sales Order that is not cancelled and at most one Sales
    Invoice per external order id, at most one Delivery Note per external
    fulfillment id. *)
Definition at_most_one (db : DB) : Prop :=
  (forall id, count_docs (is_open_order id) db <= 1)%nat /\
  (forall id, count_docs (is_invoice_of id) db <= 1)%nat /\
  (forall fid, count_docs (is_delivery_of fid) db <= 1)%nat.

Definition unique_documents (st : State) : Prop :=
  at_most_one (work st) /\ at_most_one (durable st).

(** What the specification says of a refunded order, between the state
    before and the state after: a Sales Invoice was created, and a
    submitted return invoice that references it. *)
Definition invoice_and_return_created (st st' : State) : Prop :=
  exists si ri new,
    tabDoc (work st') = (new ++ tabDoc (work st))%list /\
    In si new /\ doctype si = SalesInvoice /\
    In ri new /\ doctype ri = SalesInvoice /\
    return_against ri = Some (name si) /\ docstatus ri = 1.

(** What the specification says of a paid order without fulfillments:
    exactly a Sales Order, a Sales Invoice and a Payment Entry were
    created. *)
Definition order_invoice_payment_created (st st' : State) : Prop :=
  exists so si pe,
    tabDoc (work st') = pe :: si :: so :: tabDoc (work st) /\
    doctype so = SalesOrder /\ doctype si = SalesInvoice /\
    doctype pe = PaymentEntry.

(** ** Sample data *)

Definition demo_settings : ShopifySettings :=
  {| ss_warehouse := Some "Stores"; ss_default_customer := Some "Guest";
     ss_company := Some "ACME"; ss_price_list := Some "Standard Selling";
     ss_cost_center := Some "Main"; ss_cash_bank_account := Some "Cash";
     ss_sales_order_series := None; ss_sales_invoice_series := None;
     ss_delivery_note_series := None; ss_sync_sales_invoice := 1;
     ss_sync_delivery_note := 1 |}.

Definition demo_tax_table : list ShopifyTaxAccount :=
  [ {| parent := "Shopify Settings"; shopify_tax := "GST";
       tax_account := "GST - A" |};
    {| parent := "Shopify Settings"; shopify_tax := "Freight";
       tax_account := "Freight - A" |} ].

Definition demo_db : DB :=
  {| tabCustomer := []; tabItem := []; tabDoc := []; tabShopifyLog := [];
     tabShopifyTaxAccount := demo_tax_table;
     shopify_settings := demo_settings |}.

Definition no_faults : Call -> DB -> bool := fun _ _ => false.

Definition demo_state : State :=
  {| work := demo_db; durable := demo_db; flags_request_id := None;
     session_user := "Guest"; faults := no_faults; today := "2020-01-01" |}.

Definition demo_item : LineItem :=
  {| li_id := Some 11; li_product_id := Some 7; li_variant_id := Some 70;
     li_title := Some "Widget"; li_name := Some "Widget - S";
     li_price := Some (10 # 1)%Q; li_quantity := Some 2; li_uom := None |}.

Definition demo_gst : TaxLine :=
  {| tl_title := Some "GST"; tl_rate := Some 0.07%float;
     tl_price := Some (1 # 2)%Q |}.

(** A shipping charge with one nested tax line. *)
Definition demo_freight : ShippingLine :=
  {| sl_title := Some "Freight"; sl_price := Some (5 # 1)%Q;
     sl_tax_lines := [demo_gst] |}.

Definition demo_fulfillment : Fulfillment :=
  {| fl_id := Some 900; fl_order_id := Some 1001;
     fl_created_at := Some "2020-01-02"; fl_line_items := [demo_item] |}.

Definition demo_order (financial_status : string)
    (fulfillments : list Fulfillment) : Order :=
  {| o_id := 1001; o_name := Some "#1001";
     o_customer :=
       Value {| cust_id := Some 5; cust_first_name := Some "Ann" |};
     o_line_items := [demo_item];
     o_discount_codes :=
       [ {| dc_code := Some "TEN"; dc_amount := Some 0.1%float |};
         {| dc_code := Some "TWENTY"; dc_amount := Some 0.2%float |};
         {| dc_code := Some "THIRTY"; dc_amount := Some 0.3%float |} ];
     o_tax_lines := [demo_gst]; o_shipping_lines := [demo_freight];
     o_taxes_included := false; o_fulfillments := fulfillments;
     o_financial_status := Some financial_status;
     o_created_at := Some "2020-01-01" |}.

(** An order whose only line item has no product id and matches no item. *)
Definition demo_unknown_item : LineItem :=
  {| li_id := None; li_product_id := None; li_variant_id := Some 71;
     li_title := Some "Gadget"; li_name := Some "Gadget"; li_price := None;
     li_quantity := Some 1; li_uom := None |}.

Definition demo_order_unknown_item : Order :=
  {| o_id := 1002; o_name := Some "#1002"; o_customer := Missing;
     o_line_items := [demo_unknown_item]; o_discount_codes := [];
     o_tax_lines := []; o_shipping_lines := []; o_taxes_included := false;
     o_fulfillments := []; o_financial_status := Some "paid";
     o_created_at := None |}.

(** A store with three items, each of which answers the sample line item
    by another mapping: the first by its name, the second by the product
    id, the third by the variant id; and the sample line item in a size
    that no stored item carries the variant id of. *)
Definition demo_items : list Item :=
  [ {| it_item_code := "WIDGET-BY-NAME"; it_item_name := Some "Widget";
       shopify_product_id := None; shopify_variant_id := None |};
    {| it_item_code := "WIDGET-BY-PRODUCT"; it_item_name := Some "Widgets";
       shopify_product_id := Some 7; shopify_variant_id := None |};
    {| it_item_code := "WIDGET-S"; it_item_name := Some "Widget - S";
       shopify_product_id := Some 7; shopify_variant_id := Some 70 |} ].

Definition demo_db_items : DB := set_tabItem demo_items demo_db.

Definition demo_item_large : LineItem :=
  {| li_id := Some 12; li_product_id := Some 7; li_variant_id := Some 72;
     li_title := Some "Widget"; li_name := Some "Widget - L";
     li_price := Some (12 # 1)%Q; li_quantity := Some 1; li_uom := None |}.

(** An order with a tax line whose title the tax table does not map. *)
Definition demo_pst : TaxLine :=
  {| tl_title := Some "PST"; tl_rate := Some 0.07%float; tl_price := None |}.

Definition demo_order_pst : Order :=
  {| o_id := 1003; o_name := Some "#1003"; o_customer := Missing;
     o_line_items := [demo_item]; o_discount_codes := [];
     o_tax_lines := [demo_pst]; o_shipping_lines := [];
     o_taxes_included := false; o_fulfillments := [];
     o_financial_status := Some "paid"; o_created_at := None |}.

(** The state after the sample order was synchronised once. *)
Definition demo_synced : State :=
  snd (sync_sales_order (demo_order "paid" [demo_fulfillment]) None
         demo_state).

(** The sample store after an order was synchronised that was not paid
    yet: the order stands submitted, without an invoice. *)
Definition demo_ordered : State :=
  snd (sync_sales_order (demo_order "pending" []) None demo_state).

(** The Sales Order that stands in [demo_ordered]. *)
Definition demo_sales_order : Doc :=
  match find_doc SalesOrder (open_order 1001) (work demo_ordered) with
  | Some d => d
  | None => new_doc SalesOrder
  end.

(** The sample store with the synchronisation of invoices switched off,
    and the state after an order was synchronised there: the order stands
    submitted, without an invoice. *)
Definition demo_settings_no_invoice : ShopifySettings :=
  {| ss_warehouse := Some "Stores"; ss_default_customer := Some "Guest";
     ss_company := Some "ACME"; ss_price_list := Some "Standard Selling";
     ss_cost_center := Some "Main"; ss_cash_bank_account := Some "Cash";
     ss_sales_order_series := None; ss_sales_invoice_series := None;
     ss_delivery_note_series := None; ss_sync_sales_invoice := 0;
     ss_sync_delivery_note := 1 |}.

Definition demo_db_no_invoice : DB :=
  {| tabCustomer := []; tabItem := []; tabDoc := []; tabShopifyLog := [];
     tabShopifyTaxAccount := demo_tax_table;
     shopify_settings := demo_settings_no_invoice |}.

Definition demo_state_no_invoice : State :=
  {| work := demo_db_no_invoice; durable := demo_db_no_invoice;
     flags_request_id := None; session_user := "Guest";
     faults := no_faults; today := "2020-01-01" |}.

Definition demo_ordered_no_invoice : State :=
  snd (sync_sales_order (demo_order "pending" []) None
         demo_state_no_invoice).

(** A framework in which submitting a Sales Invoice fails, and one in which
    cancelling a Sales Invoice fails. *)
Definition invoice_submit_fails : Call -> DB -> bool :=
  fun c _ =>
    match c with
    | call_submit d => doctype_eqb (doctype d) SalesInvoice
    | _ => false
    end.

Definition invoice_cancel_fails : Call -> DB -> bool :=
  fun c _ =>
    match c with
    | call_cancel d => doctype_eqb (doctype d) SalesInvoice
    | _ => false
    end.

Definition demo_state_failing_submit : State :=
  {| work := demo_db; durable := demo_db; flags_request_id := None;
     session_user := "Guest"; faults := invoice_submit_fails;
     today := "2020-01-01" |}.

Definition demo_synced_failing_cancel : State :=
  {| work := work demo_synced; durable := durable demo_synced;
     flags_request_id := None; session_user := "Guest";
     faults := invoice_cancel_fails; today := "2020-01-03" |}.

(** ** Vocabulary of the further properties *)

(** The submitted documents of a doctype. *)
Definition is_submitted (dt : Doctype) (d : Doc) : bool :=
  doctype_eqb (doctype d) dt && (docstatus d =? 1).

Definition submitted_count (dt : Doctype) (db : DB) : nat :=
  count_docs (is_submitted dt) db.

(** An item answers a line item when one of the three keys of
    [get_item_code] finds it. *)
Definition item_matches (shopify_item : LineItem) (i : Item) : bool :=
  by_variant_id shopify_item i || by_product_id shopify_item i
  || by_item_name shopify_item i.

(** The account the tax table gives for a title, if the title is there and
    the table names an account for it. *)
Definition account_of (db : DB) (title : option string) : option string :=
  match title with
  | Some t =>
      match tax_account_get_value t db with
      | Some a => if truthy_str a then Some a else None
      | None => None
      end
  | None => None
  end.

(** The lines the connector can turn into charge lines. *)
Definition tax_line_usable (db : DB) (tax : TaxLine) : bool :=
  is_some (account_of db (tl_title tax)) && is_some (tl_rate tax).

Definition shipping_line_usable (db : DB) (shipping_charge : ShippingLine)
    : bool :=
  is_some (account_of db (sl_title shipping_charge))
  && is_some (sl_price shipping_charge).

(** The charge line of a tax line, and the charge line of a shipping
    charge. *)
Definition tax_line_row (order : Order) (settings : ShopifySettings) (db : DB)
    (tax : TaxLine) (row : TaxRow) : Prop :=
  exists account r,
    account_of db (tl_title tax) = Some account /\ tl_rate tax = Some r /\
    row = {| charge_type := "On Net Total"; account_head := account;
             description := DescPercent (tl_title tax) (r * 100)%float;
             tax_rate := Some (r * 100)%float; tax_amount := None;
             included_in_print_rate :=
               if o_taxes_included order then 1 else 0;
             tax_cost_center := ss_cost_center settings |}.

Definition shipping_line_row (settings : ShopifySettings) (db : DB)
    (shipping_charge : ShippingLine) (row : TaxRow) : Prop :=
  exists account title price,
    sl_title shipping_charge = Some title /\
    account_of db (Some title) = Some account /\
    sl_price shipping_charge = Some price /\
    row = {| charge_type := "Actual"; account_head := account;
             description := DescTitle title; tax_rate := None;
             tax_amount := Some price; included_in_print_rate := 0;
             tax_cost_center := ss_cost_center settings |}.

(** The session an entry point of the connector leaves behind. *)
Definition administrator_session (request_id : option string) (st : State)
    : Prop :=
  session_user st = "Administrator" /\ flags_request_id st = request_id.

(** What a cancellation started from a table [T0] of committed documents
    has done to the documents after the turns of the doctypes in [done]:
    nothing is committed, no document is added or removed, and of every
    doctype that had its turn at most one submitted document is gone. *)
Definition cancel_bound (T0 : list Doc) (done : list Doctype) (st : State)
    : Prop :=
  tabDoc (durable st) = T0 /\
  List.length (tabDoc (work st)) = List.length T0 /\
  forall dt,
    (List.length (filter (is_submitted dt) (tabDoc (work st)))
     <= List.length (filter (is_submitted dt) T0))%nat /\
    (List.length (filter (is_submitted dt) T0)
     <= S (List.length (filter (is_submitted dt) (tabDoc (work st)))))%nat /\
    (~ In dt done ->
     (List.length (filter (is_submitted dt) T0)
      <= List.length (filter (is_submitted dt) (tabDoc (work st))))%nat).

(** The Sales Invoice the connector makes for a payload, its Payment Entry
    made on a given day, and the Delivery Note it makes for a fulfillment:
    what the connector itself writes on them. *)
Definition invoice_of (order : Order) (settings : ShopifySettings) (si : Doc)
    : Prop :=
  doctype si = SalesInvoice /\ docstatus si = 1 /\
  shopify_order_id si = Some (o_id order) /\
  shopify_order_number si = o_name order /\
  set_posting_time si = 1 /\ posting_date si = o_created_at order /\
  naming_series si
    = Some (or_default (ss_sales_invoice_series settings) "SI-Shopify-") /\
  Forall (fun row => cost_center row = ss_cost_center settings) (items si).

Definition payment_of (si : Doc) (date : string) (pe : Doc) : Prop :=
  doctype pe = PaymentEntry /\ docstatus pe = 1 /\
  reference_no pe = Some (name si) /\ reference_date pe = Some date.

Definition delivery_note_of (order : Order) (settings : ShopifySettings)
    (fulfillment : Fulfillment) (dn : Doc) : Prop :=
  doctype dn = DeliveryNote /\ docstatus dn = 1 /\
  shopify_fulfillment_id dn = fl_id fulfillment /\
  shopify_order_id dn = fl_order_id fulfillment /\
  shopify_order_number dn = o_name order /\
  set_posting_time dn = 1 /\ posting_date dn = fl_created_at fulfillment /\
  naming_series dn
    = Some (or_default (ss_delivery_note_series settings) "DN-Shopify-") /\
  Forall (fun row =>
            allow_zero_valuation_rate row = 1 /\
            exists item, In item (fl_line_items fulfillment) /\
                         qty row = li_quantity item)
         (items dn).

(** The record [make_shopify_log] writes for a request. *)
Definition log_of (status : string) (order : Order) (exc : option Exc)
    (request_id : option string) : ShopifyLog :=
  {| log_status := status; log_response_data := order;
     log_exception := exc; log_request_id := request_id |}.

(** The store holds the documents [T0] under nothing but submitted
    Delivery Notes, and the log [L0]. *)
Definition delivery_notes_added (T0 : list Doc) (L0 : list ShopifyLog)
    (db : DB) : Prop :=
  tabShopifyLog db = L0 /\
  exists dns,
    tabDoc db = (dns ++ T0)%list /\
    Forall (fun d => doctype d = DeliveryNote /\ docstatus d = 1) dns.

(** The row the connector writes on a Sales Order for a line item. *)
Definition order_row (settings : ShopifySettings) (db : DB) (date : string)
    (shopify_item : LineItem) (row : DocItem) : Prop :=
  item_code row = get_item_code db shopify_item /\
  item_name row = li_name shopify_item /\
  rate row = li_price shopify_item /\
  qty row = li_quantity shopify_item /\
  item_delivery_date row = Some date /\
  warehouse row = ss_warehouse settings.

(** A log record of a request, for a payload. *)
Definition logs_request (order : Order) (request_id : option string)
    (r : ShopifyLog) : Prop :=
  log_response_data r = order /\ log_request_id r = request_id.

(** ** Further sample data *)

(** A second fulfillment of the sample order, and the state after the
    order was synchronised with both: two Delivery Notes carry the order
    id. *)
Definition demo_fulfillment_2 : Fulfillment :=
  {| fl_id := Some 901; fl_order_id := Some 1001;
     fl_created_at := Some "2020-01-03"; fl_line_items := [demo_item] |}.

Definition demo_delivered_twice : State :=
  snd (sync_sales_order
         (demo_order "paid" [demo_fulfillment; demo_fulfillment_2]) None
         demo_state).

(** The sample store once the masters of the sample order are there. *)
Definition demo_validated : State :=
  snd (masters_validated (demo_order "paid" []) demo_settings demo_state).

(** The Sales Order that stands in [demo_synced]. *)
Definition demo_synced_order : Doc :=
  match find_doc SalesOrder (by_order_id 1001) (work demo_synced) with
  | Some d => d
  | None => new_doc SalesOrder
  end.

(** A framework in which submitting a Sales Order fails, and the store a
    synchronisation leaves there: the order is a draft.  [demo_drafted] is
    that store under a framework that works again. *)
Definition order_submit_fails : Call -> DB -> bool :=
  fun c _ =>
    match c with
    | call_submit d => doctype_eqb (doctype d) SalesOrder
    | _ => false
    end.

Definition demo_state_failing_order_submit : State :=
  {| work := demo_db; durable := demo_db; flags_request_id := None;
     session_user := "Guest"; faults := order_submit_fails;
     today := "2020-01-01" |}.

Definition demo_drafted : State :=
  {| work := work (snd (sync_sales_order
                          (demo_order "paid" [demo_fulfillment]) None
                          demo_state_failing_order_submit));
     durable := durable (snd (sync_sales_order
                                (demo_order "paid" [demo_fulfillment]) None
                                demo_state_failing_order_submit));
     flags_request_id := None; session_user := "Guest";
     faults := no_faults; today := "2020-01-02" |}.

Definition demo_draft_order : Doc :=
  match find_doc SalesOrder (open_order 1001) (work demo_drafted) with
  | Some d => d
  | None => new_doc SalesOrder
  end.

(** * Properties *)

(** ** Running computations *)

Lemma run_bind {A B} (m : M A) (k : A -> M B) st :
  bind m k st =
  match m st with
  | (Ok a, st') => k a st'
  | (Raise e, st') => (Raise e, st')
  end.
Proof. reflexivity. Qed.

Lemma run_bind_ok {A B} (m : M A) (k : A -> M B) st a st' :
  m st = (Ok a, st') -> bind m k st = k a st'.
Proof. intros H. rewrite run_bind, H. reflexivity. Qed.

Lemma run_bind_raise {A B} (m : M A) (k : A -> M B) st e st' :
  m st = (Raise e, st') -> bind m k st = (Raise e, st').
Proof. intros H. rewrite run_bind, H. reflexivity. Qed.

Lemma doctype_eqb_refl dt : doctype_eqb dt dt = true.
Proof. destruct dt; reflexivity. Qed.

Lemma doctype_eqb_eq a b : doctype_eqb a b = true <-> a = b.
Proof. destruct a, b; simpl; split; congruence. Qed.

Lemma docname_eqb_refl n : docname_eqb n n = true.
Proof.
  destruct n as [|s k]; simpl; [reflexivity|].
  rewrite String.eqb_refl, Nat.eqb_refl. reflexivity.
Qed.

Lemma docname_eqb_eq a b : docname_eqb a b = true <-> a = b.
Proof.
  destruct a as [|s k], b as [|s' k']; simpl; split; try congruence.
  - intros H. apply andb_true_iff in H as [H1 H2].
    apply String.eqb_eq in H1. apply Nat.eqb_eq in H2. congruence.
  - intros H. injection H as -> ->.
    rewrite String.eqb_refl, Nat.eqb_refl. reflexivity.
Qed.

(** ** Computations that only read *)

Lemma readonly_ret {A} (a : A) : readonly (ret a).
Proof. intros st. reflexivity. Qed.

Lemma readonly_throw {A} e : readonly (@throw A e).
Proof. intros st. reflexivity. Qed.

Lemma readonly_gets {A} (f : State -> A) : readonly (gets f).
Proof. intros st. reflexivity. Qed.

Lemma readonly_bind {A B} (m : M A) (k : A -> M B) :
  readonly m -> (forall a, readonly (k a)) -> readonly (bind m k).
Proof.
  intros Hm Hk st. rewrite run_bind. specialize (Hm st).
  destruct (m st) as [[a|e] st1]; simpl in Hm; subst st1.
  - apply Hk.
  - reflexivity.
Qed.

Lemma readonly_framework c : readonly (framework c).
Proof. intros st. unfold framework. destruct (faults st c (work st)); reflexivity. Qed.

Lemma readonly_get_doc dt n : readonly (get_doc dt n).
Proof. intros st. unfold get_doc. destruct (find_doc _ _ _); reflexivity. Qed.

Lemma readonly_for_collect {A B} (l : list A) (body : A -> M (list B)) :
  (forall x, readonly (body x)) -> readonly (for_collect l body).
Proof.
  intros Hb. induction l as [|x l IH]; simpl.
  - apply readonly_ret.
  - apply readonly_bind; [apply Hb|]. intros ys.
    apply readonly_bind; [apply IH|]. intros zs. apply readonly_ret.
Qed.

Lemma readonly_index {A} key (o : option A) : readonly (index key o).
Proof. destruct o; [apply readonly_ret | apply readonly_throw]. Qed.

Lemma readonly_percent r : readonly (percent r).
Proof. destruct r; [apply readonly_ret | apply readonly_throw]. Qed.

Lemma readonly_order_customer_id order : readonly (order_customer_id order).
Proof.
  unfold order_customer_id.
  destruct (o_customer order);
    [apply readonly_ret | apply readonly_throw | apply readonly_ret].
Qed.

(** Reading the customer id raises on a customer that is [null], and on
    nothing else. *)
Lemma order_customer_id_run order st :
  order_customer_id order st =
  match o_customer order with
  | Null => (Raise AttributeError, st)
  | _ => (Ok (customer_id_read order), st)
  end.
Proof.
  unfold order_customer_id, customer_id_read.
  destruct (o_customer order); reflexivity.
Qed.

Create HintDb readonly.

#[local] Hint Resolve readonly_ret readonly_throw readonly_gets
  readonly_framework readonly_get_doc readonly_index readonly_percent
  readonly_order_customer_id : readonly.

Ltac readonly_steps :=
  repeat first
    [ apply readonly_bind; [| intros ? ]
    | apply readonly_for_collect; intros ?
    | solve [ auto with readonly ] ].

Lemma readonly_get_tax_account_head tax : readonly (get_tax_account_head tax).
Proof.
  unfold get_tax_account_head. destruct (tl_title tax); [|apply readonly_throw].
  apply readonly_bind; [apply readonly_gets|]. intros [a|]; [|apply readonly_throw].
  destruct (truthy_str a); [apply readonly_ret | apply readonly_throw].
Qed.

#[local] Hint Resolve readonly_get_tax_account_head : readonly.

Lemma readonly_shipping_charge_row settings tax :
  readonly (shipping_charge_row settings tax).
Proof. unfold shipping_charge_row. readonly_steps. Qed.

Lemma readonly_order_tax_row order settings tax :
  readonly (order_tax_row order settings tax).
Proof. unfold order_tax_row. readonly_steps. Qed.

#[local] Hint Resolve readonly_shipping_charge_row readonly_order_tax_row
  : readonly.

Lemma readonly_update_taxes_with_shipping_lines taxes lines settings :
  readonly (update_taxes_with_shipping_lines taxes lines settings).
Proof. unfold update_taxes_with_shipping_lines. readonly_steps. Qed.

#[local] Hint Resolve readonly_update_taxes_with_shipping_lines : readonly.

Lemma readonly_get_order_taxes order settings :
  readonly (get_order_taxes order settings).
Proof. unfold get_order_taxes. readonly_steps. Qed.

Lemma readonly_get_order_items l settings :
  readonly (get_order_items l settings).
Proof. unfold get_order_items, nowdate. readonly_steps. Qed.

Lemma readonly_db_get_value dt f : readonly (db_get_value dt f).
Proof. apply readonly_gets. Qed.

Lemma readonly_getdate s : readonly (getdate s).
Proof. unfold getdate. readonly_steps. Qed.

Lemma readonly_make_sales_invoice n : readonly (make_sales_invoice n).
Proof. unfold make_sales_invoice. readonly_steps. Qed.

Lemma readonly_make_delivery_note n : readonly (make_delivery_note n).
Proof. unfold make_delivery_note. readonly_steps. Qed.

Lemma readonly_make_sales_return n : readonly (make_sales_return n).
Proof. unfold make_sales_return. readonly_steps. Qed.

Lemma readonly_get_payment_entry dt n b : readonly (get_payment_entry dt n b).
Proof. unfold get_payment_entry. readonly_steps. Qed.

#[local] Hint Resolve readonly_get_order_taxes readonly_get_order_items
  readonly_db_get_value readonly_getdate readonly_make_sales_invoice
  readonly_make_delivery_note readonly_make_sales_return
  readonly_get_payment_entry : readonly.

(** What a read-only computation did is known from the state it ran in. *)
Lemma readonly_run {A} (m : M A) st r st' :
  readonly m -> m st = (r, st') -> st' = st.
Proof. intros Hm H. specialize (Hm st). rewrite H in Hm. exact Hm. Qed.

(** ** A program logic for the monad *)

Lemma run_ret {A} (P : State -> Prop) (a : A) (Q : A -> State -> Prop) E :
  (forall st, P st -> Q a st) -> run P (ret a) Q E.
Proof. intros H st HP. simpl. auto. Qed.

Lemma run_throw {A} (P : State -> Prop) e (Q : A -> State -> Prop)
    (E : State -> Prop) :
  (forall st, P st -> E st) -> run P (throw e) Q E.
Proof. intros H st HP. simpl. auto. Qed.

Lemma run_seq {A B} P (m : M A) (k : A -> M B) Q1 Q E :
  run P m Q1 E -> (forall a, run (Q1 a) (k a) Q E) -> run P (bind m k) Q E.
Proof.
  intros Hm Hk st HP. rewrite run_bind. specialize (Hm st HP).
  destruct (m st) as [[a|e] st1]; [apply (Hk a st1 Hm) | exact Hm].
Qed.

Lemma run_weaken {A} (P P' : State -> Prop) (m : M A)
    (Q Q' : A -> State -> Prop) (E E' : State -> Prop) :
  run P m Q E ->
  (forall st, P' st -> P st) ->
  (forall a st, Q a st -> Q' a st) ->
  (forall st, E st -> E' st) ->
  run P' m Q' E'.
Proof.
  intros H HP HQ HE st HP'. specialize (H st (HP st HP')).
  destruct (m st) as [[a|e] st1]; auto.
Qed.

Lemma run_gets {A} P (f : State -> A) E :
  run P (gets f) (fun a st => P st /\ a = f st) E.
Proof. intros st HP. simpl. auto. Qed.

Lemma run_modify P (f : State -> State) (Q : unit -> State -> Prop) E :
  (forall st, P st -> Q tt (f st)) -> run P (modify f) Q E.
Proof. intros H st HP. simpl. auto. Qed.

Lemma run_readonly {A} (P : State -> Prop) (m : M A) :
  readonly m -> run P m (fun _ => P) P.
Proof.
  intros Hm st HP. specialize (Hm st).
  destruct (m st) as [[a|e] st1]; simpl in Hm; subst st1; exact HP.
Qed.

(** A read-only computation keeps what is known of the state, and what it
    returns is what it returns in that state. *)
Lemma run_readonly_result {A} (P : State -> Prop) (m : M A) :
  readonly m -> run P m (fun a st => P st /\ m st = (Ok a, st)) P.
Proof.
  intros Hm st HP. pose proof (Hm st) as Hs.
  destruct (m st) as [[a|e] st1] eqn:Hrun; simpl in Hs; subst st1; auto.
Qed.

Lemma run_try_except {A B} P (body : M A) (handler : Exc -> M B)
    (orelse : A -> M B) Q1 E1 Q E :
  run P body Q1 E1 ->
  (forall e, run E1 (handler e) Q E) ->
  (forall a, run (Q1 a) (orelse a) Q E) ->
  run P (try_except body handler orelse) Q E.
Proof.
  intros Hb Hh Ho st HP. unfold try_except. specialize (Hb st HP).
  destruct (body st) as [[a|e] st1]; [apply (Ho a st1 Hb) | apply (Hh e st1 Hb)].
Qed.

Lemma run_for_each {A} (I : State -> Prop) (l : list A) (body : A -> M unit) :
  (forall x, In x l -> run I (body x) (fun _ => I) I) ->
  run I (for_each l body) (fun _ => I) I.
Proof.
  induction l as [|x l IH]; intros Hb; simpl.
  - apply run_ret. auto.
  - eapply run_seq; [apply Hb; left; reflexivity|].
    intros u. apply IH. intros y Hy. apply Hb. right. exact Hy.
Qed.

Lemma run_for_collect {A B} (I : State -> Prop) (l : list A)
    (body : A -> M (list B)) :
  (forall x, In x l -> run I (body x) (fun _ => I) I) ->
  run I (for_collect l body) (fun _ => I) I.
Proof.
  induction l as [|x l IH]; intros Hb; simpl.
  - apply run_ret. auto.
  - eapply run_seq; [apply Hb; left; reflexivity|]. intros ys.
    eapply run_seq; [apply IH; intros y Hy; apply Hb; right; exact Hy|].
    intros zs. apply run_ret. auto.
Qed.

Lemma keeps_seq {A B} P (m : M A) (k : A -> M B) :
  keeps P m -> (forall a, keeps P (k a)) -> keeps P (bind m k).
Proof. intros Hm Hk. eapply run_seq; [exact Hm | exact Hk]. Qed.

Lemma keeps_readonly {A} P (m : M A) : readonly m -> keeps P m.
Proof. apply run_readonly. Qed.

Lemma keeps_try_except {A B} P (body : M A) (handler : Exc -> M B)
    (orelse : A -> M B) :
  keeps P body -> (forall e, keeps P (handler e)) ->
  (forall a, keeps P (orelse a)) ->
  keeps P (try_except body handler orelse).
Proof. intros Hb Hh Ho. eapply run_try_except; [exact Hb | exact Hh | exact Ho]. Qed.

Lemma keeps_run {A} P (m : M A) st :
  keeps P m -> P st -> P (snd (m st)).
Proof.
  intros H HP. specialize (H st HP).
  destruct (m st) as [[a|e] st1]; exact H.
Qed.

(** ** What the framework calls return *)

Lemma framework_ok c st r st' :
  framework c st = (r, st') ->
  st' = st /\
  (r = Ok tt /\ faults st c (work st) = false \/
   r = Raise (FrameworkError c) /\ faults st c (work st) = true).
Proof.
  unfold framework. destruct (faults st c (work st)); intros H;
    injection H as <- <-; auto.
Qed.

Lemma get_doc_ok dt n st d st' :
  get_doc dt n st = (Ok d, st') ->
  st' = st /\ find_doc dt (has_name n) (work st) = Some d.
Proof.
  unfold get_doc. destruct (find_doc dt (has_name n) (work st));
    intros H; inversion H; subst; auto.
Qed.

Lemma find_doc_some dt f db d :
  find_doc dt f db = Some d ->
  In d (tabDoc db) /\ doctype d = dt /\ f d = true.
Proof.
  unfold find_doc. intros H. apply find_some in H as [Hin Hf].
  apply andb_true_iff in Hf as [H1 H2].
  apply doctype_eqb_eq in H1. auto.
Qed.

Lemma find_doc_none dt f db d :
  find_doc dt f db = None -> In d (tabDoc db) -> doctype d = dt ->
  f d = false.
Proof.
  unfold find_doc. intros H Hin Hdt.
  pose proof (find_none _ _ H d Hin) as Hf. simpl in Hf.
  rewrite Hdt, doctype_eqb_refl in Hf. exact Hf.
Qed.

Lemma make_sales_invoice_ok n st si st' :
  make_sales_invoice n st = (Ok si, st') ->
  st' = st /\ exists so,
    find_doc SalesOrder (has_name n) (work st) = Some so /\
    si = mapped_doc SalesInvoice so.
Proof.
  unfold make_sales_invoice. rewrite run_bind.
  destruct (framework _ st) as [[u|e] st1] eqn:Hf; [|discriminate].
  apply framework_ok in Hf as [-> _]. rewrite run_bind.
  destruct (get_doc _ _ st) as [[so|e] st1] eqn:Hg; [|discriminate].
  apply get_doc_ok in Hg as [-> Hg]. simpl. intros H. inversion H; subst.
  eauto.
Qed.

Lemma make_delivery_note_ok n st dn st' :
  make_delivery_note n st = (Ok dn, st') ->
  st' = st /\ exists so,
    find_doc SalesOrder (has_name n) (work st) = Some so /\
    dn = mapped_doc DeliveryNote so.
Proof.
  unfold make_delivery_note. rewrite run_bind.
  destruct (framework _ st) as [[u|e] st1] eqn:Hf; [|discriminate].
  apply framework_ok in Hf as [-> _]. rewrite run_bind.
  destruct (get_doc _ _ st) as [[so|e] st1] eqn:Hg; [|discriminate].
  apply get_doc_ok in Hg as [-> Hg]. simpl. intros H. inversion H; subst.
  eauto.
Qed.

Lemma make_sales_return_ok n st ri st' :
  make_sales_return n st = (Ok ri, st') ->
  st' = st /\ exists si,
    find_doc SalesInvoice (has_name n) (work st) = Some si /\
    ri = set_return_against (Some n)
           (set_is_return 1 (mapped_doc SalesInvoice si)).
Proof.
  unfold make_sales_return. rewrite run_bind.
  destruct (framework _ st) as [[u|e] st1] eqn:Hf; [|discriminate].
  apply framework_ok in Hf as [-> _]. rewrite run_bind.
  destruct (get_doc _ _ st) as [[si|e] st1] eqn:Hg; [|discriminate].
  apply get_doc_ok in Hg as [-> Hg]. simpl. intros H. inversion H; subst.
  eauto.
Qed.

Lemma get_payment_entry_ok dt n b st pe st' :
  get_payment_entry dt n b st = (Ok pe, st') ->
  st' = st /\ exists d,
    find_doc dt (has_name n) (work st) = Some d /\
    pe = set_paid_to b (set_company (company d)
           (set_customer (customer d) (new_doc PaymentEntry))).
Proof.
  unfold get_payment_entry. rewrite run_bind.
  destruct (framework _ st) as [[u|e] st1] eqn:Hf; [|discriminate].
  apply framework_ok in Hf as [-> _]. rewrite run_bind.
  destruct (get_doc _ _ st) as [[d|e] st1] eqn:Hg; [|discriminate].
  apply get_doc_ok in Hg as [-> Hg]. simpl. intros H. inversion H; subst.
  eauto.
Qed.

Lemma doc_insert_ok d st d' st' :
  doc_insert d st = (Ok d', st') ->
  d' = stored d st /\ st' = inserted d st /\
  faults st (call_insert d) (work st) = false /\
  (doctype_eqb (doctype d) SalesOrder && existsb unresolved_item (items d)
   = false).
Proof.
  unfold doc_insert. rewrite run_bind.
  destruct (framework _ st) as [[u|e] st1] eqn:Hf; [|discriminate].
  apply framework_ok in Hf as [-> [[_ Hf]|[Hf _]]]; [|discriminate].
  destruct (doctype_eqb (doctype d) SalesOrder
            && existsb unresolved_item (items d)); [discriminate|].
  intros H. inversion H; subst. auto.
Qed.

Lemma doc_insert_raise d st e st' :
  doc_insert d st = (Raise e, st') -> st' = st.
Proof.
  unfold doc_insert. rewrite run_bind.
  destruct (framework _ st) as [[u|e0] st1] eqn:Hf;
    apply framework_ok in Hf as [-> _]; [|intros H; inversion H; auto].
  destruct (doctype_eqb (doctype d) SalesOrder
            && existsb unresolved_item (items d));
    intros H; inversion H; auto.
Qed.

Lemma doc_submit_ok d st d' st' :
  doc_submit d st = (Ok d', st') ->
  d' = set_docstatus 1 d /\ st' = submitted d st /\ docstatus d = 0.
Proof.
  unfold doc_submit. rewrite run_bind.
  destruct (framework _ st) as [[u|e] st1] eqn:Hf; [|discriminate].
  apply framework_ok in Hf as [-> _].
  destruct (docstatus d =? 0) eqn:Hd; [|discriminate].
  apply Z.eqb_eq in Hd. simpl. intros H. inversion H; subst. auto.
Qed.

Lemma doc_submit_raise d st e st' :
  doc_submit d st = (Raise e, st') -> st' = st.
Proof.
  unfold doc_submit. rewrite run_bind.
  destruct (framework _ st) as [[u|e0] st1] eqn:Hf;
    apply framework_ok in Hf as [-> _]; [|intros H; inversion H; auto].
  destruct (docstatus d =? 0); intros H; inversion H; auto.
Qed.

(** ** Properties of the state that a synchronisation keeps *)

(** Any property of the state that the store's elementary changes keep,
    insertion being granted only behind its guard, is kept by the whole of
    [sync_sales_order]. *)
Section Keeps.

Variable P : State -> Prop.
Variable allowed : Doctype -> Prop.

Hypothesis P_flags : forall r st, P st -> P (set_flags_request_id r st).
Hypothesis P_user : forall u st, P st -> P (set_session_user u st).
Hypothesis P_commit : forall st, P st -> P (set_durable (work st) st).
Hypothesis P_log : forall l st,
  P st -> P (set_work (set_tabShopifyLog l (work st)) st).
Hypothesis P_customer : forall l st,
  P st -> P (set_work (set_tabCustomer l (work st)) st).
Hypothesis P_item : forall l st,
  P st -> P (set_work (set_tabItem l (work st)) st).
Hypothesis P_submit : forall d st, P st -> P (submitted d st).
Hypothesis P_insert : forall d st,
  P st -> insertable d (work st) -> allowed (doctype d) ->
  P (inserted d st).
Hypothesis allowed_so : allowed SalesOrder.
Hypothesis allowed_si : allowed SalesInvoice.
Hypothesis allowed_pe : allowed PaymentEntry.
Hypothesis allowed_dn : allowed DeliveryNote.

Lemma keeps_set_request_id r : keeps P (set_request_id r).
Proof. apply run_modify. auto. Qed.

Lemma keeps_set_user u : keeps P (set_user u).
Proof. apply run_modify. auto. Qed.

Lemma keeps_db_commit : keeps P db_commit.
Proof. apply run_modify. auto. Qed.

Lemma keeps_make_shopify_log status order exc :
  keeps P (make_shopify_log status order exc false).
Proof.
  unfold make_shopify_log.
  apply keeps_seq; [apply keeps_readonly, readonly_ret|]. intros ?.
  apply keeps_seq; [apply run_modify; auto|]. intros ?.
  apply keeps_db_commit.
Qed.

Lemma keeps_create_customer c settings : keeps P (create_customer c settings).
Proof.
  unfold create_customer.
  apply keeps_seq; [apply keeps_readonly, readonly_framework|]. intros ?.
  apply run_modify. auto.
Qed.

Lemma keeps_make_item wh li : keeps P (make_item wh li).
Proof.
  unfold make_item.
  apply keeps_seq; [apply keeps_readonly, readonly_framework|]. intros ?.
  apply run_modify. auto.
Qed.

Lemma keeps_validate_customer order settings :
  keeps P (validate_customer order settings).
Proof.
  unfold validate_customer.
  apply keeps_seq; [apply keeps_readonly, readonly_order_customer_id|].
  intros customer_id.
  destruct (truthy_opt truthy_Z customer_id);
    [|apply keeps_readonly, readonly_ret].
  apply keeps_seq; [apply keeps_readonly, readonly_gets|]. intros known.
  destruct (negb (truthy_opt truthy_str known));
    [|apply keeps_readonly, readonly_ret].
  destruct (o_customer order);
    [apply keeps_readonly, readonly_ret | apply keeps_readonly, readonly_ret
    | apply keeps_create_customer].
Qed.

Lemma keeps_validate_item order settings :
  keeps P (validate_item order settings).
Proof.
  unfold validate_item. apply run_for_each. intros item _.
  apply keeps_seq; [apply keeps_readonly, readonly_gets|]. intros known.
  destruct (_ && _);
    [apply keeps_make_item | apply keeps_readonly, readonly_ret].
Qed.

Lemma keeps_doc_submit d : keeps P (doc_submit d).
Proof.
  intros st HP. destruct (doc_submit d st) as [[d'|e] st1] eqn:H.
  - apply doc_submit_ok in H as (_ & -> & _). auto.
  - apply doc_submit_raise in H as ->. exact HP.
Qed.

Lemma run_doc_insert d :
  run (fun st => P st /\ insertable d (work st) /\ allowed (doctype d))
      (doc_insert d) (fun d' st => P st /\ doctype d' = doctype d) P.
Proof.
  intros st (HP & Hi & Ha). destruct (doc_insert d st) as [[d'|e] st1] eqn:H.
  - apply doc_insert_ok in H as (-> & -> & _). split; [auto | reflexivity].
  - apply doc_insert_raise in H as ->. exact HP.
Qed.

Lemma keeps_make_payment_entry_against_sales_invoice doc settings :
  keeps P (make_payment_entry_against_sales_invoice doc settings).
Proof.
  unfold make_payment_entry_against_sales_invoice.
  eapply run_seq; [apply run_readonly_result, readonly_get_payment_entry|].
  intros pe. simpl.
  eapply run_seq;
    [eapply run_weaken with (P := fun st => P st /\
       get_payment_entry (doctype doc) (name doc)
         (ss_cash_bank_account settings) st = (Ok pe, st));
     [apply run_readonly, readonly_gets | auto | intros a st H; exact H
     | intros st [H _]; exact H ] |].
  intros date.
  eapply run_seq.
  - eapply run_weaken; [apply run_doc_insert | | intros a st H; exact H | auto].
    intros st [HP Hpe]. split; [exact HP|].
    apply get_payment_entry_ok in Hpe as (_ & d & _ & ->).
    split; [exact I | exact allowed_pe].
  - intros pe'. simpl.
    eapply run_seq.
    + eapply run_weaken; [apply keeps_doc_submit | | intros a st H; exact H | auto].
      intros st [HP _]. exact HP.
    + intros ?. apply run_ret. auto.
Qed.

Lemma keeps_create_sales_invoice order settings so :
  keeps P (create_sales_invoice order settings so).
Proof.
  unfold create_sales_invoice.
  eapply run_seq; [unfold db_get_value; apply run_gets|].
  intros existing. simpl.
  destruct (negb (is_some existing) && (docstatus so =? 1)
            && negb (truthy_Q (per_billed so))
            && truthy_Z (cint (ss_sync_sales_invoice settings))) eqn:Hg;
    [|apply run_ret; intros st [H _]; exact H].
  repeat rewrite andb_true_iff in Hg. destruct Hg as [[[Hex _] _] _].
  set (G := fun st => P st /\
    find_doc SalesInvoice (by_order_id (o_id order)) (work st) = None).
  eapply run_weaken with (P := G) (Q := fun _ => P) (E := P);
    [|intros st [HP ->]; split; [exact HP|]
     | auto | auto].
  2:{ destruct (find_doc SalesInvoice _ (work st)); [discriminate|reflexivity]. }
  eapply run_seq with (Q1 := fun si st =>
    G st /\ make_sales_invoice (name so) st = (Ok si, st)).
  { eapply run_weaken;
      [apply (run_readonly_result G), readonly_make_sales_invoice
      | auto | auto | intros st [H _]; exact H]. }
  intros si.
  eapply run_seq with (Q1 := fun _ st =>
    G st /\ make_sales_invoice (name so) st = (Ok si, st)).
  { eapply run_weaken;
      [apply (run_readonly (fun st => G st /\
         make_sales_invoice (name so) st = (Ok si, st))), readonly_getdate
      | auto | auto | intros st [[H _] _]; exact H]. }
  intros date. simpl.
  eapply run_seq with (Q1 := fun _ => P).
  { eapply run_weaken;
      [apply run_doc_insert | | intros a st [H _]; exact H | auto].
    intros st [[HP Hn] Hsi]. split; [exact HP|].
    apply make_sales_invoice_ok in Hsi as (_ & so' & _ & ->).
    split; [exact Hn | exact allowed_si]. }
  intros si'.
  apply keeps_seq; [apply keeps_doc_submit|]. intros si''.
  apply keeps_seq; [apply keeps_make_payment_entry_against_sales_invoice|].
  intros ?. apply keeps_seq; [apply keeps_db_commit|].
  intros ?. apply keeps_readonly, readonly_ret.
Qed.

Lemma keeps_create_sales_order order settings company :
  keeps P (create_sales_order order settings company).
Proof.
  unfold create_sales_order.
  apply keeps_seq; [apply keeps_readonly, readonly_order_customer_id|].
  intros customer_id.
  apply keeps_seq; [apply keeps_readonly, readonly_gets|]. intros cust.
  eapply run_seq; [unfold db_get_value; apply run_gets|].
  intros found. simpl.
  eapply run_seq with (Q1 := fun _ => P).
  2:{ intros so. apply keeps_seq; [apply keeps_db_commit|].
      intros ?. apply keeps_readonly, readonly_ret. }
  destruct found as [n|].
  { eapply run_weaken;
      [apply (run_readonly P), readonly_get_doc
      | intros st [H _]; exact H | auto | auto]. }
  set (G := fun st => P st /\
    find_doc SalesOrder (open_order (o_id order)) (work st) = None).
  eapply run_weaken with (P := G) (Q := fun _ => P) (E := P);
    [|intros st [HP Hn]; split; [exact HP|] | auto | auto].
  2:{ destruct (find_doc SalesOrder _ (work st)); [discriminate|reflexivity]. }
  eapply run_seq with (Q1 := fun _ => G).
  { eapply run_weaken;
      [apply (run_readonly G), readonly_get_order_items
      | auto | auto | intros st [H _]; exact H]. }
  intros its.
  eapply run_seq with (Q1 := fun _ => G).
  { eapply run_weaken;
      [apply (run_readonly G), readonly_gets
      | auto | auto | intros st [H _]; exact H]. }
  intros date.
  eapply run_seq with (Q1 := fun _ => G).
  { eapply run_weaken;
      [apply (run_readonly G), readonly_get_order_taxes
      | auto | auto | intros st [H _]; exact H]. }
  intros txs. simpl.
  eapply run_seq with (Q1 := fun _ => P).
  { eapply run_weaken;
      [apply run_doc_insert | | intros a st [H _]; exact H | auto].
    intros st [HP Hn]. split; [exact HP|].
    destruct (truthy_opt truthy_str company);
      (split; [exact Hn | exact allowed_so]). }
  intros so. apply keeps_doc_submit.
Qed.

Lemma keeps_order_stage order settings : keeps P (order_stage order settings).
Proof.
  unfold order_stage.
  apply keeps_seq; [apply keeps_validate_customer|]. intros ?.
  apply keeps_seq; [apply keeps_validate_item|]. intros ?.
  apply keeps_create_sales_order.
Qed.

Lemma keeps_create_shopify_order order request_id :
  keeps P (create_shopify_order order request_id).
Proof.
  unfold create_shopify_order.
  apply keeps_seq; [apply keeps_readonly, readonly_gets|]. intros settings.
  apply keeps_seq; [apply keeps_set_request_id|]. intros ?.
  apply keeps_seq; [apply keeps_readonly, readonly_db_get_value|].
  intros [n|].
  - apply keeps_seq; [apply keeps_readonly, readonly_get_doc|].
    intros so. apply keeps_readonly, readonly_ret.
  - apply keeps_try_except.
    + apply keeps_order_stage.
    + intros e. apply keeps_seq; [apply keeps_make_shopify_log|].
      intros ?. apply keeps_readonly, readonly_ret.
    + intros so. apply keeps_seq; [apply keeps_make_shopify_log|].
      intros ?. apply keeps_readonly, readonly_ret.
Qed.

Lemma keeps_invoice_stage order settings so :
  keeps P (invoice_stage order settings so).
Proof.
  unfold invoice_stage.
  apply keeps_seq; [apply keeps_create_sales_invoice|].
  intros [n|]; [|apply keeps_readonly, readonly_ret].
  destruct (opt_eqb String.eqb (o_financial_status order) (Some "refunded"));
    [|apply keeps_readonly, readonly_ret].
  eapply run_seq;
    [apply (run_readonly_result P), readonly_make_sales_return|].
  intros ri. simpl.
  eapply run_seq with (Q1 := fun _ => P).
  { eapply run_weaken;
      [apply run_doc_insert | | intros a st [H _]; exact H | auto].
    intros st [HP Hri]. split; [exact HP|].
    apply make_sales_return_ok in Hri as (_ & si & _ & ->).
    split; [exact I | exact allowed_si]. }
  intros ri'. apply keeps_seq; [apply keeps_doc_submit|].
  intros ?. apply keeps_readonly, readonly_ret.
Qed.

Lemma keeps_create_shopify_invoice order so request_id :
  keeps P (create_shopify_invoice order so request_id).
Proof.
  unfold create_shopify_invoice.
  apply keeps_seq; [apply keeps_readonly, readonly_gets|]. intros settings.
  apply keeps_seq; [apply keeps_set_request_id|]. intros ?.
  destruct (negb (status_in (o_financial_status order) ["paid"; "refunded"]));
    [apply keeps_readonly, readonly_ret|].
  apply keeps_try_except.
  - apply keeps_invoice_stage.
  - intros e. apply keeps_seq; [apply keeps_make_shopify_log|].
    intros ?. apply keeps_readonly, readonly_ret.
  - intros si. apply keeps_readonly, readonly_ret.
Qed.

Lemma keeps_create_delivery_note order settings so :
  keeps P (create_delivery_note order settings so).
Proof.
  unfold create_delivery_note.
  destruct (negb (truthy_Z (cint (ss_sync_delivery_note settings))));
    [apply keeps_readonly, readonly_ret|].
  apply keeps_seq; [|intros ?; apply keeps_readonly, readonly_ret].
  apply run_for_collect. intros fulfillment _. unfold delivery_note_for.
  eapply run_seq; [unfold db_get_value; apply run_gets|].
  intros existing. simpl.
  destruct (negb (is_some existing) && (docstatus so =? 1)) eqn:Hg;
    [|apply run_ret; intros st [H _]; exact H].
  apply andb_true_iff in Hg as [Hex _].
  set (G := fun st => P st /\
    find_doc DeliveryNote (by_fulfillment_id fulfillment) (work st) = None).
  eapply run_weaken with (P := G) (Q := fun _ => P) (E := P);
    [|intros st [HP ->]; split; [exact HP|] | auto | auto].
  2:{ destruct (find_doc DeliveryNote _ (work st)); [discriminate|reflexivity]. }
  eapply run_seq with (Q1 := fun dn st =>
    G st /\ make_delivery_note (name so) st = (Ok dn, st)).
  { eapply run_weaken;
      [apply (run_readonly_result G), readonly_make_delivery_note
      | auto | auto | intros st [H _]; exact H]. }
  intros dn.
  eapply run_seq with (Q1 := fun _ st =>
    G st /\ make_delivery_note (name so) st = (Ok dn, st)).
  { eapply run_weaken;
      [apply (run_readonly (fun st => G st /\
         make_delivery_note (name so) st = (Ok dn, st))), readonly_getdate
      | auto | auto | intros st [[H _] _]; exact H]. }
  intros date.
  eapply run_seq with (Q1 := fun _ st =>
    G st /\ make_delivery_note (name so) st = (Ok dn, st)).
  { eapply run_weaken;
      [apply (run_readonly (fun st => G st /\
         make_delivery_note (name so) st = (Ok dn, st))), readonly_gets
      | auto | auto | intros st [[H _] _]; exact H]. }
  intros dn_items. simpl.
  eapply run_seq with (Q1 := fun _ => P).
  { eapply run_weaken;
      [apply run_doc_insert | | intros a st [H _]; exact H | auto].
    intros st [[HP Hn] Hdn]. split; [exact HP|].
    apply make_delivery_note_ok in Hdn as (_ & so' & _ & ->).
    split; [exact Hn | exact allowed_dn]. }
  intros dn'. apply keeps_seq; [apply keeps_doc_submit|]. intros dn''.
  apply keeps_seq; [apply keeps_db_commit|].
  intros ?. apply keeps_readonly, readonly_ret.
Qed.

Lemma keeps_create_shopify_delivery order so request_id :
  keeps P (create_shopify_delivery order so request_id).
Proof.
  unfold create_shopify_delivery.
  apply keeps_seq; [apply keeps_readonly, readonly_gets|]. intros settings.
  apply keeps_seq; [apply keeps_set_request_id|]. intros ?.
  destruct (o_fulfillments order); [apply keeps_readonly, readonly_ret|].
  apply keeps_try_except.
  - apply keeps_create_delivery_note.
  - intros e. apply keeps_seq; [apply keeps_make_shopify_log|].
    intros ?. apply keeps_readonly, readonly_ret.
  - intros dns. apply keeps_readonly, readonly_ret.
Qed.

Lemma keeps_sync_sales_order order request_id :
  keeps P (sync_sales_order order request_id).
Proof.
  unfold sync_sales_order.
  apply keeps_seq; [apply keeps_set_user|]. intros ?.
  apply keeps_seq; [apply keeps_set_request_id|]. intros ?.
  apply keeps_seq; [apply keeps_create_shopify_order|].
  intros [so|]; [|apply keeps_readonly, readonly_ret].
  apply keeps_seq; [apply keeps_create_shopify_invoice|]. intros ?.
  apply keeps_seq; [apply keeps_create_shopify_delivery|]. intros ?.
  apply keeps_readonly, readonly_ret.
Qed.

End Keeps.

(** ** Running the order stage *)

Lemma make_shopify_log_run status order exc st :
  make_shopify_log status order exc false st
  = (Ok tt, logged status order exc st).
Proof. reflexivity. Qed.

Lemma same_documents_refl st : same_documents st st.
Proof. repeat split. Qed.

Lemma masters_validated_frame order settings st0 :
  keeps (same_documents st0) (masters_validated order settings).
Proof.
  unfold masters_validated. apply keeps_seq.
  - apply keeps_validate_customer. intros l st H. exact H.
  - intros ?. apply keeps_validate_item. intros l st H. exact H.
Qed.

Lemma order_stage_run order settings st :
  order_stage order settings st =
  match masters_validated order settings st with
  | (Ok _, st') => create_sales_order order settings None st'
  | (Raise e, st') => (Raise e, st')
  end.
Proof.
  unfold order_stage, masters_validated. rewrite !run_bind.
  destruct (validate_customer order settings st) as [[u|e] st1];
    [|reflexivity].
  rewrite !run_bind.
  destruct (validate_item order settings st1) as [[u'|e] st2]; reflexivity.
Qed.

Lemma get_order_items_run l settings st :
  get_order_items l settings st =
  (Ok (map (fun li => order_item_row settings (get_item_code (work st) li)
                        (today st) li) l), st).
Proof.
  unfold get_order_items. induction l as [|li l IH]; simpl; [reflexivity|].
  rewrite run_bind. simpl. rewrite run_bind, IH. reflexivity.
Qed.

Lemma field_null_dec {A} (f : Field A) : f = Null \/ f <> Null.
Proof. destruct f; [right; discriminate | left; reflexivity
                   | right; discriminate]. Qed.

(** A customer that is [null] stops [create_sales_order] at its first
    line. *)
Lemma create_sales_order_null order settings company st :
  o_customer order = Null ->
  create_sales_order order settings company st = (Raise AttributeError, st).
Proof.
  intros Hc. unfold create_sales_order.
  rewrite run_bind, order_customer_id_run, Hc. reflexivity.
Qed.

Lemma create_sales_order_new order settings st :
  o_customer order <> Null ->
  find_doc SalesOrder (open_order (o_id order)) (work st) = None ->
  create_sales_order order settings None st =
  match get_order_taxes order settings st with
  | (Raise e, _) => (Raise e, st)
  | (Ok taxes, _) =>
      match doc_insert (order_to_insert order settings taxes st) st with
      | (Raise e, st1) => (Raise e, st1)
      | (Ok so1, st1) =>
          match doc_submit so1 st1 with
          | (Raise e, st2) => (Raise e, st2)
          | (Ok so2, st2) => (Ok so2, set_durable (work st2) st2)
          end
      end
  end.
Proof.
  intros Hc Hn. unfold create_sales_order. rewrite run_bind.
  rewrite order_customer_id_run.
  assert (Hr : match o_customer order with
               | Null => (Raise AttributeError, st)
               | _ => (Ok (customer_id_read order), st)
               end = (Ok (customer_id_read order), st))
    by (destruct (o_customer order); [reflexivity | contradiction
                                     | reflexivity]).
  rewrite Hr. unfold db_get_value, nowdate, bind, gets.
  rewrite Hn. simpl. rewrite get_order_items_run.
  destruct (get_order_taxes order settings st) as [[taxes|e] st1] eqn:Ht;
    apply readonly_run in Ht as Hs; auto with readonly; subst st1;
    [|reflexivity].
  fold (order_to_insert order settings taxes st).
  destruct (doc_insert _ st) as [[so1|e] st1]; [|reflexivity].
  destruct (doc_submit so1 st1) as [[so2|e] st2]; reflexivity.
Qed.

Lemma create_shopify_order_new order request_id st :
  find_doc SalesOrder (open_order (o_id order)) (work st) = None ->
  create_shopify_order order request_id st =
  match order_stage order (shopify_settings (work st))
          (set_flags_request_id request_id st) with
  | (Ok so, st') => (Ok (Some so), logged "Success" order None st')
  | (Raise e, st') => (Ok None, logged "Error" order (Some e) st')
  end.
Proof.
  intros Hn. unfold create_shopify_order, get_single_settings, db_get_value,
    set_request_id, cstr.
  rewrite run_bind. simpl. rewrite run_bind. simpl. rewrite run_bind. simpl.
  rewrite Hn. simpl. unfold try_except.
  destruct (order_stage _ _ _) as [[so|e] st']; reflexivity.
Qed.

Lemma for_collect_raises {A B} (l : list A) (body : A -> M (list B)) st x :
  (forall y, readonly (body y)) -> In x l ->
  (exists e, fst (body x st) = Raise e) ->
  exists e, for_collect l body st = (Raise e, st).
Proof.
  intros Hr Hin [e He]. induction l as [|a l IH]; [contradiction|].
  simpl. rewrite run_bind.
  destruct (body a st) as [[ys|e'] st1] eqn:Ha.
  - apply readonly_run in Ha as Hs; [subst st1 | apply Hr].
    destruct Hin as [->|Hin]; [rewrite Ha in He; discriminate|].
    destruct (IH Hin) as [e2 H2]. exists e2. rewrite run_bind, H2. reflexivity.
  - apply readonly_run in Ha as Hs; [subst st1 | apply Hr]. eauto.
Qed.

Lemma get_order_taxes_raises order settings st tax :
  In tax (resolved_tax_lines order) ->
  (exists e, fst (get_tax_account_head tax st) = Raise e) ->
  exists e, get_order_taxes order settings st = (Raise e, st).
Proof.
  intros Hin [e He]. unfold get_order_taxes. rewrite run_bind.
  destruct (for_collect (o_tax_lines order) _ st) as [[taxes|e'] st1] eqn:Ht.
  2:{ apply readonly_run in Ht as ->; [eauto|].
      apply readonly_for_collect. auto with readonly. }
  apply readonly_run in Ht as Hs;
    [subst st1 | apply readonly_for_collect; auto with readonly].
  apply in_app_or in Hin as [Hin|Hin].
  - exfalso.
    assert (Hx : exists e2, fst (order_tax_row order settings tax st)
                            = Raise e2).
    { unfold order_tax_row. rewrite run_bind.
      destruct (get_tax_account_head tax st) as [[a|e3] s3];
        [discriminate | simpl; eauto]. }
    destruct (for_collect_raises (o_tax_lines order)
                (order_tax_row order settings) st tax
                (readonly_order_tax_row order settings) Hin Hx) as [e2 H2].
    congruence.
  - apply in_map_iff in Hin as (sc & <- & Hsc).
    unfold update_taxes_with_shipping_lines. rewrite run_bind.
    set (body := fun shipping_charge =>
                   for_collect (shipping_tax_lines shipping_charge)
                     (shipping_charge_row settings)).
    assert (Hr : forall y, readonly (body y)).
    { intros y. apply readonly_for_collect. auto with readonly. }
    assert (Hx : exists e2, fst (body sc st) = Raise e2).
    { unfold body. simpl. rewrite run_bind. unfold shipping_charge_row at 1.
      rewrite run_bind.
      destruct (get_tax_account_head (as_tax_line sc) st) as [[a|e3] s3];
        [discriminate | simpl; eauto]. }
    destruct (for_collect_raises (o_shipping_lines order) body st sc
                Hr Hsc Hx) as [e2 H2].
    rewrite H2. eauto.
Qed.

Lemma find_doc_exists dt f db d :
  In d (tabDoc db) -> doctype d = dt -> f d = true ->
  exists d', find_doc dt f db = Some d'.
Proof.
  intros Hin Hdt Hf. unfold find_doc.
  destruct (find _ (tabDoc db)) as [d'|] eqn:H; [eauto|].
  pose proof (find_none _ _ H d Hin) as Hc. simpl in Hc.
  rewrite Hdt, doctype_eqb_refl, Hf in Hc. discriminate.
Qed.

Lemma find_doc_same_table dt f db db' :
  tabDoc db' = tabDoc db -> find_doc dt f db' = find_doc dt f db.
Proof. unfold find_doc. intros ->. reflexivity. Qed.

Lemma tax_account_get_value_none title db :
  tax_account_get_value title db = None <-> ~ tax_mapped db title.
Proof.
  unfold tax_account_get_value, tax_mapped. split.
  - intros H (r & Hin & Hp & Ht).
    destruct (find _ (tabShopifyTaxAccount db)) as [r'|] eqn:Hf;
      [discriminate|].
    pose proof (find_none _ _ Hf r Hin) as Hc. simpl in Hc.
    rewrite Hp, Ht, !String.eqb_refl in Hc. discriminate.
  - intros H.
    destruct (find _ (tabShopifyTaxAccount db)) as [r'|] eqn:Hf;
      [|reflexivity].
    exfalso. apply H. apply find_some in Hf as [Hin Hc].
    apply andb_true_iff in Hc as [Hp Ht].
    apply String.eqb_eq in Hp, Ht. eauto.
Qed.

Lemma tax_account_get_value_same_table title db db' :
  tabShopifyTaxAccount db' = tabShopifyTaxAccount db ->
  tax_account_get_value title db' = tax_account_get_value title db.
Proof. unfold tax_account_get_value. intros ->. reflexivity. Qed.

Lemma tax_account_get_value_filled title db a :
  tax_table_filled db -> tax_account_get_value title db = Some a ->
  truthy_str a = true.
Proof.
  unfold tax_table_filled, tax_account_get_value. intros Hfill H.
  destruct (find _ (tabShopifyTaxAccount db)) as [r|] eqn:Hf;
    [|discriminate].
  injection H as <-. apply find_some in Hf as [Hin _].
  rewrite Forall_forall in Hfill. specialize (Hfill r Hin).
  unfold truthy_str. destruct (String.eqb_spec (tax_account r) "");
    [contradiction | reflexivity].
Qed.

Lemma get_tax_account_head_run tax title st :
  tl_title tax = Some title ->
  get_tax_account_head tax st =
  match tax_account_get_value title (work st) with
  | Some a =>
      if truthy_str a then (Ok a, st)
      else (Raise (ValidationError
              ("Tax Account not specified for Shopify Tax " ++ title)), st)
  | None =>
      (Raise (ValidationError
         ("Tax Account not specified for Shopify Tax " ++ title)), st)
  end.
Proof.
  intros Ht. unfold get_tax_account_head. rewrite Ht, run_bind. simpl.
  destruct (tax_account_get_value title (work st)) as [a|]; [|reflexivity].
  destruct (truthy_str a); reflexivity.
Qed.

Lemma doc_insert_unresolved d st :
  doctype d = SalesOrder -> existsb unresolved_item (items d) = true ->
  exists e, doc_insert d st = (Raise e, st).
Proof.
  intros Hd Hu. unfold doc_insert. rewrite run_bind.
  destruct (framework (call_insert d) st) as [[u|e] st1] eqn:Hf;
    apply framework_ok in Hf as [-> _]; [|simpl; eauto].
  rewrite Hd, Hu. simpl. unfold throw. eauto.
Qed.

(** The order stage fails, with the documents as they were, when the
    creation of the order is bound to fail before it inserts. *)
Lemma order_stage_fails_early order settings st0 :
  (forall u stv, masters_validated order settings st0 = (Ok u, stv) ->
     same_documents st0 stv ->
     exists e, create_sales_order order settings None stv = (Raise e, stv)) ->
  exists e st2, order_stage order settings st0 = (Raise e, st2) /\
                same_documents st0 st2.
Proof.
  intros Hc. rewrite order_stage_run.
  pose proof (keeps_run (same_documents st0) _ st0
                (masters_validated_frame order settings st0)
                (same_documents_refl st0)) as Hs.
  destruct (masters_validated order settings st0) as [[u|e] stv] eqn:Hv;
    simpl in Hs.
  - destruct (Hc u stv eq_refl Hs) as [e He]. eauto.
  - eauto.
Qed.

Lemma create_shopify_order_error order request_id st e st2 :
  find_doc SalesOrder (open_order (o_id order)) (work st) = None ->
  order_stage order (shopify_settings (work st))
    (set_flags_request_id request_id st) = (Raise e, st2) ->
  same_documents (set_flags_request_id request_id st) st2 ->
  exists st',
    create_shopify_order order request_id st = (Ok None, st') /\
    tabShopifyLog (work st') =
      {| log_status := "Error"; log_response_data := order;
         log_exception := Some e; log_request_id := request_id |}
      :: tabShopifyLog (work st) /\
    tabDoc (work st') = tabDoc (work st).
Proof.
  intros Hn Hs (Hd & Hl & _ & _ & Hr).
  rewrite (create_shopify_order_new _ _ _ Hn), Hs.
  eexists. split; [reflexivity|]. simpl in *.
  unfold log_record. rewrite Hl, Hr, Hd. auto.
Qed.

(** ** Taxes and shipping lines *)

Lemma shipping_tax_lines_own_charge shipping_charge :
  shipping_tax_lines shipping_charge = [as_tax_line shipping_charge].
Proof. reflexivity. Qed.

(** Whatever tax lines the shipping charges carry, the rows added are one
    per shipping charge, with the title and the price of the charge. *)
Lemma update_taxes_with_shipping_lines_rows taxes lines settings st rows st' :
  update_taxes_with_shipping_lines taxes lines settings st = (Ok rows, st') ->
  exists added,
    rows = (taxes ++ added)%list /\
    Forall2 (fun shipping_charge row =>
               option_map DescTitle (sl_title shipping_charge)
                 = Some (description row) /\
               tax_amount row = sl_price shipping_charge)
            lines added.
Proof.
  unfold update_taxes_with_shipping_lines. rewrite run_bind.
  destruct (for_collect lines _ st) as [[added|e] st1] eqn:Hc; [|discriminate].
  simpl. intros H. injection H as <- <-. exists added. split; [reflexivity|].
  clear taxes. revert added st st1 Hc.
  induction lines as [|sc lines IH]; intros added st st1; simpl.
  - intros H. injection H as <- <-. constructor.
  - rewrite run_bind. rewrite (run_bind (shipping_charge_row _ _)).
    unfold shipping_charge_row at 1. rewrite run_bind.
    destruct (get_tax_account_head (as_tax_line sc) st) as [[a|e] s1];
      [|discriminate].
    rewrite run_bind. simpl. destruct (sl_title sc) as [t|] eqn:Ht;
      [|discriminate].
    simpl. rewrite run_bind. destruct (sl_price sc) as [p|] eqn:Hp;
      [|discriminate].
    simpl. rewrite run_bind.
    destruct (for_collect lines _ s1) as [[zs|e] s2] eqn:Hz; [|discriminate].
    simpl. intros H. injection H as <- <-.
    constructor; [simpl; rewrite Ht, Hp; auto | eapply IH; exact Hz].
Qed.

(** C1.  Evaluated on a shipping charge that carries a nested tax line
    (title GST, price 1/2): the connector appends one charge line built
    from the shipping charge itself (title Freight, price 5) and none for
    the nested tax line. *)
Theorem update_taxes_with_shipping_lines_nested_tax_line :
  sl_tax_lines demo_freight = [demo_gst] /\
  update_taxes_with_shipping_lines [] [demo_freight] demo_settings demo_state
  = (Ok [ {| charge_type := "Actual"; account_head := "Freight - A";
             description := DescTitle "Freight"; tax_rate := None;
             tax_amount := Some (5 # 1)%Q; included_in_print_rate := 0;
             tax_cost_center := Some "Main" |} ],
     demo_state).
Proof. split; reflexivity. Qed.


(** ** Items *)

(** A lookup in a table answers with the first row that passes its
    filter. *)
Lemma find_first_such {A} (f : A -> bool) (P : A -> Prop) l a :
  (forall x, f x = true <-> P x) -> first_such P l a -> find f l = Some a.
Proof.
  intros HfP (before & after & -> & Hb & Ha).
  induction before as [|b before IH]; simpl.
  - apply HfP in Ha. rewrite Ha. reflexivity.
  - inversion Hb as [|? ? Hnb Hb']; subst.
    destruct (f b) eqn:Hfb; [exfalso; apply Hnb, HfP, Hfb | apply IH, Hb'].
Qed.

Lemma find_no_such {A} (f : A -> bool) (P : A -> Prop) l :
  (forall x, f x = true <-> P x) -> Forall (fun x => ~ P x) l ->
  find f l = None.
Proof.
  intros HfP Hl. induction Hl as [|x l Hx Hl IH]; simpl; [reflexivity|].
  destruct (f x) eqn:Hfx; [exfalso; apply Hx, HfP, Hfx | exact IH].
Qed.

Lemma opt_eqb_iff {A} (eqb : A -> A -> bool) (a b : option A) :
  (forall x y, eqb x y = true <-> x = y) ->
  opt_eqb eqb a b = true <-> a = b.
Proof.
  intros Heq. destruct a as [x|], b as [y|]; simpl.
  - rewrite Heq. split; [intros ->; reflexivity | intros H; injection H; auto].
  - split; discriminate.
  - split; discriminate.
  - split; reflexivity.
Qed.

Lemma by_variant_id_iff shopify_item i :
  by_variant_id shopify_item i = true <-> variant_mapping shopify_item i.
Proof. apply opt_eqb_iff, Z.eqb_eq. Qed.

Lemma by_product_id_iff shopify_item i :
  by_product_id shopify_item i = true <-> product_mapping shopify_item i.
Proof.
  unfold by_product_id, product_mapping.
  replace (py_or truthy_Z (li_product_id shopify_item) (li_id shopify_item))
    with (product_key shopify_item); [apply opt_eqb_iff, Z.eqb_eq|].
  unfold product_key, py_or, truthy_opt, truthy_Z.
  destruct (li_product_id shopify_item) as [p|]; [|reflexivity].
  destruct (p =? 0); reflexivity.
Qed.

Lemma by_item_name_iff shopify_item i :
  by_item_name shopify_item i = true <-> name_match shopify_item i.
Proof. apply opt_eqb_iff, String.eqb_eq. Qed.

Lemma item_get_value_yields f P db code :
  (forall i, f i = true <-> P i) -> yields P db code ->
  item_get_value f db = Some code /\ truthy_str code = true.
Proof.
  intros HfP (i & Hi & <- & Hc). unfold item_get_value.
  rewrite (find_first_such f P _ _ HfP Hi). split; [reflexivity|].
  unfold truthy_str. apply String.eqb_neq in Hc. rewrite Hc. reflexivity.
Qed.

Lemma item_get_value_yields_none f P db :
  (forall i, f i = true <-> P i) -> yields_none P db ->
  truthy_opt truthy_str (item_get_value f db) = false.
Proof.
  intros HfP [Hn|(i & Hi & Hc)]; unfold item_get_value.
  - rewrite (find_no_such f P _ HfP Hn). reflexivity.
  - rewrite (find_first_such f P _ _ HfP Hi). simpl. rewrite Hc. reflexivity.
Qed.




(** ** Creating and reusing the order *)

Lemma submitted_inserted d st :
  tabDoc (work (submitted (stored d st) (inserted d st)))
  = set_docstatus 1 (stored d st) :: tabDoc (work st).
Proof.
  unfold submitted, inserted. simpl.
  rewrite doctype_eqb_refl. unfold has_name. simpl.
  rewrite String.eqb_refl, Nat.eqb_refl. reflexivity.
Qed.

Lemma logged_docs status order exc st :
  tabDoc (work (logged status order exc st)) = tabDoc (work st).
Proof. reflexivity. Qed.

Lemma logged_log status order exc st :
  tabShopifyLog (work (logged status order exc st))
  = log_record status order exc st :: tabShopifyLog (work st).
Proof. reflexivity. Qed.

Lemma logged_durable status order exc st :
  durable (logged status order exc st) = work (logged status order exc st).
Proof. reflexivity. Qed.

Lemma committed_work st : work (committed st) = work st.
Proof. reflexivity. Qed.

Lemma committed_flags st :
  flags_request_id (committed st) = flags_request_id st.
Proof. reflexivity. Qed.

Lemma posted_docs d st :
  tabDoc (work (posted d st))
  = set_docstatus 1 (stored d st) :: tabDoc (work st).
Proof. apply submitted_inserted. Qed.

Lemma posted_log d st :
  tabShopifyLog (work (posted d st)) = tabShopifyLog (work st).
Proof. reflexivity. Qed.

Lemma posted_flags d st :
  flags_request_id (posted d st) = flags_request_id st.
Proof. reflexivity. Qed.

Lemma posted_durable d st : durable (posted d st) = durable st.
Proof. reflexivity. Qed.

(** One step of a computation that is known to have returned. *)
Ltac bind_ok H a s E :=
  rewrite run_bind in H;
  match type of H with
  | (let (_, _) := ?c in _) = _ =>
      destruct c as [[a|?] s] eqn:E; [|discriminate H]
  end.

Lemma create_sales_order_created order settings st so st' :
  find_doc SalesOrder (open_order (o_id order)) (work st) = None ->
  create_sales_order order settings None st = (Ok so, st') ->
  exists taxes,
    so = set_docstatus 1 (stored (order_to_insert order settings taxes st) st)
    /\ st' = committed (posted (order_to_insert order settings taxes st) st).
Proof.
  intros Hn.
  destruct (field_null_dec (o_customer order)) as [Hnull|Hc];
    [rewrite (create_sales_order_null _ _ _ _ Hnull); discriminate|].
  rewrite (create_sales_order_new _ _ _ Hc Hn).
  destruct (get_order_taxes _ _ st) as [[taxes|e] s0]; [|discriminate].
  destruct (doc_insert _ st) as [[so1|e] st1] eqn:Hi; [|discriminate].
  apply doc_insert_ok in Hi as (-> & -> & _).
  destruct (doc_submit _ _) as [[so2|e] st2] eqn:Hsub; [|discriminate].
  apply doc_submit_ok in Hsub as (-> & -> & _).
  intros H. injection H as <- <-. exists taxes.
  unfold committed, posted. split; reflexivity.
Qed.

(** What a successful order stage leaves: the new order, submitted, on top
    of the documents, and a Success record on top of the log. *)
Lemma create_shopify_order_created order request_id st so st' :
  find_doc SalesOrder (open_order (o_id order)) (work st) = None ->
  create_shopify_order order request_id st = (Ok (Some so), st') ->
  tabDoc (work st') = so :: tabDoc (work st) /\
  tabShopifyLog (work st') =
    {| log_status := "Success"; log_response_data := order;
       log_exception := None; log_request_id := request_id |}
    :: tabShopifyLog (work st) /\
  durable st' = work st' /\
  exists taxes stv,
    so = set_docstatus 1
           (stored (order_to_insert order (shopify_settings (work st))
                      taxes stv) stv).
Proof.
  intros Hn. rewrite (create_shopify_order_new _ _ _ Hn), order_stage_run.
  pose proof (keeps_run _ _ _
                (masters_validated_frame order (shopify_settings (work st))
                   (set_flags_request_id request_id st))
                (same_documents_refl _)) as Hs.
  destruct (masters_validated _ _ _) as [[u|e] stv]; [|discriminate].
  simpl in Hs. destruct Hs as (Hd & Hl & _ & _ & Hr).
  destruct (create_sales_order _ _ _ stv) as [[so1|e] st1] eqn:Hc;
    [|discriminate].
  apply create_sales_order_created in Hc as (taxes & -> & ->);
    [|rewrite (find_doc_same_table _ _ _ _ Hd); exact Hn].
  intros H. injection H as <- <-.
  rewrite logged_docs, logged_log, logged_durable, committed_work,
    posted_docs, posted_log, Hd, Hl.
  unfold log_record. rewrite committed_flags, posted_flags, Hr.
  repeat split. eauto.
Qed.

Lemma fold_left_running_total l total :
  fold_left PrimFloat.add l total = running_total total l.
Proof.
  revert total. induction l as [|x l IH]; intros total; simpl;
    [reflexivity | apply IH].
Qed.

(** The total depends on the order of the amounts, as it does for
    Python's [sum]: every partial sum is rounded. *)
Example running_total_rounds :
  running_total 0 [0.1; 0.2; 0.3]%float = 0.6000000000000001%float /\
  running_total 0 [0.3; 0.2; 0.1]%float = 0.6%float.
Proof. split; reflexivity. Qed.

(** C9.  The Sales Order that [create_shopify_order] creates for a payload
    carries, as its discount amount, the sum of the amounts of the
    payload's discount codes: the doubles that [flt] reads them as, added
    in the order of the list. *)
Theorem created_order_discount_amount order request_id st so st' :
  find_doc SalesOrder (open_order (o_id order)) (work st) = None ->
  create_shopify_order order request_id st = (Ok (Some so), st') ->
  tabDoc (work st') = so :: tabDoc (work st) /\
  doctype so = SalesOrder /\
  shopify_order_id so = Some (o_id order) /\
  discount_amount so = sum_of_amounts order.
Proof.
  intros Hn H.
  destruct (create_shopify_order_created _ _ _ _ _ Hn H)
    as (Hd & _ & _ & taxes & stv & ->).
  repeat split; [exact Hd|]. simpl. unfold get_discounted_amount.
  apply fold_left_running_total.
Qed.

Lemma created_order_discount_amount_witness :
  exists so st',
    create_shopify_order (demo_order "paid" []) None demo_state
      = (Ok (Some so), st') /\
    discount_amount so = 0.6000000000000001%float.
Proof.
  destruct (create_shopify_order (demo_order "paid" []) None demo_state)
    as [[[so|]|e] st'] eqn:H; try (vm_compute in H; discriminate).
  exists so, st'. split; [reflexivity|].
  destruct (created_order_discount_amount (demo_order "paid" []) None
              demo_state so st' eq_refl H) as (_ & _ & _ & Hq).
  rewrite Hq. reflexivity.
Defined.

(** The reuse path of [create_shopify_order]. *)
Lemma create_shopify_order_existing order request_id st d :
  find_doc SalesOrder (open_order (o_id order)) (work st) = Some d ->
  exists so,
    create_shopify_order order request_id st
      = (Ok (Some so), set_flags_request_id request_id st) /\
    find_doc SalesOrder (has_name (name d)) (work st) = Some so.
Proof.
  intros Hf. pose proof (find_doc_some _ _ _ _ Hf) as (Hin & Hdt & _).
  destruct (find_doc_exists SalesOrder (has_name (name d)) (work st) d
              Hin Hdt (docname_eqb_refl _)) as [so Hso].
  exists so. unfold create_shopify_order, get_single_settings, db_get_value,
    set_request_id, cstr, bind, gets, modify, get_doc.
  simpl. rewrite Hf. simpl. rewrite Hso. simpl. split; reflexivity.
Qed.

(** C10.  When a Sales Order that is not cancelled already carries the
    external order id, [create_shopify_order] returns the stored order of
    that name and changes nothing but the request id of the session: the
    store, committed or not, is as it was, so that no customer, item or
    document is created and no log record is written. *)
Theorem create_shopify_order_reuses order request_id st d :
  find_doc SalesOrder (open_order (o_id order)) (work st) = Some d ->
  exists so st',
    create_shopify_order order request_id st = (Ok (Some so), st') /\
    find_doc SalesOrder (has_name (name d)) (work st) = Some so /\
    name so = name d /\
    work st' = work st /\
    durable st' = durable st /\
    session_user st' = session_user st /\
    flags_request_id st' = request_id.
Proof.
  intros Hf.
  destruct (create_shopify_order_existing order request_id st d Hf)
    as (so & H & Hso).
  exists so, (set_flags_request_id request_id st).
  split; [exact H|]. split; [exact Hso|]. split; [|repeat split].
  apply find_doc_some in Hso as (_ & _ & Hname).
  apply docname_eqb_eq in Hname. exact Hname.
Qed.

Lemma create_shopify_order_reuses_witness :
  exists so st',
    create_shopify_order (demo_order "paid" [demo_fulfillment])
      (Some "REQ-2") demo_synced
    = (Ok (Some so), st') /\
    work st' = work demo_synced.
Proof.
  destruct (find_doc SalesOrder (open_order 1001) (work demo_synced))
    as [d|] eqn:Hf; [|vm_compute in Hf; discriminate].
  destruct (create_shopify_order_reuses
              (demo_order "paid" [demo_fulfillment]) (Some "REQ-2")
              demo_synced d Hf) as (so & st' & H & _ & _ & Hw & _).
  exists so, st'. split; [exact H | exact Hw].
Defined.

(** ** Documents are kept *)

Lemma submit_row_idempotent d : submit_row (submit_row d) = submit_row d.
Proof.
  unfold submit_row. destruct (docstatus d =? 0) eqn:H; [|rewrite H; reflexivity].
  reflexivity.
Qed.

Lemma row_kept_refl d : row_kept d d.
Proof. left. reflexivity. Qed.

Lemma row_kept_submit d : row_kept d (submit_row d).
Proof. right. reflexivity. Qed.

Lemma row_kept_trans a b c : row_kept a b -> row_kept b c -> row_kept a c.
Proof.
  intros [->| ->] [->| ->]; try (left; reflexivity); try (right; reflexivity).
  right. apply submit_row_idempotent.
Qed.

Lemma Forall2_row_kept_refl l : Forall2 row_kept l l.
Proof. induction l; constructor; auto using row_kept_refl. Qed.

Lemma Forall2_row_kept_trans l1 l2 l3 :
  Forall2 row_kept l1 l2 -> Forall2 row_kept l2 l3 -> Forall2 row_kept l1 l3.
Proof.
  intros H. revert l3. induction H; intros l3 H3; inversion H3; subst;
    constructor; eauto using row_kept_trans.
Qed.

Lemma docs_kept_refl l : docs_kept l l.
Proof. exists [], l. split; [reflexivity | apply Forall2_row_kept_refl]. Qed.

Lemma docs_kept_trans l1 l2 l3 :
  docs_kept l1 l2 -> docs_kept l2 l3 -> docs_kept l1 l3.
Proof.
  intros (n1 & o1 & -> & H1) (n2 & o2 & -> & H2).
  apply Forall2_app_inv_l in H2 as (o2a & o2b & Ha & Hb & ->).
  exists (n2 ++ o2a)%list, o2b. split; [apply app_assoc|].
  eapply Forall2_row_kept_trans; eassumption.
Qed.

Lemma docs_kept_cons d l : docs_kept l (d :: l).
Proof. exists [d], l. split; [reflexivity | apply Forall2_row_kept_refl]. Qed.

Lemma docs_kept_update dt n l :
  docs_kept l (update_doc dt n submit_row l).
Proof.
  exists [], (update_doc dt n submit_row l). split; [reflexivity|].
  induction l as [|d l IH]; simpl; [constructor|].
  destruct (doctype_eqb (doctype d) dt && has_name n d).
  - constructor; [apply row_kept_submit | apply Forall2_row_kept_refl].
  - constructor; [apply row_kept_refl | exact IH].
Qed.

Lemma follows_refl st : follows st st.
Proof. split; [apply docs_kept_refl | left; reflexivity]. Qed.

Lemma follows_new_docs st0 st l :
  follows st0 st -> docs_kept (tabDoc (work st)) l ->
  follows st0 (set_work (set_tabDoc l (work st)) st).
Proof.
  intros [Hw Hd] Hl. split; simpl.
  - eapply docs_kept_trans; eassumption.
  - destruct Hd as [Hd|[Hd1 Hd2]]; [left; exact Hd|].
    right. split; [exact Hd1 | eapply docs_kept_trans; eassumption].
Qed.

Lemma follows_kept st0 st :
  coherent st0 -> follows st0 st ->
  docs_kept (tabDoc (durable st0)) (tabDoc (durable st)) /\
  docs_kept (tabDoc (work st0)) (tabDoc (work st)) /\
  coherent st.
Proof.
  unfold coherent. intros Hc [Hw [Hd|[Hd1 Hd2]]].
  - rewrite Hd. repeat split; [apply docs_kept_refl | exact Hw|].
    eapply docs_kept_trans; eassumption.
  - repeat split; [eapply docs_kept_trans; eassumption | exact Hw | exact Hd2].
Qed.

Lemma follows_flags st0 r st :
  follows st0 st -> follows st0 (set_flags_request_id r st).
Proof. intros H. exact H. Qed.

Lemma follows_user st0 u st :
  follows st0 st -> follows st0 (set_session_user u st).
Proof. intros H. exact H. Qed.

Lemma follows_commit st0 st :
  follows st0 st -> follows st0 (set_durable (work st) st).
Proof.
  intros [Hw Hd]. split; [exact Hw|]. right. simpl.
  split; [exact Hw | apply docs_kept_refl].
Qed.

Lemma follows_log st0 l st :
  follows st0 st -> follows st0 (set_work (set_tabShopifyLog l (work st)) st).
Proof. intros H. exact H. Qed.

Lemma follows_customer st0 l st :
  follows st0 st -> follows st0 (set_work (set_tabCustomer l (work st)) st).
Proof. intros H. exact H. Qed.

Lemma follows_item st0 l st :
  follows st0 st -> follows st0 (set_work (set_tabItem l (work st)) st).
Proof. intros H. exact H. Qed.

Lemma follows_submit st0 d st :
  follows st0 st -> follows st0 (submitted d st).
Proof.
  intros Hf. apply follows_new_docs; [exact Hf | apply docs_kept_update].
Qed.

Lemma follows_insert st0 d st :
  follows st0 st -> insertable d (work st) -> True ->
  follows st0 (inserted d st).
Proof.
  intros Hf _ _. apply follows_new_docs; [exact Hf | apply docs_kept_cons].
Qed.

Create HintDb follows.

#[local] Hint Resolve follows_flags follows_user follows_commit follows_log
  follows_customer follows_item follows_submit follows_insert : follows.

(** Every stage, and the synchronisation as a whole, leaves a state that
    follows the one it started from. *)
Lemma follows_create_shopify_order st0 order request_id :
  keeps (follows st0) (create_shopify_order order request_id).
Proof.
  apply keeps_create_shopify_order with (allowed := fun _ => True);
    auto with follows.
Qed.

Lemma follows_create_shopify_invoice st0 order so request_id :
  keeps (follows st0) (create_shopify_invoice order so request_id).
Proof.
  apply keeps_create_shopify_invoice with (allowed := fun _ => True);
    auto with follows.
Qed.

Lemma follows_create_shopify_delivery st0 order so request_id :
  keeps (follows st0) (create_shopify_delivery order so request_id).
Proof.
  apply keeps_create_shopify_delivery with (allowed := fun _ => True);
    auto with follows.
Qed.

Lemma follows_sync_sales_order st0 order request_id :
  keeps (follows st0) (sync_sales_order order request_id).
Proof.
  apply keeps_sync_sales_order with (allowed := fun _ => True);
    auto with follows.
Qed.

(** ** No stage raises *)

Lemma total_bind {A B} (m : M A) (k : A -> M B) :
  total m -> (forall a, total (k a)) -> total (bind m k).
Proof.
  intros Hm Hk st. destruct (Hm st) as (a & st1 & H1).
  destruct (Hk a st1) as (b & st2 & H2). exists b, st2.
  rewrite (run_bind_ok _ _ _ _ _ H1). exact H2.
Qed.

Lemma total_ret {A} (a : A) : total (ret a).
Proof. intros st. exists a, st. reflexivity. Qed.

Lemma total_gets {A} (f : State -> A) : total (gets f).
Proof. intros st. exists (f st), st. reflexivity. Qed.

Lemma total_modify f : total (modify f).
Proof. intros st. exists tt, (f st). reflexivity. Qed.

Lemma total_make_shopify_log status order exc rollback :
  total (make_shopify_log status order exc rollback).
Proof.
  unfold make_shopify_log. apply total_bind.
  - destruct rollback; [apply total_modify | apply total_ret].
  - intros ?. apply total_bind; [apply total_modify|].
    intros ?. apply total_modify.
Qed.

(** A stage: a guarded body, whose failure is logged and answered with
    [None]. *)
Lemma total_try_except {A B} (body : M A) (handler : Exc -> M B)
    (orelse : A -> M B) :
  (forall e, total (handler e)) -> (forall a, total (orelse a)) ->
  total (try_except body handler orelse).
Proof.
  intros Hh Ho st. unfold try_except.
  destruct (body st) as [[a|e] st1]; [apply Ho | apply Hh].
Qed.

Lemma total_create_shopify_order order request_id :
  total (create_shopify_order order request_id).
Proof.
  intros st.
  destruct (find_doc SalesOrder (open_order (o_id order)) (work st))
    as [d|] eqn:Hf.
  - destruct (create_shopify_order_existing order request_id st d Hf)
      as (so & H & _). eauto.
  - rewrite (create_shopify_order_new _ _ _ Hf).
    destruct (order_stage _ _ _) as [[so|e] st1]; eauto.
Qed.

Lemma total_create_shopify_invoice order so request_id :
  total (create_shopify_invoice order so request_id).
Proof.
  unfold create_shopify_invoice.
  apply total_bind; [apply total_gets|]. intros settings.
  apply total_bind; [apply total_modify|]. intros ?.
  destruct (negb _); [apply total_ret|].
  apply total_try_except.
  - intros e. apply total_bind; [apply total_make_shopify_log|].
    intros ?. apply total_ret.
  - intros si. apply total_ret.
Qed.

Lemma total_create_shopify_delivery order so request_id :
  total (create_shopify_delivery order so request_id).
Proof.
  unfold create_shopify_delivery.
  apply total_bind; [apply total_gets|]. intros settings.
  apply total_bind; [apply total_modify|]. intros ?.
  destruct (o_fulfillments order); [apply total_ret|].
  apply total_try_except.
  - intros e. apply total_bind; [apply total_make_shopify_log|].
    intros ?. apply total_ret.
  - intros dns. apply total_ret.
Qed.

Lemma total_sync_sales_order order request_id :
  total (sync_sales_order order request_id).
Proof.
  unfold sync_sales_order.
  apply total_bind; [apply total_modify|]. intros ?.
  apply total_bind; [apply total_modify|]. intros ?.
  apply total_bind; [apply total_create_shopify_order|].
  intros [so|]; [|apply total_ret].
  apply total_bind; [apply total_create_shopify_invoice|]. intros ?.
  apply total_bind; [apply total_create_shopify_delivery|]. intros ?.
  apply total_ret.
Qed.

Lemma contained_intro {A} (m : M A) st :
  total m -> keeps (follows st) m -> coherent st -> contained m st.
Proof.
  intros Ht Hk Hc. destruct (Ht st) as (a & st' & H).
  pose proof (keeps_run _ _ st Hk (follows_refl st)) as Hf.
  rewrite H in Hf. simpl in Hf.
  exists a, st'. split; [exact H | apply follows_kept; assumption].
Qed.

(** C7.  From a state in which the connection holds what was committed:
    [sync_sales_order] and each of its three stages return without
    raising and keep every document, committed or pending; and when the
    guarded part of a stage raises, the stage answers [None] after
    [make_shopify_log] wrote and committed a record with status Error, the
    payload and the exception, on top of the log, leaving the documents as
    the failure found them. *)
Theorem stage_exceptions_are_contained order request_id st :
  coherent st ->
  contained (sync_sales_order order request_id) st /\
  contained (create_shopify_order order request_id) st /\
  (forall so, contained (create_shopify_invoice order so request_id) st) /\
  (forall so, contained (create_shopify_delivery order so request_id) st) /\
  (forall e st2,
     find_doc SalesOrder (open_order (o_id order)) (work st) = None ->
     order_stage order (shopify_settings (work st))
       (set_flags_request_id request_id st) = (Raise e, st2) ->
     create_shopify_order order request_id st
     = (Ok None, logged "Error" order (Some e) st2)) /\
  (forall so e st2,
     status_in (o_financial_status order) ["paid"; "refunded"] = true ->
     invoice_stage order (shopify_settings (work st)) so
       (set_flags_request_id request_id st) = (Raise e, st2) ->
     create_shopify_invoice order so request_id st
     = (Ok None, logged "Error" order (Some e) st2)) /\
  (forall so e st2,
     o_fulfillments order <> [] ->
     create_delivery_note order (shopify_settings (work st)) so
       (set_flags_request_id request_id st) = (Raise e, st2) ->
     create_shopify_delivery order so request_id st
     = (Ok None, logged "Error" order (Some e) st2)) /\
  (forall e st2,
     tabShopifyLog (work (logged "Error" order (Some e) st2))
     = {| log_status := "Error"; log_response_data := order;
          log_exception := Some e;
          log_request_id := flags_request_id st2 |}
       :: tabShopifyLog (work st2) /\
     tabDoc (work (logged "Error" order (Some e) st2)) = tabDoc (work st2) /\
     durable (logged "Error" order (Some e) st2)
     = work (logged "Error" order (Some e) st2)).
Proof.
  intros Hc. repeat split.
  - apply contained_intro;
      [apply total_sync_sales_order | apply follows_sync_sales_order | exact Hc].
  - apply contained_intro;
      [apply total_create_shopify_order | apply follows_create_shopify_order
      | exact Hc].
  - intros so. apply contained_intro;
      [apply total_create_shopify_invoice
      | apply follows_create_shopify_invoice | exact Hc].
  - intros so. apply contained_intro;
      [apply total_create_shopify_delivery
      | apply follows_create_shopify_delivery | exact Hc].
  - intros e st2 Hn Hs. rewrite (create_shopify_order_new _ _ _ Hn), Hs.
    reflexivity.
  - intros so e st2 Hp Hs. unfold create_shopify_invoice, get_single_settings,
      set_request_id, bind, gets, modify, try_except.
    simpl. rewrite Hp. simpl. rewrite Hs. reflexivity.
  - intros so e st2 Hf Hs. unfold create_shopify_delivery,
      get_single_settings, set_request_id, bind, gets, modify, try_except.
    simpl. destruct (o_fulfillments order); [contradiction|].
    rewrite Hs. reflexivity.
Qed.

Lemma stage_exceptions_are_contained_witness :
  contained (sync_sales_order (demo_order "paid" [demo_fulfillment]) None)
    demo_state_failing_submit.
Proof.
  apply (proj1 (stage_exceptions_are_contained
                  (demo_order "paid" [demo_fulfillment]) None
                  demo_state_failing_submit (docs_kept_refl _))).
Defined.

(** When the framework refuses to submit the invoice, the run still
    returns: the order stage's Sales Order stays committed, the invoice
    stage leaves its draft behind and an Error record on top of the
    Success record, and the delivery stage goes ahead. *)
Example sync_sales_order_failing_submit :
  fst (sync_sales_order (demo_order "paid" [demo_fulfillment]) None
         demo_state_failing_submit) = Ok tt /\
  map (fun d => (doctype d, docstatus d))
      (tabDoc (durable (snd (sync_sales_order
                               (demo_order "paid" [demo_fulfillment]) None
                               demo_state_failing_submit))))
  = [(DeliveryNote, 1); (SalesInvoice, 0); (SalesOrder, 1)] /\
  map log_status
      (tabShopifyLog (durable (snd (sync_sales_order
                                      (demo_order "paid" [demo_fulfillment])
                                      None demo_state_failing_submit))))
  = ["Error"; "Success"].
Proof. vm_compute. repeat split. Qed.

(** ** Cancellation *)

Lemma cancel_doctype_turn order dt st :
  exists st', cancel_doctype order dt st = (Ok tt, st') /\
              cancel_turn order dt st st'.
Proof.
  unfold cancel_doctype, db_get_value, cstr. rewrite run_bind. simpl.
  destruct (find_doc dt (submitted_order (o_id order)) (work st))
    as [found|] eqn:Hf; simpl.
  2:{ exists st. split; [reflexivity | apply turn_nothing; exact Hf]. }
  pose proof (find_doc_some _ _ _ _ Hf) as (Hin & Hdt & _).
  destruct (find_doc_exists dt (has_name (name found)) (work st) found
              Hin Hdt (docname_eqb_refl _)) as [d Hd].
  pose proof (find_doc_some _ _ _ _ Hd) as (_ & Hdt' & Hname).
  apply docname_eqb_eq in Hname.
  unfold try_except, get_doc, doc_cancel, framework, bind.
  rewrite Hd. destruct (faults st (call_cancel d) (work st)) eqn:Hfault.
  - eexists. split; [reflexivity|].
    eapply turn_failed; [exact Hf | exact Hd | left; auto].
  - destruct (docstatus d =? 1) eqn:Hs.
    + apply Z.eqb_eq in Hs. eexists. split; [reflexivity|].
      simpl. rewrite Hdt', Hname.
      eapply turn_cancelled; eassumption.
    + apply Z.eqb_neq in Hs. eexists. split; [reflexivity|].
      eapply turn_failed; [exact Hf | exact Hd | right; auto].
Qed.

(** The document that a successful turn cancels is stored, afterwards, as
    cancelled. *)
Lemma cancelled_row dt n st d :
  find_doc dt (has_name n) (work st) = Some d -> docstatus d = 1 ->
  find_doc dt (has_name n) (work (cancelled dt n st))
  = Some (set_docstatus 2 d).
Proof.
  unfold find_doc, cancelled. simpl.
  induction (tabDoc (work st)) as [|r l IH]; simpl; [discriminate|].
  destruct (doctype_eqb (doctype r) dt && has_name n r) eqn:Hr.
  - intros H Hs. injection H as ->. simpl.
    unfold cancel_row. apply Z.eqb_eq in Hs. rewrite Hs. simpl.
    unfold has_name in *. simpl. rewrite Hr. reflexivity.
  - intros H Hs. simpl. rewrite Hr. auto.
Qed.

(** The lookup of a turn answers with the first document that is
    submitted and keyed by the order id. *)
Lemma keyed_submitted_iff dt id d :
  doctype_eqb (doctype d) dt && submitted_order id d = true
  <-> keyed_submitted dt id d.
Proof.
  unfold submitted_order, by_order_id, keyed_submitted.
  rewrite !andb_true_iff, doctype_eqb_eq, Z.eqb_eq.
  rewrite (opt_eqb_iff Z.eqb _ _ Z.eqb_eq). tauto.
Qed.

Lemma find_doc_keyed_submitted dt id db d :
  first_such (keyed_submitted dt id) (tabDoc db) d ->
  find_doc dt (submitted_order id) db = Some d.
Proof.
  intros H. unfold find_doc.
  apply (find_first_such _ (keyed_submitted dt id)); [|exact H].
  intros x. apply keyed_submitted_iff.
Qed.

(** A cancellation leaves the documents of the other doctypes where they
    are. *)
Lemma find_doc_cancelled_other dt dt' n f st :
  dt <> dt' ->
  find_doc dt f (work (cancelled dt' n st)) = find_doc dt f (work st).
Proof.
  intros Hne. unfold find_doc, cancelled. simpl.
  induction (tabDoc (work st)) as [|d l IH]; simpl; [reflexivity|].
  destruct (doctype_eqb (doctype d) dt' && has_name n d) eqn:Hd; simpl.
  - apply andb_true_iff in Hd as [Hd _]. apply doctype_eqb_eq in Hd.
    assert (Hc : doctype (cancel_row d) = dt')
      by (unfold cancel_row; destruct (docstatus d =? 1); exact Hd).
    replace (doctype_eqb (doctype (cancel_row d)) dt) with false;
      [replace (doctype_eqb (doctype d) dt) with false; [reflexivity|]|].
    + symmetry. destruct (doctype_eqb (doctype d) dt) eqn:E; [|reflexivity].
      apply doctype_eqb_eq in E. congruence.
    + symmetry.
      destruct (doctype_eqb (doctype (cancel_row d)) dt) eqn:E;
        [|reflexivity].
      apply doctype_eqb_eq in E. congruence.
  - rewrite IH. reflexivity.
Qed.

(** What a turn does to the log and to the committed store, on a
    connection whose log is the committed one: it leaves both alone, or it
    adds one record to the log, over the committed documents. *)
Lemma cancel_turn_log order dt st st' :
  cancel_turn order dt st st' ->
  tabShopifyLog (durable st) = tabShopifyLog (work st) ->
  tabShopifyLog (durable st') = tabShopifyLog (work st') /\
  tabDoc (durable st') = tabDoc (durable st) /\
  (tabShopifyLog (work st') = tabShopifyLog (work st) \/
   (exists r, tabShopifyLog (work st') = r :: tabShopifyLog (work st)) /\
   tabDoc (work st') = tabDoc (durable st)).
Proof.
  intros Ht Hl.
  destruct Ht as [Hf | found d Hf Hd Hfault Hs | found d e Hf Hd Hfail].
  - auto.
  - split; [exact Hl|]. split; [reflexivity|]. left. reflexivity.
  - split; [reflexivity|]. split; [reflexivity|]. right.
    split; [|reflexivity].
    eexists. unfold logged. simpl. rewrite Hl. reflexivity.
Qed.

(** A turn that adds nothing to the log found nothing, or cancelled what
    it found. *)
Lemma cancel_turn_quiet order dt st st' :
  cancel_turn order dt st st' ->
  tabShopifyLog (durable st) = tabShopifyLog (work st) ->
  tabShopifyLog (work st') = tabShopifyLog (work st) ->
  st' = st /\ find_doc dt (submitted_order (o_id order)) (work st) = None
  \/
  exists found d,
    find_doc dt (submitted_order (o_id order)) (work st) = Some found /\
    find_doc dt (has_name (name found)) (work st) = Some d /\
    docstatus d = 1 /\ st' = cancelled dt (name found) st.
Proof.
  intros Ht Hl Hq.
  destruct Ht as [Hf | found d Hf Hd Hfault Hs | found d e Hf Hd Hfail].
  - left. auto.
  - right. exists found, d. auto.
  - exfalso. unfold logged in Hq. simpl in Hq. rewrite Hl in Hq.
    apply (f_equal (@List.length ShopifyLog)) in Hq. simpl in Hq. lia.
Qed.

Lemma quiet_turn_other order dt dt' st st' f :
  cancel_turn order dt' st st' ->
  tabShopifyLog (durable st) = tabShopifyLog (work st) ->
  tabShopifyLog (work st') = tabShopifyLog (work st) ->
  dt <> dt' ->
  find_doc dt f (work st') = find_doc dt f (work st).
Proof.
  intros Ht Hl Hq Hne.
  destruct (cancel_turn_quiet _ _ _ _ Ht Hl Hq)
    as [[-> _]|(found & d & _ & _ & _ & ->)]; [reflexivity|].
  apply find_doc_cancelled_other, Hne.
Qed.

Lemma quiet_turn_cancels order dt st st' d :
  cancel_turn order dt st st' ->
  tabShopifyLog (durable st) = tabShopifyLog (work st) ->
  tabShopifyLog (work st') = tabShopifyLog (work st) ->
  find_doc dt (submitted_order (o_id order)) (work st) = Some d ->
  stored_cancelled dt (name d) (work st').
Proof.
  intros Ht Hl Hq Hd.
  destruct (cancel_turn_quiet _ _ _ _ Ht Hl Hq)
    as [[_ Hn]|(found & d' & Hf & Hd' & Hs & ->)]; [congruence|].
  rewrite Hd in Hf. injection Hf as <-.
  exists (set_docstatus 2 d'). split; [|reflexivity].
  apply cancelled_row; assumption.
Qed.

(** C8 (as amended).  From a connection with nothing pending,
    [cancel_shopify_order] gives a turn to Delivery Note, then to Sales
    Invoice, then to Sales Order, and returns: each turn looks for the
    submitted document that carries the order id and cancels it, or logs,
    with status Error and the exception, that it could not; a turn that
    fails does not stop the next.
    When no turn logs a failure, the submitted document of each doctype is
    cancelled in the end.  A turn that logs a failure leaves the documents
    as they were before the call: what the turns before it cancelled is
    rolled back with the failed cancellation. *)
Theorem cancel_shopify_order_turns order request_id st :
  clean st ->
  exists st1 st2 st3,
    cancel_turn order DeliveryNote
      (set_flags_request_id request_id
         (set_session_user "Administrator" st)) st1 /\
    cancel_turn order SalesInvoice st1 st2 /\
    cancel_turn order SalesOrder st2 st3 /\
    cancel_shopify_order order request_id st = (Ok tt, st3) /\
    (tabShopifyLog (work st3) = tabShopifyLog (work st) ->
     all_cancelled order st st3) /\
    (tabShopifyLog (work st1) <> tabShopifyLog (work st) ->
     tabDoc (work st1) = tabDoc (work st)) /\
    (tabShopifyLog (work st2) <> tabShopifyLog (work st1) ->
     tabDoc (work st2) = tabDoc (work st)) /\
    (tabShopifyLog (work st3) <> tabShopifyLog (work st2) ->
     tabDoc (work st3) = tabDoc (work st)).
Proof.
  intros Hc. unfold clean in Hc.
  set (st0 := set_flags_request_id request_id
                (set_session_user "Administrator" st)).
  destruct (cancel_doctype_turn order DeliveryNote st0) as (st1 & H1 & T1).
  destruct (cancel_doctype_turn order SalesInvoice st1) as (st2 & H2 & T2).
  destruct (cancel_doctype_turn order SalesOrder st2) as (st3 & H3 & T3).
  assert (L0 : tabShopifyLog (durable st0) = tabShopifyLog (work st0))
    by (simpl; rewrite Hc; reflexivity).
  destruct (cancel_turn_log _ _ _ _ T1 L0) as (L1 & D1 & C1).
  destruct (cancel_turn_log _ _ _ _ T2 L1) as (L2 & D2 & C2).
  destruct (cancel_turn_log _ _ _ _ T3 L2) as (L3 & D3 & C3).
  assert (D0 : tabDoc (durable st0) = tabDoc (work st))
    by (simpl; rewrite Hc; reflexivity).
  exists st1, st2, st3.
  split; [exact T1|]. split; [exact T2|]. split; [exact T3|].
  split.
  { unfold cancel_shopify_order, set_user, set_request_id. simpl.
    rewrite run_bind. simpl. rewrite run_bind. simpl.
    fold st0.
    rewrite (run_bind_ok _ _ _ _ _ H1), (run_bind_ok _ _ _ _ _ H2),
      (run_bind_ok _ _ _ _ _ H3).
    reflexivity. }
  split; [|split; [|split]].
  - intros Hq. change (work st) with (work st0) in Hq.
    assert (Hlen :
      tabShopifyLog (work st1) = tabShopifyLog (work st0) /\
      tabShopifyLog (work st2) = tabShopifyLog (work st1) /\
      tabShopifyLog (work st3) = tabShopifyLog (work st2)).
    { destruct C1 as [E1|[[r1 E1] _]], C2 as [E2|[[r2 E2] _]],
        C3 as [E3|[[r3 E3] _]];
        try (split; [|split]; assumption);
        exfalso; rewrite E3, E2, E1 in Hq;
        apply (f_equal (@List.length ShopifyLog)) in Hq; simpl in Hq; lia. }
    destruct Hlen as (Q1 & Q2 & Q3).
    intros dt d Hdt Hd.
    apply find_doc_keyed_submitted in Hd.
    change (work st) with (work st0) in Hd.
    destruct Hdt as [<-|[<-|[<-|[]]]].
    + pose proof (quiet_turn_cancels _ _ _ _ _ T1 L0 Q1 Hd) as (d' & Hd' & Hs).
      exists d'. split; [|exact Hs].
      rewrite (quiet_turn_other _ _ _ _ _ _ T3 L2 Q3)
        by discriminate.
      rewrite (quiet_turn_other _ _ _ _ _ _ T2 L1 Q2)
        by discriminate.
      exact Hd'.
    + rewrite <- (quiet_turn_other _ _ _ _ _ _ T1 L0 Q1) in Hd
        by discriminate.
      pose proof (quiet_turn_cancels _ _ _ _ _ T2 L1 Q2 Hd) as (d' & Hd' & Hs).
      exists d'. split; [|exact Hs].
      rewrite (quiet_turn_other _ _ _ _ _ _ T3 L2 Q3)
        by discriminate.
      exact Hd'.
    + rewrite <- (quiet_turn_other _ _ _ _ _ _ T1 L0 Q1) in Hd
        by discriminate.
      rewrite <- (quiet_turn_other _ _ _ _ _ _ T2 L1 Q2) in Hd
        by discriminate.
      exact (quiet_turn_cancels _ _ _ _ _ T3 L2 Q3 Hd).
  - intros Hne. destruct C1 as [E1|[_ E1]]; [contradiction|].
    rewrite E1. exact D0.
  - intros Hne. destruct C2 as [E2|[_ E2]]; [contradiction|].
    rewrite E2, D1. exact D0.
  - intros Hne. destruct C3 as [E3|[_ E3]]; [contradiction|].
    rewrite E3, D2, D1. exact D0.
Qed.

Lemma cancel_shopify_order_turns_witness :
  all_cancelled (demo_order "paid" [demo_fulfillment]) demo_synced
    (snd (cancel_shopify_order (demo_order "paid" [demo_fulfillment]) None
            demo_synced)) /\
  map (fun d => (doctype d, docstatus d))
      (tabDoc (work (snd (cancel_shopify_order
                            (demo_order "paid" [demo_fulfillment]) None
                            demo_synced))))
  = [(DeliveryNote, 2); (PaymentEntry, 1); (SalesInvoice, 2);
     (SalesOrder, 2)].
Proof.
  split; [|vm_compute; reflexivity].
  destruct (cancel_shopify_order_turns (demo_order "paid" [demo_fulfillment])
              None demo_synced ltac:(vm_compute; reflexivity))
    as (st1 & st2 & st3 & _ & _ & _ & Hrun & Hall & _).
  assert (E : st3 = snd (cancel_shopify_order
                           (demo_order "paid" [demo_fulfillment]) None
                           demo_synced))
    by (rewrite Hrun; reflexivity).
  rewrite <- E. apply Hall. rewrite E. vm_compute. reflexivity.
Defined.

(** C8, the counterexample.  The framework refuses to cancel the Sales
    Invoice of the sample order and nothing else.  The Delivery Note that
    carries the order id stands submitted before the call, the framework
    would cancel it, and its turn comes first; yet it stands submitted
    after the call: the rollback asked of [make_shopify_log] for the
    invoice's failure undid its cancellation, which was not committed.
    The Sales Order, whose turn came after the failure, is cancelled, over
    an invoice that is not. *)
Lemma cancelled_delivery_note_is_restored :
  clean demo_synced_failing_cancel /\
  (exists dn,
     first_such (keyed_submitted DeliveryNote 1001)
       (tabDoc (work demo_synced_failing_cancel)) dn /\
     faults demo_synced_failing_cancel (call_cancel dn)
       (work demo_synced_failing_cancel) = false /\
     find_doc DeliveryNote (has_name (name dn))
       (work (snd (cancel_shopify_order
                     (demo_order "paid" [demo_fulfillment]) None
                     demo_synced_failing_cancel))) = Some dn) /\
  ~ all_cancelled (demo_order "paid" [demo_fulfillment])
      demo_synced_failing_cancel
      (snd (cancel_shopify_order (demo_order "paid" [demo_fulfillment]) None
              demo_synced_failing_cancel)) /\
  map (fun d => (doctype d, docstatus d))
      (tabDoc (work (snd (cancel_shopify_order
                            (demo_order "paid" [demo_fulfillment]) None
                            demo_synced_failing_cancel))))
  = [(DeliveryNote, 1); (PaymentEntry, 1); (SalesInvoice, 1);
     (SalesOrder, 2)] /\
  map log_status
      (tabShopifyLog (work (snd (cancel_shopify_order
                                   (demo_order "paid" [demo_fulfillment])
                                   None demo_synced_failing_cancel))))
  = ["Error"; "Success"].
Proof.
  assert (Hdn : exists dn,
    tabDoc (work demo_synced_failing_cancel) = dn :: tl (tabDoc (work demo_synced_failing_cancel)) /\
    keyed_submitted DeliveryNote 1001 dn /\
    faults demo_synced_failing_cancel (call_cancel dn)
      (work demo_synced_failing_cancel) = false /\
    find_doc DeliveryNote (has_name (name dn))
      (work (snd (cancel_shopify_order
                    (demo_order "paid" [demo_fulfillment]) None
                    demo_synced_failing_cancel))) = Some dn).
  { eexists. split; [vm_compute; reflexivity|].
    split; [vm_compute; repeat split|].
    split; vm_compute; reflexivity. }
  destruct Hdn as (dn & Htab & Hkey & Hfault & Hfind).
  assert (Hfirst : first_such (keyed_submitted DeliveryNote 1001)
                     (tabDoc (work demo_synced_failing_cancel)) dn).
  { exists [], (tl (tabDoc (work demo_synced_failing_cancel))).
    split; [exact Htab|]. split; [constructor | exact Hkey]. }
  split; [vm_compute; reflexivity|].
  split; [exists dn; auto|].
  split; [|split; vm_compute; reflexivity].
  intros Hall.
  destruct (Hall DeliveryNote dn (or_introl eq_refl) Hfirst)
    as (d' & Hd' & Hs).
  rewrite Hfind in Hd'. injection Hd' as <-.
  destruct Hkey as (_ & Hone & _). rewrite Hone in Hs. discriminate.
Qed.

(** ** What the invoice stage creates *)

Lemma insert_submit_ok d st d2 st2 :
  (d1 <- doc_insert d ;; doc_submit d1) st = (Ok d2, st2) ->
  d2 = set_docstatus 1 (stored d st) /\ st2 = posted d st.
Proof.
  intros H. bind_ok H d1 s1 E1.
  apply doc_insert_ok in E1 as (-> & -> & _).
  apply doc_submit_ok in H as (-> & -> & _). split; reflexivity.
Qed.

Lemma make_payment_entry_against_sales_invoice_ok doc settings st u st' :
  make_payment_entry_against_sales_invoice doc settings st = (Ok u, st') ->
  exists pe0,
    doctype pe0 = PaymentEntry /\ reference_no pe0 = Some (name doc) /\
    st' = posted pe0 st.
Proof.
  unfold make_payment_entry_against_sales_invoice. intros H.
  bind_ok H pe s1 E1. apply get_payment_entry_ok in E1 as (-> & d & _ & ->).
  bind_ok H date s2 E2. unfold nowdate, gets in E2. injection E2 as <- <-.
  bind_ok H pe1 s3 E3.
  match type of E3 with doc_insert ?d _ = _ => set (pe0 := d) in * end.
  apply doc_insert_ok in E3 as (-> & -> & _).
  bind_ok H pe2 s4 E4. apply doc_submit_ok in E4 as (-> & -> & _).
  unfold ret in H. injection H as _ <-.
  exists pe0. split; [reflexivity|]. split; reflexivity.
Qed.

Lemma create_sales_invoice_guard order settings so st :
  create_sales_invoice order settings so st =
  if invoice_due order settings so (work st) then
    (si <- make_sales_invoice (name so) ;;
     date <- getdate (o_created_at order) ;;
     let si := set_shopify_order_id (Some (o_id order)) si in
     let si := set_shopify_order_number (o_name order) si in
     let si := set_set_posting_time 1 si in
     let si := set_posting_date date si in
     let si := set_naming_series
                 (Some (or_default (ss_sales_invoice_series settings)
                          "SI-Shopify-")) si in
     let si := set_ignore_mandatory true si in
     let si := set_items (set_cost_center (items si) (ss_cost_center settings))
                 si in
     si <- doc_insert si ;;
     si <- doc_submit si ;;
     make_payment_entry_against_sales_invoice si settings ;;
     db_commit ;;
     ret (Some (name si))) st
  else (Ok None, st).
Proof.
  unfold create_sales_invoice, invoice_due, db_get_value.
  rewrite run_bind. simpl.
  destruct (negb _ && _ && _ && _); reflexivity.
Qed.

(** A Sales Invoice that [create_sales_invoice] returns was due, and is
    followed by its payment: both were inserted, submitted and
    committed. *)
Lemma create_sales_invoice_some order settings so st n st' :
  create_sales_invoice order settings so st = (Ok (Some n), st') ->
  invoice_due order settings so (work st) = true /\
  exists si0 pe0,
    doctype si0 = SalesInvoice /\
    shopify_order_id si0 = Some (o_id order) /\
    is_return si0 = 0 /\
    n = name (stored si0 st) /\
    doctype pe0 = PaymentEntry /\
    reference_no pe0 = Some n /\
    st' = committed (posted pe0 (posted si0 st)).
Proof.
  rewrite create_sales_invoice_guard.
  destruct (invoice_due order settings so (work st)); [|discriminate].
  intros H. split; [reflexivity|].
  bind_ok H si s1 E1. apply make_sales_invoice_ok in E1 as (-> & so' & _ & ->).
  bind_ok H date s2 E2.
  apply readonly_run in E2 as Hs; [subst s2 | apply readonly_getdate].
  cbv zeta in H.
  bind_ok H si1 s3 E3.
  match type of E3 with doc_insert ?d _ = _ => set (si0 := d) in * end.
  apply doc_insert_ok in E3 as (-> & -> & _).
  bind_ok H si2 s4 E4. apply doc_submit_ok in E4 as (-> & -> & _).
  bind_ok H u s5 E5.
  apply make_payment_entry_against_sales_invoice_ok in E5
    as (pe0 & Hpe & Href & ->).
  unfold bind, db_commit, modify, ret in H. injection H as <- <-.
  exists si0, pe0.
  split; [reflexivity|]. split; [reflexivity|]. split; [reflexivity|].
  split; [reflexivity|]. split; [exact Hpe|]. split; [exact Href|].
  unfold committed, posted. reflexivity.
Qed.

Lemma create_sales_invoice_none order settings so st st' :
  create_sales_invoice order settings so st = (Ok None, st') ->
  invoice_due order settings so (work st) = false /\ st' = st.
Proof.
  rewrite create_sales_invoice_guard.
  destruct (invoice_due order settings so (work st)).
  - intros H. exfalso.
    bind_ok H si s1 E1. bind_ok H date s2 E2. cbv zeta in H.
    bind_ok H si1 s3 E3. bind_ok H si2 s4 E4. bind_ok H u s5 E5.
    unfold bind, db_commit, modify, ret in H. discriminate.
  - intros H. injection H as <-. auto.
Qed.

Lemma invoice_stage_ok order settings so st r st' :
  invoice_stage order settings so st = (Ok r, st') ->
  (r = None /\ st' = st /\ invoice_due order settings so (work st) = false)
  \/
  exists n st1,
    r = Some n /\
    create_sales_invoice order settings so st = (Ok (Some n), st1) /\
    (opt_eqb String.eqb (o_financial_status order) (Some "refunded") = false
       /\ st' = st1
     \/
     opt_eqb String.eqb (o_financial_status order) (Some "refunded") = true
       /\ exists ri0,
            doctype ri0 = SalesInvoice /\ shopify_order_id ri0 = None /\
            is_return ri0 = 1 /\ return_against ri0 = Some n /\
            st' = posted ri0 st1).
Proof.
  unfold invoice_stage. intros H. bind_ok H si s1 E1.
  destruct si as [n|].
  - right. exists n, s1.
    destruct (opt_eqb String.eqb (o_financial_status order) (Some "refunded")).
    + bind_ok H ri s2 E2.
      apply make_sales_return_ok in E2 as (-> & si & _ & ->).
      bind_ok H ri1 s3 E3.
      match type of E3 with doc_insert ?d _ = _ => set (ri0 := d) in * end.
      apply doc_insert_ok in E3 as (-> & -> & _).
      bind_ok H ri2 s4 E4. apply doc_submit_ok in E4 as (-> & -> & _).
      unfold ret in H. injection H as <- <-.
      split; [reflexivity|]. split; [reflexivity|]. right.
      split; [reflexivity|]. exists ri0. repeat split.
    + unfold ret in H. injection H as <- <-. auto.
  - left. unfold ret in H. injection H as <- <-.
    apply create_sales_invoice_none in E1 as [Hd ->]. auto.
Qed.

Lemma error_count_same_log db db' :
  tabShopifyLog db' = tabShopifyLog db -> error_count db' = error_count db.
Proof. unfold error_count. intros ->. reflexivity. Qed.

Lemma error_count_logged_error order exc st :
  error_count (work (logged "Error" order exc st))
  = S (error_count (work st)).
Proof. reflexivity. Qed.

Lemma error_count_logged_success order exc st :
  error_count (work (logged "Success" order exc st))
  = error_count (work st).
Proof. reflexivity. Qed.

Lemma order_stage_log order settings l :
  keeps (fun st => tabShopifyLog (work st) = l) (order_stage order settings).
Proof.
  apply keeps_order_stage with (allowed := fun _ => True); auto.
Qed.

Lemma create_delivery_note_log order settings so l :
  keeps (fun st => tabShopifyLog (work st) = l)
        (create_delivery_note order settings so).
Proof.
  apply keeps_create_delivery_note with (allowed := fun _ => True); auto.
Qed.

(** The invoice stage writes no log record itself. *)
Lemma invoice_stage_log order settings so l :
  keeps (fun st => tabShopifyLog (work st) = l)
        (invoice_stage order settings so).
Proof.
  apply keeps_invoice_stage with (allowed := fun _ => True); auto.
Qed.

Lemma create_shopify_invoice_run order so request_id st :
  status_in (o_financial_status order) ["paid"; "refunded"] = true ->
  create_shopify_invoice order so request_id st =
  match invoice_stage order (shopify_settings (work st)) so
          (set_flags_request_id request_id st) with
  | (Ok si, st') => (Ok si, st')
  | (Raise e, st') => (Ok None, logged "Error" order (Some e) st')
  end.
Proof.
  intros Hp. unfold create_shopify_invoice, get_single_settings,
    set_request_id, bind, gets, modify, try_except.
  rewrite Hp. simpl.
  destruct (invoice_stage _ _ _ _) as [[si|e] st']; reflexivity.
Qed.

(** What the invoice stage does for a refunded order when an invoice is
    due and the stage logs no Error. *)
Lemma create_shopify_invoice_refunded order so request_id st :
  o_financial_status order = Some "refunded" ->
  docstatus so = 1 ->
  truthy_Q (per_billed so) = false ->
  find_doc SalesInvoice (by_order_id (o_id order)) (work st) = None ->
  truthy_Z (cint (ss_sync_sales_invoice (shopify_settings (work st)))) = true ->
  error_count (work (snd (create_shopify_invoice order so request_id st)))
  = error_count (work st) ->
  exists si pe ri,
    fst (create_shopify_invoice order so request_id st)
      = Ok (Some (name si)) /\
    tabDoc (work (snd (create_shopify_invoice order so request_id st)))
      = ri :: pe :: si :: tabDoc (work st) /\
    doctype si = SalesInvoice /\
    shopify_order_id si = Some (o_id order) /\
    docstatus si = 1 /\
    doctype pe = PaymentEntry /\
    reference_no pe = Some (name si) /\
    doctype ri = SalesInvoice /\
    is_return ri = 1 /\
    return_against ri = Some (name si) /\
    docstatus ri = 1.
Proof.
  intros Hr Hs Hb Hn He.
  rewrite create_shopify_invoice_run by (rewrite Hr; reflexivity).
  pose proof (keeps_run _ _ (set_flags_request_id request_id st)
                (invoice_stage_log order (shopify_settings (work st)) so _)
                eq_refl) as Hlog.
  destruct (invoice_stage _ _ _ _) as [[r|e] st'] eqn:Hi; simpl in Hlog.
  2:{ simpl fst. simpl snd.
      rewrite error_count_logged_error, (error_count_same_log _ _ Hlog).
      simpl. intros Hc. exfalso. lia. }
  simpl fst. simpl snd. intros _.
  apply invoice_stage_ok in Hi as [(_ & _ & Hd)|(n & st1 & -> & Hc & Hk)].
  { exfalso. unfold invoice_due in Hd. simpl in Hd.
    rewrite Hn, Hb, He in Hd. apply Z.eqb_eq in Hs. rewrite Hs in Hd.
    discriminate. }
  apply create_sales_invoice_some in Hc
    as (_ & si0 & pe0 & Hsi & Hid & _ & -> & Hpe & Href & ->).
  destruct Hk as [[Hf _]|(_ & ri0 & Hri & _ & Hret & Hag & ->)].
  { rewrite Hr in Hf. discriminate. }
  set (st0 := set_flags_request_id request_id st) in *.
  exists (set_docstatus 1 (stored si0 st0)),
         (set_docstatus 1 (stored pe0 (posted si0 st0))),
         (set_docstatus 1
            (stored ri0 (committed (posted pe0 (posted si0 st0))))).
  rewrite posted_docs, committed_work, !posted_docs.
  repeat split; assumption.
Qed.

(** ** The synchronisation as a whole *)

Lemma sync_sales_order_run order request_id st :
  sync_sales_order order request_id st =
  match create_shopify_order order request_id
          (set_flags_request_id request_id
             (set_session_user "Administrator" st)) with
  | (Ok (Some so), st1) =>
      match create_shopify_invoice order so request_id st1 with
      | (Ok _, st2) =>
          match create_shopify_delivery order so request_id st2 with
          | (Ok _, st3) => (Ok tt, st3)
          | (Raise e, st3) => (Raise e, st3)
          end
      | (Raise e, st2) => (Raise e, st2)
      end
  | (Ok None, st1) => (Ok tt, st1)
  | (Raise e, st1) => (Raise e, st1)
  end.
Proof.
  unfold sync_sales_order, set_user, set_request_id.
  rewrite run_bind. simpl. rewrite run_bind. simpl. rewrite run_bind.
  destruct (create_shopify_order _ _ _) as [[[so|]|e] st1]; reflexivity.
Qed.

Lemma create_shopify_delivery_unfulfilled order so request_id st :
  o_fulfillments order = [] ->
  create_shopify_delivery order so request_id st
  = (Ok None, set_flags_request_id request_id st).
Proof.
  intros Hf. unfold create_shopify_delivery, get_single_settings,
    set_request_id, bind, gets, modify.
  rewrite Hf. reflexivity.
Qed.

Lemma count_doctype_update dt dt' n f l :
  (forall d, doctype (f d) = doctype d) ->
  count_doctype dt (update_doc dt' n f l) = count_doctype dt l.
Proof.
  intros Hf. unfold count_doctype.
  induction l as [|d l IH]; simpl; [reflexivity|].
  destruct (doctype_eqb (doctype d) dt' && has_name n d); simpl.
  - rewrite Hf. destruct (doctype_eqb (doctype d) dt); reflexivity.
  - destruct (doctype_eqb (doctype d) dt); simpl; congruence.
Qed.

Lemma doctype_submit_row d : doctype (submit_row d) = doctype d.
Proof. unfold submit_row. destruct (docstatus d =? 0); reflexivity. Qed.

(** The order stage and the invoice stage insert no Delivery Note. *)
Lemma no_delivery_note_in_order_stage order request_id k :
  keeps (fun st => count_doctype DeliveryNote (tabDoc (work st)) = k)
        (create_shopify_order order request_id).
Proof.
  apply keeps_create_shopify_order
    with (allowed := fun dt => dt <> DeliveryNote); auto; try discriminate.
  - intros d st H. unfold submitted. simpl.
    rewrite count_doctype_update by apply doctype_submit_row. exact H.
  - intros d st H _ Ha. unfold inserted, count_doctype. simpl.
    destruct (doctype d); try contradiction; exact H.
Qed.

Lemma no_delivery_note_in_invoice_stage order so request_id k :
  keeps (fun st => count_doctype DeliveryNote (tabDoc (work st)) = k)
        (create_shopify_invoice order so request_id).
Proof.
  apply keeps_create_shopify_invoice
    with (allowed := fun dt => dt <> DeliveryNote); auto; try discriminate.
  - intros d st H. unfold submitted. simpl.
    rewrite count_doctype_update by apply doctype_submit_row. exact H.
  - intros d st H _ Ha. unfold inserted, count_doctype. simpl.
    destruct (doctype d); try contradiction; exact H.
Qed.

(** The order stage leaves the settings alone. *)
Lemma settings_kept_in_order_stage order request_id s :
  keeps (fun st => shopify_settings (work st) = s)
        (create_shopify_order order request_id).
Proof.
  apply keeps_create_shopify_order with (allowed := fun _ => True); auto.
Qed.

Lemma find_doc_cons_other dt f d db l :
  tabDoc db = d :: l -> doctype d <> dt ->
  find_doc dt f db = find (fun r => doctype_eqb (doctype r) dt && f r) l.
Proof.
  unfold find_doc. intros -> Hd. simpl.
  destruct (doctype_eqb (doctype d) dt) eqn:He; [|reflexivity].
  apply doctype_eqb_eq in He. contradiction.
Qed.

Lemma find_doc_under_other dt f d db db0 :
  tabDoc db = d :: tabDoc db0 -> doctype d <> dt ->
  find_doc dt f db = find_doc dt f db0.
Proof.
  intros H Hd. rewrite (find_doc_cons_other _ _ _ _ _ H Hd). reflexivity.
Qed.

(** ** At most one document per external id *)

Lemma find_none_filter {A} (f : A -> bool) l :
  find f l = None -> filter f l = [].
Proof.
  induction l as [|x l IH]; simpl; [reflexivity|].
  destruct (f x); [discriminate | exact IH].
Qed.

Lemma filter_none {A} (f g : A -> bool) l :
  filter f l = [] -> (forall x, g x = true -> f x = true) -> filter g l = [].
Proof.
  intros Hf Hg. induction l as [|x l IH]; simpl in *; [reflexivity|].
  destruct (f x) eqn:Hx; [discriminate|].
  destruct (g x) eqn:Hgx; [|auto].
  rewrite (Hg x Hgx) in Hx. discriminate.
Qed.

Lemma filter_update_doc_length f dt n g l :
  (forall d, f (g d) = f d) ->
  List.length (filter f (update_doc dt n g l)) = List.length (filter f l).
Proof.
  intros Hf. induction l as [|d l IH]; simpl; [reflexivity|].
  destruct (doctype_eqb (doctype d) dt && has_name n d); simpl.
  - rewrite Hf. destruct (f d); reflexivity.
  - destruct (f d); simpl; congruence.
Qed.

Lemma open_submit_row id d : is_open_order id (submit_row d) = is_open_order id d.
Proof.
  unfold submit_row. destruct (docstatus d =? 0) eqn:H; [|reflexivity].
  apply Z.eqb_eq in H. unfold is_open_order, open_order. simpl. rewrite H.
  reflexivity.
Qed.

Lemma invoice_submit_row id d :
  is_invoice_of id (submit_row d) = is_invoice_of id d.
Proof. unfold submit_row. destruct (docstatus d =? 0); reflexivity. Qed.

Lemma delivery_submit_row fid d :
  is_delivery_of fid (submit_row d) = is_delivery_of fid d.
Proof. unfold submit_row. destruct (docstatus d =? 0); reflexivity. Qed.

Lemma opt_eqb_Z_eq a b : opt_eqb Z.eqb a b = true -> a = b.
Proof.
  destruct a, b; simpl; try discriminate; [|reflexivity].
  intros H. apply Z.eqb_eq in H. congruence.
Qed.

Lemma opt_eqb_Z_refl a : opt_eqb Z.eqb a a = true.
Proof. destruct a; simpl; [apply Z.eqb_refl | reflexivity]. Qed.

Lemma at_most_one_submitted d db :
  at_most_one db ->
  at_most_one (set_tabDoc
    (update_doc (doctype d) (name d) submit_row (tabDoc db)) db).
Proof.
  intros (Ho & Hi & Hd). unfold at_most_one, count_docs. simpl.
  repeat split; intros k.
  - rewrite filter_update_doc_length by (intros; apply open_submit_row).
    apply Ho.
  - rewrite filter_update_doc_length by (intros; apply invoice_submit_row).
    apply Hi.
  - rewrite filter_update_doc_length by (intros; apply delivery_submit_row).
    apply Hd.
Qed.

Lemma at_most_one_inserted d d' db :
  at_most_one db -> insertable d db ->
  doctype d' = doctype d -> shopify_order_id d' = shopify_order_id d ->
  shopify_fulfillment_id d' = shopify_fulfillment_id d ->
  at_most_one (set_tabDoc (d' :: tabDoc db) db).
Proof.
  intros (Ho & Hi & Hd) Hins Hdt Hid Hfid.
  unfold at_most_one, count_docs, insertable in *. simpl.
  repeat split; intros k.
  - destruct (is_open_order k d') eqn:Hk; [|apply Ho].
    unfold is_open_order, open_order, by_order_id in Hk.
    apply andb_true_iff in Hk as [Hk1 Hk2].
    apply andb_true_iff in Hk2 as [_ Hk2].
    apply doctype_eqb_eq in Hk1. apply opt_eqb_Z_eq in Hk2.
    rewrite <- Hdt, Hk1, <- Hid, Hk2 in Hins.
    apply find_none_filter in Hins. simpl.
    unfold is_open_order. rewrite Hins. simpl. lia.
  - destruct (is_invoice_of k d') eqn:Hk; [|apply Hi].
    unfold is_invoice_of, by_order_id in Hk.
    apply andb_true_iff in Hk as [Hk1 Hk2].
    apply doctype_eqb_eq in Hk1. apply opt_eqb_Z_eq in Hk2.
    rewrite <- Hdt, Hk1, <- Hid, Hk2 in Hins.
    apply find_none_filter in Hins. simpl.
    unfold is_invoice_of. rewrite Hins. simpl. lia.
  - destruct (is_delivery_of k d') eqn:Hk; [|apply Hd].
    unfold is_delivery_of in Hk.
    apply andb_true_iff in Hk as [Hk1 Hk2].
    apply doctype_eqb_eq in Hk1. apply opt_eqb_Z_eq in Hk2.
    rewrite <- Hdt, Hk1 in Hins. apply find_none_filter in Hins.
    simpl. rewrite (filter_none _ (is_delivery_of k) _ Hins); [simpl; lia|].
    intros r Hr. unfold is_delivery_of in Hr.
    apply andb_true_iff in Hr as [Hr1 Hr2]. rewrite Hr1. simpl.
    unfold same_fulfillment. rewrite <- Hfid, Hk2. exact Hr2.
Qed.

Lemma unique_documents_flags r st :
  unique_documents st -> unique_documents (set_flags_request_id r st).
Proof. intros H. exact H. Qed.

Lemma unique_documents_user u st :
  unique_documents st -> unique_documents (set_session_user u st).
Proof. intros H. exact H. Qed.

Lemma unique_documents_commit st :
  unique_documents st -> unique_documents (set_durable (work st) st).
Proof. intros [H _]. split; exact H. Qed.

Lemma unique_documents_log l st :
  unique_documents st ->
  unique_documents (set_work (set_tabShopifyLog l (work st)) st).
Proof. intros H. exact H. Qed.

Lemma unique_documents_customer l st :
  unique_documents st ->
  unique_documents (set_work (set_tabCustomer l (work st)) st).
Proof. intros H. exact H. Qed.

Lemma unique_documents_item l st :
  unique_documents st ->
  unique_documents (set_work (set_tabItem l (work st)) st).
Proof. intros H. exact H. Qed.

Lemma unique_documents_submit d st :
  unique_documents st -> unique_documents (submitted d st).
Proof.
  intros [Hw Hd]. split; [|exact Hd]. apply at_most_one_submitted. exact Hw.
Qed.

Lemma unique_documents_insert d st :
  unique_documents st -> insertable d (work st) -> True ->
  unique_documents (inserted d st).
Proof.
  intros [Hw Hd] Hi _. split; [|exact Hd].
  apply (at_most_one_inserted d); auto.
Qed.

(** A synchronisation keeps the invariant of the data model. *)
Lemma sync_sales_order_unique order request_id :
  keeps unique_documents (sync_sales_order order request_id).
Proof.
  apply keeps_sync_sales_order with (allowed := fun _ => True);
    auto using unique_documents_flags, unique_documents_user,
      unique_documents_commit, unique_documents_log,
      unique_documents_customer, unique_documents_item,
      unique_documents_submit, unique_documents_insert.
Qed.

(** ** A settled order is left alone *)

Lemma create_shopify_invoice_quiet order so request_id st :
  (status_in (o_financial_status order) ["paid"; "refunded"] = true ->
   invoice_due order (shopify_settings (work st)) so (work st) = false) ->
  create_shopify_invoice order so request_id st
  = (Ok None, set_flags_request_id request_id st).
Proof.
  intros Hd.
  destruct (status_in (o_financial_status order) ["paid"; "refunded"]) eqn:Hp.
  - rewrite (create_shopify_invoice_run _ _ _ _ Hp).
    unfold invoice_stage. rewrite run_bind, create_sales_invoice_guard.
    change (work (set_flags_request_id request_id st)) with (work st).
    rewrite (Hd eq_refl). reflexivity.
  - unfold create_shopify_invoice, get_single_settings, set_request_id,
      bind, gets, modify.
    rewrite Hp. reflexivity.
Qed.

Lemma delivery_note_for_guard order settings so f st :
  delivery_note_for order settings so f st =
  if delivered so (work st) f then (Ok [], st)
  else
    (dn <- make_delivery_note (name so) ;;
     date <- getdate (fl_created_at f) ;;
     dn_items <- gets (fun st =>
       get_fulfillment_items (work st) (items dn) (fl_line_items f)) ;;
     let dn := set_shopify_order_id (fl_order_id f) dn in
     let dn := set_shopify_order_number (o_name order) dn in
     let dn := set_set_posting_time 1 dn in
     let dn := set_posting_date date dn in
     let dn := set_shopify_fulfillment_id (fl_id f) dn in
     let dn := set_naming_series
                 (Some (or_default (ss_delivery_note_series settings)
                          "DN-Shopify-")) dn in
     let dn := set_items dn_items dn in
     let dn := set_ignore_mandatory true dn in
     dn <- doc_insert dn ;;
     dn <- doc_submit dn ;;
     db_commit ;;
     ret [name dn]) st.
Proof.
  unfold delivery_note_for, delivered, db_get_value.
  rewrite run_bind. simpl.
  destruct (is_some _); destruct (docstatus so =? 1); reflexivity.
Qed.

Lemma delivery_loop_quiet order settings so l st :
  forallb (delivered so (work st)) l = true ->
  for_collect l (delivery_note_for order settings so) st = (Ok [], st).
Proof.
  induction l as [|f l IH]; simpl; [reflexivity|].
  intros H. apply andb_true_iff in H as [Hf Hl].
  rewrite run_bind, delivery_note_for_guard, Hf, run_bind, (IH Hl).
  reflexivity.
Qed.

Lemma create_delivery_note_quiet order settings so st :
  (truthy_Z (cint (ss_sync_delivery_note settings)) = true ->
   forallb (delivered so (work st)) (o_fulfillments order) = true) ->
  exists r, create_delivery_note order settings so st = (Ok r, st).
Proof.
  intros Hd. unfold create_delivery_note.
  destruct (truthy_Z (cint (ss_sync_delivery_note settings))); simpl;
    [|unfold ret; eauto].
  rewrite run_bind, (delivery_loop_quiet _ _ _ _ _ (Hd eq_refl)).
  unfold ret. eauto.
Qed.

Lemma create_shopify_delivery_quiet order so request_id st :
  (truthy_Z (cint (ss_sync_delivery_note (shopify_settings (work st))))
     = true ->
   forallb (delivered so (work st)) (o_fulfillments order) = true) ->
  exists r, create_shopify_delivery order so request_id st
            = (Ok r, set_flags_request_id request_id st).
Proof.
  intros Hd.
  destruct (create_delivery_note_quiet order (shopify_settings (work st)) so
              (set_flags_request_id request_id st) Hd) as [r Hr].
  unfold create_shopify_delivery, get_single_settings,
    set_request_id, bind, gets, modify, try_except.
  destruct (o_fulfillments order) as [|f l]; [unfold ret; eauto|].
  rewrite Hr. unfold ret. eauto.
Qed.

(** Synchronising a settled order changes nothing but the session. *)
Lemma settled_sync_sales_order order request_id st :
  settled order (work st) ->
  sync_sales_order order request_id st
  = (Ok tt, set_flags_request_id request_id
              (set_session_user "Administrator" st)).
Proof.
  intros (d & so & Hf & Hso & Hi & Hd). rewrite sync_sales_order_run.
  set (st0 := set_flags_request_id request_id
                (set_session_user "Administrator" st)).
  destruct (create_shopify_order_existing order request_id st0 d Hf)
    as (so' & H1 & Hso').
  change (work st0) with (work st) in Hso'.
  rewrite Hso in Hso'. injection Hso' as <-.
  rewrite H1.
  rewrite (create_shopify_invoice_quiet order so request_id
             (set_flags_request_id request_id st0) Hi).
  destruct (create_shopify_delivery_quiet order so request_id
              (set_flags_request_id request_id
                 (set_flags_request_id request_id st0)) Hd) as [r Hr].
  rewrite Hr. reflexivity.
Qed.

(** ** A run without errors settles the order *)

Lemma find_doc_under_prefix dt f db db' new :
  tabDoc db' = (new ++ tabDoc db)%list ->
  Forall (fun d => doctype d <> dt) new ->
  find_doc dt f db' = find_doc dt f db.
Proof.
  unfold find_doc. intros -> Hnew.
  induction Hnew as [|d new Hd _ IH]; simpl; [reflexivity|].
  destruct (doctype_eqb (doctype d) dt) eqn:He; [|exact IH].
  apply doctype_eqb_eq in He. contradiction.
Qed.

Lemma find_doc_head dt f d db db0 :
  tabDoc db = d :: tabDoc db0 -> doctype d = dt -> f d = true ->
  find_doc dt f db = Some d.
Proof.
  unfold find_doc. intros -> Hd Hf. simpl.
  rewrite Hd, doctype_eqb_refl, Hf. reflexivity.
Qed.

(** The order stage: it logs an Error, or it returns an order that the
    store holds, open, under the external id. *)
Lemma create_shopify_order_summary order request_id st r st' :
  create_shopify_order order request_id st = (r, st') ->
  error_count (work st') = S (error_count (work st)) \/
  error_count (work st') = error_count (work st) /\
  exists d so,
    r = Ok (Some so) /\
    find_doc SalesOrder (open_order (o_id order)) (work st') = Some d /\
    find_doc SalesOrder (has_name (name d)) (work st') = Some so.
Proof.
  intros H.
  destruct (find_doc SalesOrder (open_order (o_id order)) (work st))
    as [d|] eqn:Hf.
  - destruct (create_shopify_order_existing order request_id st d Hf)
      as (so & H1 & Hso).
    rewrite H1 in H. injection H as <- <-. right. split; [reflexivity|].
    exists d, so. auto.
  - rewrite (create_shopify_order_new _ _ _ Hf) in H.
    pose proof (keeps_run _ _ (set_flags_request_id request_id st)
                  (order_stage_log order (shopify_settings (work st)) _)
                  eq_refl) as Hlog.
    destruct (order_stage _ _ _) as [[so|e] stv] eqn:Hs; simpl in Hlog.
    + right. injection H as <- <-.
      assert (Hc : create_shopify_order order request_id st
                   = (Ok (Some so), logged "Success" order None stv)).
      { rewrite (create_shopify_order_new _ _ _ Hf), Hs. reflexivity. }
      destruct (create_shopify_order_created _ _ _ _ _ Hf Hc)
        as (Hd & _ & _ & taxes & stw & Hso).
      split.
      { rewrite error_count_logged_success.
        apply error_count_same_log. exact Hlog. }
      exists so, so. split; [reflexivity|].
      split; apply (find_doc_head _ _ _ _ _ Hd); rewrite Hso; try reflexivity.
      * unfold open_order, by_order_id. simpl. apply Z.eqb_refl.
      * apply docname_eqb_refl.
    + left. injection H as <- <-. rewrite error_count_logged_error.
      f_equal. apply error_count_same_log. exact Hlog.
Qed.

(** The invoice stage: it logs an Error, or it adds invoices and payments
    only and leaves no invoice due. *)
Lemma create_shopify_invoice_summary order so request_id st r st' :
  create_shopify_invoice order so request_id st = (r, st') ->
  error_count (work st') = S (error_count (work st)) \/
  error_count (work st') = error_count (work st) /\
  exists new,
    tabDoc (work st') = (new ++ tabDoc (work st))%list /\
    Forall (fun d => doctype d = SalesInvoice \/ doctype d = PaymentEntry)
           new /\
    (status_in (o_financial_status order) ["paid"; "refunded"] = true ->
     invoice_due order (shopify_settings (work st)) so (work st') = false).
Proof.
  intros H.
  destruct (status_in (o_financial_status order) ["paid"; "refunded"]) eqn:Hp.
  2:{ rewrite create_shopify_invoice_quiet in H
        by (rewrite Hp; discriminate).
      injection H as <- <-. right. split; [reflexivity|].
      exists []. repeat split; [constructor | discriminate]. }
  rewrite (create_shopify_invoice_run _ _ _ _ Hp) in H.
  pose proof (keeps_run _ _ (set_flags_request_id request_id st)
                (invoice_stage_log order (shopify_settings (work st)) so _)
                eq_refl) as Hlog.
  destruct (invoice_stage _ _ _ _) as [[si|e] st2] eqn:Hi; simpl in Hlog.
  2:{ left. injection H as <- <-. rewrite error_count_logged_error.
      f_equal. apply error_count_same_log. exact Hlog. }
  injection H as <- <-. right.
  split; [apply error_count_same_log; exact Hlog|].
  apply invoice_stage_ok in Hi as [(_ & -> & Hd)|(n & st1 & _ & Hc & Hk)].
  { exists []. repeat split; [constructor | intros _; exact Hd]. }
  apply create_sales_invoice_some in Hc
    as (_ & si0 & pe0 & Hsi & Hid & _ & _ & Hpe & _ & ->).
  set (sta := set_flags_request_id request_id st) in *.
  assert (Hdue : forall db,
            In (set_docstatus 1 (stored si0 sta)) (tabDoc db) ->
            invoice_due order (shopify_settings (work st)) so db = false).
  { intros db Hin.
    destruct (find_doc_exists SalesInvoice (by_order_id (o_id order)) db
                (set_docstatus 1 (stored si0 sta)) Hin Hsi) as [d' Hd'].
    - unfold by_order_id. simpl. rewrite Hid. simpl. apply Z.eqb_refl.
    - unfold invoice_due. rewrite Hd'. reflexivity. }
  destruct Hk as [[_ ->]|(_ & ri0 & Hri & _ & _ & _ & ->)].
  - exists [set_docstatus 1 (stored pe0 (posted si0 sta));
            set_docstatus 1 (stored si0 sta)].
    rewrite committed_work, !posted_docs.
    split; [reflexivity|]. split.
    + constructor; [simpl; right; exact Hpe|].
      constructor; [simpl; left; exact Hsi | constructor].
    + intros _. apply Hdue.
      rewrite ?committed_work, !posted_docs. simpl. auto.
  - exists [set_docstatus 1
              (stored ri0 (committed (posted pe0 (posted si0 sta))));
            set_docstatus 1 (stored pe0 (posted si0 sta));
            set_docstatus 1 (stored si0 sta)].
    rewrite posted_docs, committed_work, !posted_docs.
    split; [reflexivity|]. split.
    + constructor; [simpl; left; exact Hri|].
      constructor; [simpl; right; exact Hpe|].
      constructor; [simpl; left; exact Hsi | constructor].
    + intros _. apply Hdue.
      rewrite ?posted_docs, ?committed_work, ?posted_docs. simpl. auto.
Qed.

Lemma delivery_note_for_ok order settings so f st r st' :
  delivery_note_for order settings so f st = (Ok r, st') ->
  delivered so (work st) f = true /\ st' = st
  \/
  exists dn0,
    doctype dn0 = DeliveryNote /\ shopify_fulfillment_id dn0 = fl_id f /\
    st' = committed (posted dn0 st).
Proof.
  rewrite delivery_note_for_guard.
  destruct (delivered so (work st) f).
  - intros H. injection H as _ <-. auto.
  - intros H. right.
    bind_ok H dn s1 E1. apply make_delivery_note_ok in E1 as (-> & so' & _ & ->).
    bind_ok H date s2 E2.
    apply readonly_run in E2 as Hs; [subst s2 | apply readonly_getdate].
    bind_ok H its s3 E3. unfold gets in E3. injection E3 as <- <-.
    cbv zeta in H.
    bind_ok H dn1 s4 E4.
    match type of E4 with doc_insert ?d _ = _ => set (dn0 := d) in * end.
    apply doc_insert_ok in E4 as (-> & -> & _).
    bind_ok H dn2 s5 E5. apply doc_submit_ok in E5 as (-> & -> & _).
    unfold bind, db_commit, modify, ret in H. injection H as _ <-.
    exists dn0. split; [reflexivity|]. split; [reflexivity|].
    unfold committed, posted. reflexivity.
Qed.

Lemma delivered_found so db f d :
  In d (tabDoc db) -> doctype d = DeliveryNote ->
  shopify_fulfillment_id d = fl_id f -> delivered so db f = true.
Proof.
  intros Hin Hdt Hid.
  destruct (find_doc_exists DeliveryNote (by_fulfillment_id f) db d Hin Hdt)
    as [d' Hd'].
  - unfold by_fulfillment_id. rewrite Hid. apply opt_eqb_Z_refl.
  - unfold delivered. rewrite Hd'. reflexivity.
Qed.

Lemma delivered_mono so db db' f new :
  tabDoc db' = (new ++ tabDoc db)%list ->
  delivered so db f = true -> delivered so db' f = true.
Proof.
  intros Ht. unfold delivered at 1. intros H.
  apply orb_true_iff in H as [H|H].
  - destruct (find_doc DeliveryNote (by_fulfillment_id f) db) as [d|] eqn:Hf;
      [|discriminate].
    apply find_doc_some in Hf as (Hin & Hdt & Hby).
    apply opt_eqb_Z_eq in Hby.
    apply (delivered_found so db' f d); auto.
    rewrite Ht. apply in_or_app. auto.
  - unfold delivered. rewrite H. apply orb_true_r.
Qed.

Lemma delivery_loop_ok order settings so l st r st' :
  for_collect l (delivery_note_for order settings so) st = (Ok r, st') ->
  exists dns,
    tabDoc (work st') = (dns ++ tabDoc (work st))%list /\
    Forall (fun d => doctype d = DeliveryNote) dns /\
    forallb (delivered so (work st')) l = true.
Proof.
  revert st r st'. induction l as [|f l IH]; intros st r st' H; simpl in H.
  - injection H as _ <-. exists []. repeat split. constructor.
  - bind_ok H ys s1 E1. bind_ok H zs s2 E2. injection H as _ <-.
    destruct (IH _ _ _ E2) as (dns & Hd & Hall & Hl).
    apply delivery_note_for_ok in E1 as [[Hdel ->]|(dn0 & Hdt & Hid & ->)].
    + exists dns. split; [exact Hd|]. split; [exact Hall|].
      simpl. rewrite Hl, (delivered_mono _ _ _ _ _ Hd Hdel). reflexivity.
    + rewrite committed_work, posted_docs in Hd.
      exists (dns ++ [set_docstatus 1 (stored dn0 st)])%list.
      split; [rewrite Hd, <- app_assoc; reflexivity|]. split.
      * apply Forall_app. split; [exact Hall|].
        constructor; [exact Hdt | constructor].
      * simpl. rewrite Hl, andb_true_r.
        apply (delivered_found _ _ _ (set_docstatus 1 (stored dn0 st)));
          [|exact Hdt | exact Hid].
        rewrite Hd. apply in_or_app. right. left. reflexivity.
Qed.

Lemma create_shopify_delivery_run order so request_id st :
  create_shopify_delivery order so request_id st =
  match o_fulfillments order with
  | [] => (Ok None, set_flags_request_id request_id st)
  | _ :: _ =>
      match create_delivery_note order (shopify_settings (work st)) so
              (set_flags_request_id request_id st) with
      | (Ok r, st') => (Ok r, st')
      | (Raise e, st') => (Ok None, logged "Error" order (Some e) st')
      end
  end.
Proof.
  unfold create_shopify_delivery, get_single_settings, set_request_id,
    bind, gets, modify, try_except.
  destruct (o_fulfillments order); [reflexivity|].
  destruct (create_delivery_note _ _ _ _) as [[r|e] st']; reflexivity.
Qed.

(** The delivery stage: it logs an Error, or it adds Delivery Notes only
    and leaves no fulfillment in need of one. *)
Lemma create_shopify_delivery_summary order so request_id st r st' :
  create_shopify_delivery order so request_id st = (r, st') ->
  error_count (work st') = S (error_count (work st)) \/
  error_count (work st') = error_count (work st) /\
  exists dns,
    tabDoc (work st') = (dns ++ tabDoc (work st))%list /\
    Forall (fun d => doctype d = DeliveryNote) dns /\
    (truthy_Z (cint (ss_sync_delivery_note (shopify_settings (work st))))
       = true ->
     forallb (delivered so (work st')) (o_fulfillments order) = true).
Proof.
  rewrite create_shopify_delivery_run. intros H.
  destruct (o_fulfillments order) as [|f0 l0] eqn:Hf.
  { injection H as _ <-. right. split; [reflexivity|].
    exists []. repeat split. constructor. }
  pose proof (keeps_run _ _ (set_flags_request_id request_id st)
                (create_delivery_note_log order (shopify_settings (work st))
                   so _) eq_refl) as Hlog.
  destruct (create_delivery_note _ _ _ _) as [[dns|e] st2] eqn:Hc;
    simpl in Hlog.
  2:{ left. injection H as _ <-. rewrite error_count_logged_error.
      f_equal. apply error_count_same_log. exact Hlog. }
  injection H as _ <-. right.
  split; [apply error_count_same_log; exact Hlog|].
  unfold create_delivery_note in Hc.
  destruct (truthy_Z (cint (ss_sync_delivery_note
                              (shopify_settings (work st))))); simpl in Hc.
  - bind_ok Hc ns s1 E1. injection Hc as _ <-.
    apply delivery_loop_ok in E1 as (new & Hd & Hall & Hl).
    rewrite Hf in Hl. exists new. auto.
  - injection Hc as _ <-. exists []. repeat split; [constructor|].
    discriminate.
Qed.

Lemma settings_kept_in_invoice_stage order so request_id s :
  keeps (fun st => shopify_settings (work st) = s)
        (create_shopify_invoice order so request_id).
Proof.
  apply keeps_create_shopify_invoice with (allowed := fun _ => True); auto.
Qed.

Lemma settings_kept_in_delivery_stage order so request_id s :
  keeps (fun st => shopify_settings (work st) = s)
        (create_shopify_delivery order so request_id).
Proof.
  apply keeps_create_shopify_delivery with (allowed := fun _ => True); auto.
Qed.

Lemma invoice_due_same_invoices order settings so db db' :
  find_doc SalesInvoice (by_order_id (o_id order)) db'
  = find_doc SalesInvoice (by_order_id (o_id order)) db ->
  invoice_due order settings so db' = invoice_due order settings so db.
Proof. unfold invoice_due. intros ->. reflexivity. Qed.

(** A run that logs no Error leaves the order settled. *)
Lemma sync_sales_order_settles order request_id st :
  error_count (work (snd (sync_sales_order order request_id st)))
  = error_count (work st) ->
  settled order (work (snd (sync_sales_order order request_id st))).
Proof.
  rewrite sync_sales_order_run.
  set (st0 := set_flags_request_id request_id
                (set_session_user "Administrator" st)).
  pose proof (keeps_run _ _ st0
                (settings_kept_in_order_stage order request_id _) eq_refl)
    as Hs1.
  destruct (create_shopify_order order request_id st0)
    as [r1 st1] eqn:H1. simpl in Hs1.
  apply create_shopify_order_summary in H1 as S1.
  change (error_count (work st0)) with (error_count (work st)) in S1.
  destruct r1 as [[so|]|e].
  - pose proof (keeps_run _ _ st1
                  (settings_kept_in_invoice_stage order so request_id _)
                  eq_refl) as Hs2.
    destruct (create_shopify_invoice order so request_id st1)
      as [r2 st2] eqn:H2. simpl in Hs2.
    apply create_shopify_invoice_summary in H2 as S2.
    pose proof (keeps_run _ _ st2
                  (settings_kept_in_delivery_stage order so request_id _)
                  eq_refl) as Hs3.
    destruct (create_shopify_delivery order so request_id st2)
      as [r3 st3] eqn:H3. simpl in Hs3.
    apply create_shopify_delivery_summary in H3 as S3.
    assert (Hst : snd (match r2 with
                       | Ok _ => match r3 with
                                 | Ok _ => (Ok tt, st3)
                                 | Raise e => (Raise e, st3)
                                 end
                       | Raise e => (Raise e, st2)
                       end) = st3 \/ exists e, r2 = Raise e).
    { destruct r2; [destruct r3; auto | eauto]. }
    destruct Hst as [Hst|[e He]].
    2:{ exfalso. subst r2.
        destruct (total_create_shopify_invoice order so request_id st1)
          as (a & s & Ht). congruence. }
    rewrite Hst. intros Hcount.
    destruct S1 as [S1|(C1 & d & so' & Hr & Hfo & Hfn)]; [lia|].
    destruct S2 as [S2|(C2 & new2 & Hd2 & Hall2 & Hdue)]; [lia|].
    destruct S3 as [S3|(C3 & new3 & Hd3 & Hall3 & Hdel)]; [lia|].
    injection Hr as <-.
    assert (Hnot2 : forall dt, dt = SalesOrder \/ dt = DeliveryNote ->
              Forall (fun d => doctype d <> dt) new2).
    { intros dt Hdt. eapply Forall_impl; [|exact Hall2].
      intros x [Hx|Hx] Hc; rewrite Hx in Hc; destruct Hdt; congruence. }
    assert (Hnot3 : forall dt, dt = SalesOrder \/ dt = SalesInvoice ->
              Forall (fun d => doctype d <> dt) new3).
    { intros dt Hdt. eapply Forall_impl; [|exact Hall3].
      intros x Hx Hc; rewrite Hx in Hc; destruct Hdt; congruence. }
    exists d, so. split; [|split; [|split]].
    + rewrite (find_doc_under_prefix _ _ _ _ _ Hd3 (Hnot3 _ (or_introl eq_refl))),
        (find_doc_under_prefix _ _ _ _ _ Hd2 (Hnot2 _ (or_introl eq_refl))).
      exact Hfo.
    + rewrite (find_doc_under_prefix _ _ _ _ _ Hd3 (Hnot3 _ (or_introl eq_refl))),
        (find_doc_under_prefix _ _ _ _ _ Hd2 (Hnot2 _ (or_introl eq_refl))).
      exact Hfn.
    + intros Hp. rewrite Hs3, Hs2.
      rewrite (invoice_due_same_invoices order _ so (work st2) (work st3))
        by apply (find_doc_under_prefix _ _ _ _ _ Hd3
                    (Hnot3 _ (or_intror eq_refl))).
      apply Hdue. exact Hp.
    + intros He. apply Hdel. rewrite <- Hs3. exact He.
  - simpl. intros Hcount.
    destruct S1 as [S1|(_ & d & so' & Hr & _)]; [lia | discriminate].
  - destruct (total_create_shopify_order order request_id st0)
      as (a & s & Ht). congruence.
Qed.

(** ** Paid and refunded orders *)

(** C3 (as amended).  For a refunded order whose Sales Order stands
    submitted and not billed, when no Sales Invoice carries the order id
    yet, the synchronisation of invoices is switched on, and the run logs
    no Error: [sync_sales_order] creates and submits a Sales Invoice keyed
    by the order id, then its Payment Entry, then a return invoice that
    references the Sales Invoice; whatever else it creates is a Delivery
    Note. *)
Theorem refunded_order_invoice_and_return order request_id st d so :
  o_financial_status order = Some "refunded" ->
  find_doc SalesOrder (open_order (o_id order)) (work st) = Some d ->
  find_doc SalesOrder (has_name (name d)) (work st) = Some so ->
  docstatus so = 1 ->
  truthy_Q (per_billed so) = false ->
  find_doc SalesInvoice (by_order_id (o_id order)) (work st) = None ->
  truthy_Z (cint (ss_sync_sales_invoice (shopify_settings (work st)))) = true ->
  error_count (work (snd (sync_sales_order order request_id st)))
  = error_count (work st) ->
  exists si pe ri dns,
    tabDoc (work (snd (sync_sales_order order request_id st)))
      = (dns ++ ri :: pe :: si :: tabDoc (work st))%list /\
    Forall (fun dn => doctype dn = DeliveryNote) dns /\
    doctype si = SalesInvoice /\
    shopify_order_id si = Some (o_id order) /\
    docstatus si = 1 /\
    doctype pe = PaymentEntry /\
    reference_no pe = Some (name si) /\
    doctype ri = SalesInvoice /\
    is_return ri = 1 /\
    return_against ri = Some (name si) /\
    docstatus ri = 1.
Proof.
  intros Hr Hf Hso Hs Hb Hn He. rewrite sync_sales_order_run.
  set (st0 := set_flags_request_id request_id
                (set_session_user "Administrator" st)).
  destruct (create_shopify_order_existing order request_id st0 d Hf)
    as (so' & H1 & Hso').
  change (work st0) with (work st) in Hso'.
  rewrite Hso in Hso'. injection Hso' as <-. rewrite H1.
  set (st1 := set_flags_request_id request_id st0).
  pose proof (create_shopify_invoice_refunded order so request_id st1
                Hr Hs Hb Hn He) as Hstage.
  destruct (create_shopify_invoice order so request_id st1)
    as [r2 st2] eqn:H2.
  apply create_shopify_invoice_summary in H2 as S2.
  destruct (create_shopify_delivery order so request_id st2)
    as [r3 st3] eqn:H3.
  apply create_shopify_delivery_summary in H3 as S3.
  destruct (total_create_shopify_invoice order so request_id st1)
    as (a2 & s2 & Ht2).
  destruct (total_create_shopify_delivery order so request_id st2)
    as (a3 & s3 & Ht3).
  assert (r2 = Ok a2) by congruence. assert (r3 = Ok a3) by congruence.
  subst r2 r3. simpl snd in *. intros Hc.
  change (error_count (work st1)) with (error_count (work st)) in *.
  destruct S2 as [S2|(C2 & _)];
    [destruct S3 as [S3|(C3 & _)]; lia|].
  destruct S3 as [S3|(C3 & dns & Hd3 & Hall3 & _)]; [lia|].
  destruct (Hstage C2) as (si & pe & ri & _ & Hd2 & Hrest).
  exists si, pe, ri, dns. rewrite Hd3, Hd2.
  split; [reflexivity|]. split; [exact Hall3 | exact Hrest].
Qed.

Lemma refunded_order_invoice_and_return_witness :
  exists si pe ri,
    tabDoc (work (snd (sync_sales_order (demo_order "refunded" []) None
                         demo_ordered)))
      = ri :: pe :: si :: tabDoc (work demo_ordered) /\
    return_against ri = Some (name si) /\ docstatus ri = 1.
Proof.
  destruct (refunded_order_invoice_and_return (demo_order "refunded" [])
              None demo_ordered demo_sales_order demo_sales_order)
    as (si & pe & ri & dns & Hd & Hall & _ & _ & _ & _ & _ & _ & _ & Hr & Hs);
    try (vm_compute; reflexivity).
  assert (Hl : dns = []).
  { apply (f_equal (@List.length Doc)) in Hd.
    assert (H1 : List.length (tabDoc (work (snd (sync_sales_order
                   (demo_order "refunded" []) None demo_ordered)))) = 4%nat)
      by (vm_compute; reflexivity).
    assert (H2 : List.length (tabDoc (work demo_ordered)) = 1%nat)
      by (vm_compute; reflexivity).
    rewrite H1, length_app in Hd. cbn [Datatypes.length] in Hd.
    rewrite H2 in Hd.
    destruct dns; [reflexivity | cbn [Datatypes.length] in Hd; lia]. }
  subst dns. exists si, pe, ri. split; [exact Hd | split; assumption].
Defined.

(** C3, the counterexample.  With the synchronisation of invoices switched
    off in the settings, a refunded order whose Sales Order stands
    submitted is synchronised without any invoice being created. *)
Lemma refunded_order_without_invoice :
  o_financial_status (demo_order "refunded" []) = Some "refunded" /\
  (exists so,
     find_doc SalesOrder (open_order (o_id (demo_order "refunded" [])))
       (work demo_ordered_no_invoice) = Some so /\ docstatus so = 1) /\
  ~ invoice_and_return_created demo_ordered_no_invoice
      (snd (sync_sales_order (demo_order "refunded" []) None
              demo_ordered_no_invoice)).
Proof.
  split; [reflexivity|]. split.
  - eexists. split; [vm_compute; reflexivity | reflexivity].
  - intros (si & ri & new & Hnew & Hin & Hdt & _).
    assert (Hl : new = []).
    { apply (f_equal (@List.length Doc)) in Hnew.
      rewrite length_app in Hnew.
      assert (H1 : List.length (tabDoc (work (snd (sync_sales_order
                     (demo_order "refunded" []) None
                     demo_ordered_no_invoice)))) = 1%nat)
        by (vm_compute; reflexivity).
      assert (H2 : List.length (tabDoc (work demo_ordered_no_invoice))
                   = 1%nat) by (vm_compute; reflexivity).
      rewrite H1, H2 in Hnew.
      destruct new; [reflexivity | simpl in Hnew; lia]. }
    subst new. contradiction.
Qed.

(** C4 (as amended).  For a paid order without fulfillments,
    [sync_sales_order] creates no Delivery Note; and when no open Sales
    Order and no Sales Invoice carry the order id, the synchronisation of
    invoices is switched on, and the run logs no Error, it creates exactly
    a Sales Order, a Sales Invoice and a Payment Entry, all submitted. *)
Theorem paid_unfulfilled_order order request_id st :
  o_financial_status order = Some "paid" ->
  o_fulfillments order = [] ->
  count_doctype DeliveryNote
    (tabDoc (work (snd (sync_sales_order order request_id st))))
  = count_doctype DeliveryNote (tabDoc (work st)) /\
  (find_doc SalesOrder (open_order (o_id order)) (work st) = None ->
   find_doc SalesInvoice (by_order_id (o_id order)) (work st) = None ->
   truthy_Z (cint (ss_sync_sales_invoice (shopify_settings (work st))))
     = true ->
   error_count (work (snd (sync_sales_order order request_id st)))
   = error_count (work st) ->
   exists so si pe,
     tabDoc (work (snd (sync_sales_order order request_id st)))
       = pe :: si :: so :: tabDoc (work st) /\
     doctype so = SalesOrder /\ shopify_order_id so = Some (o_id order) /\
     docstatus so = 1 /\
     doctype si = SalesInvoice /\ shopify_order_id si = Some (o_id order) /\
     docstatus si = 1 /\
     doctype pe = PaymentEntry /\ reference_no pe = Some (name si) /\
     docstatus pe = 1).
Proof.
  intros Hp Hf. rewrite sync_sales_order_run.
  set (st0 := set_flags_request_id request_id
                (set_session_user "Administrator" st)).
  assert (Hpaid : status_in (o_financial_status order) ["paid"; "refunded"]
                  = true) by (rewrite Hp; reflexivity).
  split.
  - pose proof (keeps_run _ _ st0
                  (no_delivery_note_in_order_stage order request_id _)
                  eq_refl) as H1.
    destruct (create_shopify_order order request_id st0)
      as [[[so|]|e] st1]; simpl in H1; try exact H1.
    pose proof (keeps_run _ _ st1
                  (no_delivery_note_in_invoice_stage order so request_id _)
                  eq_refl) as H2.
    destruct (create_shopify_invoice order so request_id st1)
      as [[si|e] st2]; simpl in H2; [|simpl; congruence].
    rewrite (create_shopify_delivery_unfulfilled _ _ _ _ Hf). simpl.
    congruence.
  - intros Hn Hni Hen.
    pose proof (keeps_run _ _ st0
                  (settings_kept_in_order_stage order request_id _)
                  eq_refl) as Hset.
    destruct (create_shopify_order order request_id st0)
      as [[[so|]|e] st1] eqn:H1; simpl in Hset.
    + destruct (create_shopify_order_created order request_id st0 so st1
                  Hn H1) as (Hd1 & Hl1 & _ & taxes & stv & Hso).
      rewrite (create_shopify_invoice_run _ _ _ _ Hpaid).
      pose proof (keeps_run _ _ (set_flags_request_id request_id st1)
                    (invoice_stage_log order (shopify_settings (work st1))
                       so _) eq_refl) as Hlog.
      destruct (invoice_stage _ _ _ _) as [[r|e] st2] eqn:Hi; simpl in Hlog.
      2:{ rewrite (create_shopify_delivery_unfulfilled _ _ _ _ Hf).
          simpl snd. intros Hc. exfalso.
          change (work (set_flags_request_id request_id
                    (logged "Error" order (Some e) st2)))
            with (work (logged "Error" order (Some e) st2)) in Hc.
          rewrite error_count_logged_error,
            (error_count_same_log _ _ Hlog) in Hc.
          change (work (set_flags_request_id request_id st1))
            with (work st1) in Hc.
          unfold error_count in Hc. rewrite Hl1 in Hc. simpl in Hc. lia. }
      rewrite (create_shopify_delivery_unfulfilled _ _ _ _ Hf).
      simpl snd. intros _.
      change (tabDoc (work (set_flags_request_id request_id st2)))
        with (tabDoc (work st2)).
      apply invoice_stage_ok in Hi
        as [(_ & _ & Hd)|(n & st3 & -> & Hc & Hk)].
      { exfalso. unfold invoice_due in Hd.
        change (work (set_flags_request_id request_id st1))
          with (work st1) in Hd.
        rewrite (find_doc_under_other SalesInvoice _ so (work st1) (work st0))
          in Hd by (first [exact Hd1 | rewrite Hso; simpl; discriminate]).
        change (work st0) with (work st) in Hd.
        rewrite Hni, Hset in Hd.
        change (shopify_settings (work st0))
          with (shopify_settings (work st)) in Hd.
        rewrite Hen, Hso in Hd. discriminate. }
      apply create_sales_invoice_some in Hc
        as (_ & si0 & pe0 & Hsi & Hid & _ & -> & Hpe & Href & ->).
      destruct Hk as [[_ ->]|(Hk & _)];
        [|rewrite Hp in Hk; discriminate].
      set (sta := set_flags_request_id request_id st1) in *.
      exists so, (set_docstatus 1 (stored si0 sta)),
             (set_docstatus 1 (stored pe0 (posted si0 sta))).
      rewrite committed_work, !posted_docs.
      change (tabDoc (work sta)) with (tabDoc (work st1)). rewrite Hd1.
      change (tabDoc (work st0)) with (tabDoc (work st)).
      split; [reflexivity|]. rewrite Hso.
      repeat split; assumption.
    + simpl snd. intros Hc. exfalso.
      apply create_shopify_order_summary in H1
        as [S1|(_ & d & so & Hr & _)]; [|discriminate].
      change (work st0) with (work st) in S1. lia.
    + destruct (total_create_shopify_order order request_id st0)
        as (a & st' & Ht). congruence.
Qed.

Lemma paid_unfulfilled_order_witness :
  exists so si pe,
    tabDoc (work (snd (sync_sales_order (demo_order "paid" []) None
                         demo_state)))
    = pe :: si :: so :: tabDoc (work demo_state).
Proof.
  destruct (proj2 (paid_unfulfilled_order (demo_order "paid" []) None
                     demo_state eq_refl eq_refl))
    as (so & si & pe & H & _); try (vm_compute; reflexivity).
  exists so, si, pe. exact H.
Defined.

(** C4, the counterexample.  With the synchronisation of invoices switched
    off in the settings, a paid order without fulfillments is synchronised
    into a Sales Order alone. *)
Lemma paid_order_without_invoice :
  o_financial_status (demo_order "paid" []) = Some "paid" /\
  o_fulfillments (demo_order "paid" []) = [] /\
  ~ order_invoice_payment_created demo_state_no_invoice
      (snd (sync_sales_order (demo_order "paid" []) None
              demo_state_no_invoice)).
Proof.
  split; [reflexivity|]. split; [reflexivity|].
  intros (so & si & pe & H & _).
  apply (f_equal (@List.length Doc)) in H. vm_compute in H. discriminate.
Qed.

(** ** Running the synchronisation twice *)

(** C2.  From a store that has at most one open Sales Order and at most
    one Sales Invoice per external order id, and at most one Delivery Note
    per external fulfillment id, two runs of [sync_sales_order] on the same
    payload leave a store that still has, committed or not; and when the
    first run logged no Error, the second run changes nothing in the store:
    it creates no document at all. *)
Theorem sync_sales_order_twice order request_id request_id' st :
  unique_documents st ->
  unique_documents (snd (sync_sales_order order request_id st)) /\
  unique_documents
    (snd (sync_sales_order order request_id'
            (snd (sync_sales_order order request_id st)))) /\
  (error_count (work (snd (sync_sales_order order request_id st)))
   = error_count (work st) ->
   work (snd (sync_sales_order order request_id'
                (snd (sync_sales_order order request_id st))))
   = work (snd (sync_sales_order order request_id st)) /\
   durable (snd (sync_sales_order order request_id'
                   (snd (sync_sales_order order request_id st))))
   = durable (snd (sync_sales_order order request_id st))).
Proof.
  intros Hu.
  pose proof (keeps_run _ _ st (sync_sales_order_unique order request_id) Hu)
    as H1.
  split; [exact H1|]. split.
  - apply (keeps_run _ _ _ (sync_sales_order_unique order request_id') H1).
  - intros Hc. apply sync_sales_order_settles in Hc.
    rewrite (settled_sync_sales_order order request_id' _ Hc).
    split; reflexivity.
Qed.

Lemma sync_sales_order_twice_witness :
  unique_documents
    (snd (sync_sales_order (demo_order "paid" [demo_fulfillment]) None
            (snd (sync_sales_order (demo_order "paid" [demo_fulfillment])
                    None demo_state)))) /\
  work (snd (sync_sales_order (demo_order "paid" [demo_fulfillment]) None
               (snd (sync_sales_order (demo_order "paid" [demo_fulfillment])
                       None demo_state))))
  = work (snd (sync_sales_order (demo_order "paid" [demo_fulfillment]) None
                 demo_state)).
Proof.
  assert (Hu : unique_documents demo_state).
  { split; repeat split; intros; unfold count_docs; simpl; lia. }
  destruct (sync_sales_order_twice (demo_order "paid" [demo_fulfillment])
              None None demo_state Hu) as (_ & H2 & H3).
  split; [exact H2|].
  assert (Hc : error_count
                 (work (snd (sync_sales_order
                               (demo_order "paid" [demo_fulfillment]) None
                               demo_state)))
               = error_count (work demo_state))
    by (vm_compute; reflexivity).
  exact (proj1 (H3 Hc)).
Defined.

(** * Further properties of the connector *)

(** ** Rows of a delivery note *)

Lemma fulfilled_row_last (f : LineItem -> bool) l d :
  fold_left (fun row item => if f item then dn_item_update item row else row)
            l d
  = match find f (rev l) with
    | Some item => dn_item_update item d
    | None => d
    end.
Proof.
  induction l as [|x l IH] using rev_ind; [reflexivity|].
  rewrite fold_left_app, rev_app_distr. simpl. rewrite IH.
  destruct (f x); [|reflexivity].
  destruct (find f (rev l)); reflexivity.
Qed.

Lemma find_some_iff {A} (f : A -> bool) l :
  (exists x, In x l /\ f x = true) <-> (exists y, find f l = Some y).
Proof.
  split.
  - intros (x & Hin & Hx). induction l as [|a l IH]; [contradiction|].
    simpl. destruct (f a) eqn:Ha; [eauto|].
    destruct Hin as [->|Hin]; [congruence | auto].
  - intros [y Hy]. apply find_some in Hy. eauto.
Qed.

Lemma length_flat_map_filter {A B} (f : A -> B -> bool) (l : list A)
    (l' : list B) (g : B -> B) :
  List.length (flat_map (fun x => map g (filter (f x) l')) l)
  = List.length (filter (fun p => f (fst p) (snd p)) (list_prod l l')).
Proof.
  induction l as [|x l IH]; simpl; [reflexivity|].
  rewrite filter_app, !length_app, IH, length_map. f_equal.
  clear IH. induction l' as [|y l' IH']; simpl; [reflexivity|].
  destruct (f x y); simpl; rewrite IH'; reflexivity.
Qed.

Lemma get_fulfillment_items_in db dn_items fulfillment_items row :
  In row (get_fulfillment_items db dn_items fulfillment_items) <->
  exists dn_item item,
    In dn_item dn_items /\
    find (fun item => fulfils db item dn_item) (rev fulfillment_items)
      = Some item /\
    row = dn_item_update item dn_item.
Proof.
  unfold get_fulfillment_items. rewrite in_flat_map. split.
  - intros (item0 & Hin0 & Hrow).
    apply in_map_iff in Hrow as (dn_item & <- & Hf).
    apply filter_In in Hf as [Hdn Hm].
    destruct (proj1 (find_some_iff (fun item => fulfils db item dn_item)
                       (rev fulfillment_items))) as [item Hitem].
    { exists item0. split; [apply in_rev in Hin0; exact Hin0 | exact Hm]. }
    exists dn_item, item. split; [exact Hdn|]. split; [exact Hitem|].
    rewrite fulfilled_row_last, Hitem. reflexivity.
  - intros (dn_item & item & Hdn & Hitem & ->).
    apply find_some in Hitem as Hi. destruct Hi as [Hin Hm].
    exists item. split; [apply in_rev; exact Hin|].
    apply in_map_iff. exists dn_item. split.
    + rewrite fulfilled_row_last, Hitem. reflexivity.
    + apply filter_In. auto.
Qed.

(** X1.  [get_fulfillment_items] delivers a row of the delivery note once
    for every fulfilled line item that resolves to the row's item code, and
    leaves out the rows that no fulfilled line item matches.  The rows are
    updated in place: every copy allows a zero valuation rate and shows the
    quantity of the last fulfilled line item that matches the row. *)
Theorem get_fulfillment_items_rows db dn_items fulfillment_items :
  (forall row,
     In row (get_fulfillment_items db dn_items fulfillment_items) <->
     exists dn_item item,
       In dn_item dn_items /\
       find (fun item => fulfils db item dn_item) (rev fulfillment_items)
         = Some item /\
       row = dn_item_update item dn_item) /\
  List.length (get_fulfillment_items db dn_items fulfillment_items)
  = List.length
      (filter (fun p => fulfils db (fst p) (snd p))
              (list_prod fulfillment_items dn_items)).
Proof.
  split.
  - intros row. apply get_fulfillment_items_in.
  - unfold get_fulfillment_items. apply length_flat_map_filter.
Qed.

(** ** Resolving a line item *)

Lemma item_get_value_some f db code :
  item_get_value f db = Some code ->
  exists i, In i (tabItem db) /\ f i = true /\ it_item_code i = code.
Proof.
  unfold item_get_value. destruct (find f (tabItem db)) as [i|] eqn:Hf;
    [|discriminate].
  intros H. injection H as <-. apply find_some in Hf as [Hin Hi]. eauto.
Qed.

Lemma item_get_value_found f db :
  Forall (fun i => it_item_code i <> "") (tabItem db) ->
  (exists i, In i (tabItem db) /\ f i = true) ->
  truthy_opt truthy_str (item_get_value f db) = true.
Proof.
  intros Hall Hex. apply find_some_iff in Hex as [i Hi].
  unfold item_get_value. rewrite Hi. simpl.
  apply find_some in Hi as [Hin _].
  rewrite Forall_forall in Hall. specialize (Hall i Hin).
  unfold truthy_str. destruct (String.eqb_spec (it_item_code i) "");
    [contradiction | reflexivity].
Qed.


(** ** The charge lines of an order *)

Lemma account_of_run tax st :
  get_tax_account_head tax st =
  match account_of (work st) (tl_title tax) with
  | Some a => (Ok a, st)
  | None => (fst (get_tax_account_head tax st), st)
  end.
Proof.
  unfold get_tax_account_head, account_of.
  destruct (tl_title tax) as [title|]; [|reflexivity].
  unfold bind, gets.
  destruct (tax_account_get_value title (work st)) as [a|]; [|reflexivity].
  destruct (truthy_str a); reflexivity.
Qed.

Lemma account_of_none tax st :
  account_of (work st) (tl_title tax) = None ->
  exists e, get_tax_account_head tax st = (Raise e, st).
Proof.
  unfold get_tax_account_head, account_of.
  destruct (tl_title tax) as [title|]; [|unfold throw; eauto].
  unfold bind, gets.
  destruct (tax_account_get_value title (work st)) as [a|];
    [|unfold throw; eauto].
  destruct (truthy_str a); [discriminate | unfold throw; eauto].
Qed.

Lemma order_tax_row_run order settings tax st :
  (tax_line_usable (work st) tax = true /\
   exists row, order_tax_row order settings tax st = (Ok [row], st) /\
               tax_line_row order settings (work st) tax row)
  \/
  (tax_line_usable (work st) tax = false /\
   exists e, order_tax_row order settings tax st = (Raise e, st)).
Proof.
  unfold order_tax_row, tax_line_usable, tax_line_row. rewrite run_bind.
  destruct (account_of (work st) (tl_title tax)) as [a|] eqn:Ha.
  - rewrite account_of_run, Ha. unfold percent.
    destruct (tl_rate tax) as [r|].
    + left. split; [reflexivity|]. eexists. split; [reflexivity|].
      exists a, r. auto.
    + right. split; [reflexivity|]. unfold bind, throw. eauto.
  - right. split; [reflexivity|].
    destruct (account_of_none tax st Ha) as [e ->]. eauto.
Qed.

Lemma shipping_charge_run settings shipping_charge st :
  (shipping_line_usable (work st) shipping_charge = true /\
   exists row,
     for_collect (shipping_tax_lines shipping_charge)
       (shipping_charge_row settings) st = (Ok [row], st) /\
     shipping_line_row settings (work st) shipping_charge row)
  \/
  (shipping_line_usable (work st) shipping_charge = false /\
   exists e,
     for_collect (shipping_tax_lines shipping_charge)
       (shipping_charge_row settings) st = (Raise e, st)).
Proof.
  rewrite shipping_tax_lines_own_charge.
  unfold shipping_line_usable, shipping_line_row.
  cbn [for_collect]. unfold shipping_charge_row, bind.
  change (sl_title shipping_charge)
    with (tl_title (as_tax_line shipping_charge)).
  destruct (account_of (work st) (tl_title (as_tax_line shipping_charge)))
    as [a|] eqn:Ha.
  - rewrite account_of_run, Ha. cbn [as_tax_line tl_title tl_price] in *.
    destruct (sl_title shipping_charge) as [title|] eqn:Ht;
      [|discriminate Ha].
    destruct (sl_price shipping_charge) as [price|] eqn:Hp.
    + left. split; [reflexivity|]. eexists. split; [reflexivity|].
      exists a, title, price. auto.
    + right. split; [reflexivity|]. unfold index, throw, ret. eauto.
  - right. split; [reflexivity|].
    destruct (account_of_none (as_tax_line shipping_charge) st Ha) as [e ->].
    eauto.
Qed.

(** A loop whose turns only read, each either giving one row or raising:
    it returns the rows of all its turns when every turn gives one, and
    raises otherwise. *)
Lemma for_collect_usable {A B} (usable : A -> bool) (R : A -> B -> Prop)
    (body : A -> M (list B)) st l :
  (forall x,
     (usable x = true /\ exists y, body x st = (Ok [y], st) /\ R x y) \/
     (usable x = false /\ exists e, body x st = (Raise e, st))) ->
  (forallb usable l = true /\
   exists rows, for_collect l body st = (Ok rows, st) /\ Forall2 R l rows)
  \/
  (forallb usable l = false /\
   exists e, for_collect l body st = (Raise e, st)).
Proof.
  intros Hbody. induction l as [|x l IH].
  - left. split; [reflexivity|]. exists []. split; [reflexivity | constructor].
  - simpl. rewrite run_bind.
    destruct (Hbody x) as [(Hu & y & -> & Hy)|(Hu & e & ->)]; rewrite Hu.
    + rewrite run_bind.
      destruct IH as [(Hl & rows & -> & Hrows)|(Hl & e & ->)]; rewrite Hl.
      * left. split; [reflexivity|]. exists (y :: rows).
        split; [reflexivity | constructor; assumption].
      * right. split; [reflexivity|]. eauto.
    + right. split; [reflexivity|]. eauto.
Qed.

Lemma get_order_taxes_run order settings st :
  (forallb (tax_line_usable (work st)) (o_tax_lines order)
   && forallb (shipping_line_usable (work st)) (o_shipping_lines order)
   = true /\
   exists tax_rows shipping_rows,
     get_order_taxes order settings st
       = (Ok (tax_rows ++ shipping_rows)%list, st) /\
     Forall2 (tax_line_row order settings (work st))
             (o_tax_lines order) tax_rows /\
     Forall2 (shipping_line_row settings (work st))
             (o_shipping_lines order) shipping_rows)
  \/
  (forallb (tax_line_usable (work st)) (o_tax_lines order)
   && forallb (shipping_line_usable (work st)) (o_shipping_lines order)
   = false /\
   exists e, get_order_taxes order settings st = (Raise e, st)).
Proof.
  unfold get_order_taxes, update_taxes_with_shipping_lines.
  rewrite run_bind.
  destruct (for_collect_usable (tax_line_usable (work st))
              (tax_line_row order settings (work st))
              (order_tax_row order settings) st (o_tax_lines order)
              (fun tax => order_tax_row_run order settings tax st))
    as [(Hl & rows & -> & Hrows)|(Hl & e & ->)]; rewrite Hl;
    [|right; split; [reflexivity | eauto]].
  rewrite run_bind.
  destruct (for_collect_usable (shipping_line_usable (work st))
              (shipping_line_row settings (work st))
              (fun shipping_charge =>
                 for_collect (shipping_tax_lines shipping_charge)
                   (shipping_charge_row settings))
              st (o_shipping_lines order)
              (fun sc => shipping_charge_run settings sc st))
    as [(Hs & srows & -> & Hsrows)|(Hs & e & ->)]; rewrite Hs.
  - left. split; [reflexivity|]. exists rows, srows. auto.
  - right. split; [reflexivity | eauto].
Qed.

(** X3.  The charge lines [get_order_taxes] returns are, in this order, one
    line on the net total for every tax line of the payload, with the
    account the tax table gives for its title and a hundred times its rate,
    and one line with an actual amount for every shipping charge, with the
    account the tax table gives for the charge's title and the charge's
    price; the nested tax lines of a shipping charge give no line.  The
    store is left as it was. *)
Theorem get_order_taxes_rows order settings st rows st' :
  get_order_taxes order settings st = (Ok rows, st') ->
  st' = st /\
  exists tax_rows shipping_rows,
    rows = (tax_rows ++ shipping_rows)%list /\
    Forall2 (tax_line_row order settings (work st))
            (o_tax_lines order) tax_rows /\
    Forall2 (shipping_line_row settings (work st))
            (o_shipping_lines order) shipping_rows.
Proof.
  destruct (get_order_taxes_run order settings st)
    as [(_ & tax_rows & shipping_rows & -> & Ht & Hs)|(_ & e & ->)];
    [|discriminate].
  intros H. injection H as <- <-. split; [reflexivity|].
  exists tax_rows, shipping_rows. auto.
Qed.

Lemma get_order_taxes_rows_witness :
  exists rows tax_rows shipping_rows,
    get_order_taxes (demo_order "paid" []) demo_settings demo_state
    = (Ok rows, demo_state) /\
    map tax_rate rows = [Some 7.000000000000001%float; None] /\
    Forall2 (tax_line_row (demo_order "paid" []) demo_settings
               (work demo_state)) [demo_gst] tax_rows /\
    Forall2 (shipping_line_row demo_settings (work demo_state))
            [demo_freight] shipping_rows.
Proof.
  destruct (get_order_taxes_rows (demo_order "paid" []) demo_settings
              demo_state _ _ eq_refl)
    as (_ & tax_rows & shipping_rows & _ & Ht & Hs).
  eexists _, tax_rows, shipping_rows.
  split; [reflexivity|]. split; [reflexivity|].
  split; [exact Ht | exact Hs].
Defined.

(** X4.  [get_order_taxes] returns exactly when every tax line of the
    payload has a rate and a title the tax table maps to an account, and
    every shipping charge has a price and such a title; otherwise it
    raises.  Either way it leaves the state as it was. *)
Theorem get_order_taxes_usable order settings st :
  ((exists rows, get_order_taxes order settings st = (Ok rows, st)) <->
   forallb (tax_line_usable (work st)) (o_tax_lines order)
   && forallb (shipping_line_usable (work st)) (o_shipping_lines order)
   = true) /\
  ((exists e, get_order_taxes order settings st = (Raise e, st)) <->
   forallb (tax_line_usable (work st)) (o_tax_lines order)
   && forallb (shipping_line_usable (work st)) (o_shipping_lines order)
   = false).
Proof.
  destruct (get_order_taxes_run order settings st)
    as [(Hu & tax_rows & shipping_rows & -> & _)|(Hu & e & ->)]; rewrite Hu.
  - split; split; try discriminate; eauto. intros [e H]. discriminate.
  - split; split; try discriminate; eauto. intros [rows H]. discriminate.
Qed.

(** ** Properties of the state that every entry point keeps *)

Lemma readonly_get_sales_order id : readonly (get_sales_order id).
Proof.
  unfold get_sales_order. apply readonly_bind; [auto with readonly|].
  intros [n|]; [|auto with readonly].
  apply readonly_bind; auto with readonly.
Qed.

Lemma make_shopify_log_rollback status order exc st :
  make_shopify_log status order exc true st
  = (Ok tt, logged status order exc (set_work (durable st) st)).
Proof. reflexivity. Qed.

(** Any property of the state that the store's elementary changes keep,
    the rollback among them, is kept by the preparation of an invoice, by
    the preparation of the delivery notes and by a cancellation. *)
Section KeepsEntry.

Variable P : State -> Prop.

Hypothesis P_flags : forall r st, P st -> P (set_flags_request_id r st).
Hypothesis P_user : forall u st, P st -> P (set_session_user u st).
Hypothesis P_commit : forall st, P st -> P (set_durable (work st) st).
Hypothesis P_rollback : forall st, P st -> P (set_work (durable st) st).
Hypothesis P_log : forall l st,
  P st -> P (set_work (set_tabShopifyLog l (work st)) st).
Hypothesis P_submit : forall d st, P st -> P (submitted d st).
Hypothesis P_cancel : forall dt n st, P st -> P (cancelled dt n st).
Hypothesis P_insert : forall d st,
  P st -> insertable d (work st) -> P (inserted d st).

Lemma keeps_logging status order exc rollback :
  keeps P (make_shopify_log status order exc rollback).
Proof.
  unfold make_shopify_log. apply keeps_seq.
  - destruct rollback; [apply run_modify; auto | apply keeps_readonly, readonly_ret].
  - intros ?. apply keeps_seq; [apply run_modify; auto|]. intros ?.
    apply run_modify. auto.
Qed.

Lemma keeps_invoice_preparation order settings :
  keeps P (invoice_preparation order settings).
Proof.
  unfold invoice_preparation.
  apply keeps_seq; [apply keeps_readonly, readonly_get_sales_order|].
  intros [so|]; [|apply keeps_readonly, readonly_ret].
  apply keeps_seq.
  - apply keeps_create_sales_invoice with (allowed := fun _ => True); auto.
  - intros ?. apply keeps_logging.
Qed.

Lemma keeps_delivery_preparation order settings :
  keeps P (delivery_preparation order settings).
Proof.
  unfold delivery_preparation.
  apply keeps_seq; [apply keeps_readonly, readonly_get_sales_order|].
  intros sales_order. apply keeps_seq; [|intros ?; apply keeps_logging].
  destruct sales_order as [so|]; [|apply keeps_readonly, readonly_ret].
  apply keeps_seq; [|intros ?; apply keeps_readonly, readonly_ret].
  apply keeps_create_delivery_note with (allowed := fun _ => True); auto.
Qed.

Lemma keeps_prepared {A} (body : M A) order :
  keeps P body ->
  keeps P (try_except body
             (fun e => make_shopify_log "Error" order (Some e) true)
             (fun _ => ret tt)).
Proof.
  intros Hb. apply keeps_try_except; [exact Hb | |].
  - intros e. apply keeps_logging.
  - intros ?. apply keeps_readonly, readonly_ret.
Qed.

Lemma keeps_prepare_sales_invoice order request_id :
  keeps P (prepare_sales_invoice order request_id).
Proof.
  unfold prepare_sales_invoice.
  apply keeps_seq; [apply run_modify; auto|]. intros ?.
  apply keeps_seq; [apply keeps_readonly, readonly_gets|]. intros settings.
  apply keeps_seq; [apply run_modify; auto|]. intros ?.
  apply keeps_prepared, keeps_invoice_preparation.
Qed.

Lemma keeps_prepare_delivery_note order request_id :
  keeps P (prepare_delivery_note order request_id).
Proof.
  unfold prepare_delivery_note.
  apply keeps_seq; [apply run_modify; auto|]. intros ?.
  apply keeps_seq; [apply keeps_readonly, readonly_gets|]. intros settings.
  apply keeps_seq; [apply run_modify; auto|]. intros ?.
  apply keeps_prepared, keeps_delivery_preparation.
Qed.

Lemma keeps_doc_cancel d : keeps P (doc_cancel d).
Proof.
  unfold doc_cancel.
  apply keeps_seq; [apply keeps_readonly, readonly_framework|]. intros ?.
  destruct (docstatus d =? 1); [|apply keeps_readonly, readonly_throw].
  apply run_modify. intros st H. apply (P_cancel (doctype d) (name d)), H.
Qed.

Lemma keeps_cancel_doctype order dt : keeps P (cancel_doctype order dt).
Proof.
  unfold cancel_doctype.
  apply keeps_seq; [apply keeps_readonly, readonly_db_get_value|].
  intros [n|]; [|apply keeps_readonly, readonly_ret].
  apply keeps_try_except.
  - apply keeps_seq; [apply keeps_readonly, readonly_get_doc|].
    intros d. apply keeps_doc_cancel.
  - intros e. apply keeps_logging.
  - intros ?. apply keeps_readonly, readonly_ret.
Qed.

Lemma keeps_cancelling order l :
  keeps P (for_each l (cancel_doctype order)).
Proof. apply run_for_each. intros dt _. apply keeps_cancel_doctype. Qed.

Lemma keeps_cancel_shopify_order order request_id :
  keeps P (cancel_shopify_order order request_id).
Proof.
  unfold cancel_shopify_order.
  apply keeps_seq; [apply run_modify; auto|]. intros ?.
  apply keeps_seq; [apply run_modify; auto|]. intros ?.
  apply keeps_cancelling.
Qed.

End KeepsEntry.

(** ** The invariant of the data model, under every entry point *)

Lemma filter_update_doc_le f dt n g l :
  (forall d, f (g d) = true -> f d = true) ->
  (List.length (filter f (update_doc dt n g l)) <= List.length (filter f l))%nat.
Proof.
  intros Hf. induction l as [|d l IH]; simpl; [lia|].
  destruct (doctype_eqb (doctype d) dt && has_name n d); simpl.
  - destruct (f (g d)) eqn:Hg.
    + rewrite (Hf d Hg). simpl. lia.
    + destruct (f d); simpl; lia.
  - destruct (f d); simpl; lia.
Qed.

Lemma open_cancel_row id d :
  is_open_order id (cancel_row d) = true -> is_open_order id d = true.
Proof.
  unfold cancel_row. destruct (docstatus d =? 1) eqn:H; [|auto].
  unfold is_open_order, open_order. simpl. rewrite andb_false_r. discriminate.
Qed.

Lemma invoice_cancel_row id d :
  is_invoice_of id (cancel_row d) = is_invoice_of id d.
Proof. unfold cancel_row. destruct (docstatus d =? 1); reflexivity. Qed.

Lemma delivery_cancel_row fid d :
  is_delivery_of fid (cancel_row d) = is_delivery_of fid d.
Proof. unfold cancel_row. destruct (docstatus d =? 1); reflexivity. Qed.

Lemma unique_documents_rollback st :
  unique_documents st -> unique_documents (set_work (durable st) st).
Proof. intros [_ H]. split; exact H. Qed.

Lemma unique_documents_cancel dt n st :
  unique_documents st -> unique_documents (cancelled dt n st).
Proof.
  intros [(Ho & Hi & Hd) Hdur]. split; [|exact Hdur].
  unfold at_most_one, count_docs, cancelled. simpl. repeat split; intros k.
  - eapply Nat.le_trans;
      [apply filter_update_doc_le; intros d; apply open_cancel_row | apply Ho].
  - rewrite filter_update_doc_length by (intros; apply invoice_cancel_row).
    apply Hi.
  - rewrite filter_update_doc_length by (intros; apply delivery_cancel_row).
    apply Hd.
Qed.

(** X5.  The invariant of the data model (at most one Sales Order that is
    not cancelled and at most one Sales Invoice per external order id, at
    most one Delivery Note per external fulfillment id, in the connection's
    view and in the committed store) is kept by the preparation of an
    invoice, by the preparation of the delivery notes and by a
    cancellation, however they end. *)
Theorem entry_points_keep_unique_documents order request_id st :
  unique_documents st ->
  unique_documents (snd (prepare_sales_invoice order request_id st)) /\
  unique_documents (snd (prepare_delivery_note order request_id st)) /\
  unique_documents (snd (cancel_shopify_order order request_id st)).
Proof.
  intros Hu. split; [|split].
  - apply keeps_run; [|exact Hu].
    apply keeps_prepare_sales_invoice;
      auto using unique_documents_flags, unique_documents_user,
        unique_documents_commit, unique_documents_rollback,
        unique_documents_log, unique_documents_submit.
    intros d s H Hi. apply unique_documents_insert; auto.
  - apply keeps_run; [|exact Hu].
    apply keeps_prepare_delivery_note;
      auto using unique_documents_flags, unique_documents_user,
        unique_documents_commit, unique_documents_rollback,
        unique_documents_log, unique_documents_submit.
    intros d s H Hi. apply unique_documents_insert; auto.
  - apply keeps_run; [|exact Hu].
    apply keeps_cancel_shopify_order;
      auto using unique_documents_flags, unique_documents_user,
        unique_documents_commit, unique_documents_rollback,
        unique_documents_log, unique_documents_cancel.
Qed.

Lemma entry_points_keep_unique_documents_witness :
  unique_documents
    (snd (cancel_shopify_order (demo_order "paid" [demo_fulfillment]) None
            demo_synced)).
Proof.
  assert (Hu : unique_documents demo_state).
  { split; repeat split; intros; unfold count_docs; simpl; lia. }
  apply (entry_points_keep_unique_documents
           (demo_order "paid" [demo_fulfillment]) None demo_synced).
  exact (keeps_run _ _ demo_state
           (sync_sales_order_unique (demo_order "paid" [demo_fulfillment])
              None) Hu).
Defined.

(** ** The session an entry point leaves *)

Section Session.

Variable request_id : option string.

Let P := administrator_session request_id.

Lemma session_set_request_id : keeps P (set_request_id request_id).
Proof. apply run_modify. intros st [H _]. split; [exact H | reflexivity]. Qed.

Lemma session_logging status order exc rollback :
  keeps P (make_shopify_log status order exc rollback).
Proof. apply keeps_logging; intros; assumption. Qed.

Lemma session_create_shopify_order order :
  keeps P (create_shopify_order order request_id).
Proof.
  unfold create_shopify_order.
  apply keeps_seq; [apply keeps_readonly, readonly_gets|]. intros settings.
  apply keeps_seq; [apply session_set_request_id|]. intros ?.
  apply keeps_seq; [apply keeps_readonly, readonly_db_get_value|].
  intros [n|].
  - apply keeps_seq; [apply keeps_readonly, readonly_get_doc|].
    intros so. apply keeps_readonly, readonly_ret.
  - apply keeps_try_except.
    + apply keeps_order_stage with (allowed := fun _ => True);
        auto; intros; assumption.
    + intros e. apply keeps_seq; [apply session_logging|].
      intros ?. apply keeps_readonly, readonly_ret.
    + intros so. apply keeps_seq; [apply session_logging|].
      intros ?. apply keeps_readonly, readonly_ret.
Qed.

Lemma session_create_shopify_invoice order so :
  keeps P (create_shopify_invoice order so request_id).
Proof.
  unfold create_shopify_invoice.
  apply keeps_seq; [apply keeps_readonly, readonly_gets|]. intros settings.
  apply keeps_seq; [apply session_set_request_id|]. intros ?.
  destruct (negb (status_in (o_financial_status order) ["paid"; "refunded"]));
    [apply keeps_readonly, readonly_ret|].
  apply keeps_try_except.
  - apply keeps_invoice_stage with (allowed := fun _ => True);
      auto; intros; assumption.
  - intros e. apply keeps_seq; [apply session_logging|].
    intros ?. apply keeps_readonly, readonly_ret.
  - intros si. apply keeps_readonly, readonly_ret.
Qed.

Lemma session_create_shopify_delivery order so :
  keeps P (create_shopify_delivery order so request_id).
Proof.
  unfold create_shopify_delivery.
  apply keeps_seq; [apply keeps_readonly, readonly_gets|]. intros settings.
  apply keeps_seq; [apply session_set_request_id|]. intros ?.
  destruct (o_fulfillments order); [apply keeps_readonly, readonly_ret|].
  apply keeps_try_except.
  - apply keeps_create_delivery_note with (allowed := fun _ => True);
      auto; intros; assumption.
  - intros e. apply keeps_seq; [apply session_logging|].
    intros ?. apply keeps_readonly, readonly_ret.
  - intros dns. apply keeps_readonly, readonly_ret.
Qed.

(** Every entry point opens by taking the session. *)
Lemma session_taken {A} (m : M A) :
  keeps P m ->
  run (fun _ => True) (set_user "Administrator" ;; set_request_id request_id ;; m)
      (fun _ => P) P.
Proof.
  intros Hm.
  eapply run_seq with (Q1 := fun _ st => session_user st = "Administrator").
  { apply run_modify. reflexivity. }
  intros ?. eapply run_seq with (Q1 := fun _ => P); [|intros ?; exact Hm].
  apply run_modify. intros st H. split; [exact H | reflexivity].
Qed.

Lemma session_taken_settings {A} (m : ShopifySettings -> M A) :
  (forall settings, keeps P (m settings)) ->
  run (fun _ => True)
      (set_user "Administrator" ;; settings <- get_single_settings ;;
       set_request_id request_id ;; m settings)
      (fun _ => P) P.
Proof.
  intros Hm.
  eapply run_seq with (Q1 := fun _ st => session_user st = "Administrator").
  { apply run_modify. reflexivity. }
  intros ?.
  eapply run_seq with (Q1 := fun _ st => session_user st = "Administrator").
  { intros s H. exact H. }
  intros settings.
  eapply run_seq with (Q1 := fun _ => P); [|intros ?; apply Hm].
  apply run_modify. intros st H. split; [exact H | reflexivity].
Qed.

End Session.

(** X6.  Every entry point of the connector leaves the session as it took
    it: the user is Administrator and the request at hand is the one it was
    called for, whatever the session was before and however the call went;
    the caller's user is not restored. *)
Theorem entry_points_leave_administrator order request_id st :
  administrator_session request_id
    (snd (sync_sales_order order request_id st)) /\
  administrator_session request_id
    (snd (prepare_sales_invoice order request_id st)) /\
  administrator_session request_id
    (snd (prepare_delivery_note order request_id st)) /\
  administrator_session request_id
    (snd (cancel_shopify_order order request_id st)).
Proof.
  assert (Hend : forall {A} (m : M A),
            run (fun _ => True) m
                (fun _ => administrator_session request_id)
                (administrator_session request_id) ->
            administrator_session request_id (snd (m st))).
  { intros A m Hm. specialize (Hm st I).
    destruct (m st) as [[a|e] st']; exact Hm. }
  split; [|split; [|split]].
  - apply Hend. unfold sync_sales_order. apply session_taken.
    apply keeps_seq; [apply session_create_shopify_order|].
    intros [so|]; [|apply keeps_readonly, readonly_ret].
    apply keeps_seq; [apply session_create_shopify_invoice|]. intros ?.
    apply keeps_seq; [apply session_create_shopify_delivery|]. intros ?.
    apply keeps_readonly, readonly_ret.
  - apply Hend. unfold prepare_sales_invoice. apply session_taken_settings.
    intros settings. apply keeps_prepared; try (intros; assumption).
    apply keeps_invoice_preparation; intros; assumption.
  - apply Hend. unfold prepare_delivery_note. apply session_taken_settings.
    intros settings. apply keeps_prepared; try (intros; assumption).
    apply keeps_delivery_preparation; intros; assumption.
  - apply Hend. unfold cancel_shopify_order. apply session_taken.
    apply keeps_cancelling; intros; assumption.
Qed.

(** ** What a cancellation changes *)

Lemma update_doc_length dt n g l :
  List.length (update_doc dt n g l) = List.length l.
Proof.
  induction l as [|d l IH]; simpl; [reflexivity|].
  destruct (doctype_eqb (doctype d) dt && has_name n d); simpl; congruence.
Qed.

Lemma filter_update_doc_ge f dt n g l :
  (List.length (filter f l)
   <= S (List.length (filter f (update_doc dt n g l))))%nat.
Proof.
  induction l as [|d l IH]; simpl; [lia|].
  destruct (doctype_eqb (doctype d) dt && has_name n d); simpl.
  - destruct (f d), (f (g d)); simpl; lia.
  - destruct (f d); simpl; lia.
Qed.

Lemma doctype_cancel_row d : doctype (cancel_row d) = doctype d.
Proof. unfold cancel_row. destruct (docstatus d =? 1); reflexivity. Qed.

Lemma is_submitted_cancel_row dt d :
  is_submitted dt (cancel_row d) = true -> is_submitted dt d = true.
Proof.
  unfold cancel_row. destruct (docstatus d =? 1) eqn:H; [|auto].
  unfold is_submitted. simpl. rewrite andb_false_r. discriminate.
Qed.

Lemma submitted_other_doctype dt dt' n l :
  dt' <> dt ->
  List.length (filter (is_submitted dt') (update_doc dt n cancel_row l))
  = List.length (filter (is_submitted dt') l).
Proof.
  intros Hne. induction l as [|d l IH]; simpl; [reflexivity|].
  destruct (doctype_eqb (doctype d) dt && has_name n d) eqn:Hd; simpl.
  - apply andb_true_iff in Hd as [Hd _]. apply doctype_eqb_eq in Hd.
    unfold is_submitted. rewrite doctype_cancel_row.
    destruct (doctype_eqb (doctype d) dt') eqn:He; [|reflexivity].
    apply doctype_eqb_eq in He. congruence.
  - destruct (is_submitted dt' d); simpl; congruence.
Qed.

Lemma doctype_eq_dec (a b : Doctype) : {a = b} + {a <> b}.
Proof. decide equality. Defined.

Lemma cancel_bound_turn order T0 done dt st st' :
  cancel_turn order dt st st' -> ~ In dt done ->
  cancel_bound T0 done st -> cancel_bound T0 (dt :: done) st'.
Proof.
  intros Ht Hnew (Hdur & Hlen & Hcount).
  destruct Ht as [Hf | found d Hf Hd Hfault Hs | found d e Hf Hd Hfail].
  - split; [exact Hdur|]. split; [exact Hlen|]. intros dt'.
    destruct (Hcount dt') as (H1 & H2 & H3). split; [exact H1|].
    split; [exact H2|]. intros Hn. apply H3. intros Hin. apply Hn.
    right. exact Hin.
  - split; [exact Hdur|]. unfold cancelled. simpl.
    split; [rewrite update_doc_length; exact Hlen|]. intros dt'.
    destruct (Hcount dt') as (H1 & H2 & H3).
    destruct (doctype_eq_dec dt' dt) as [->|Hne].
    + specialize (H3 Hnew).
      pose proof (filter_update_doc_le (is_submitted dt) dt (name found)
                    cancel_row (tabDoc (work st))
                    (is_submitted_cancel_row dt)) as Hle.
      pose proof (filter_update_doc_ge (is_submitted dt) dt (name found)
                    cancel_row (tabDoc (work st))) as Hge.
      split; [lia|]. split; [lia|]. intros Hn. exfalso. apply Hn.
      left. reflexivity.
    + rewrite (submitted_other_doctype dt dt' _ _ Hne).
      split; [exact H1|]. split; [exact H2|]. intros Hn. apply H3.
      intros Hin. apply Hn. right. exact Hin.
  - unfold logged, cancel_bound. simpl. rewrite Hdur.
    split; [reflexivity|]. split; [reflexivity|]. intros dt'.
    split; [lia|]. split; [lia|]. intros _. lia.
Qed.

Lemma cancel_bound_loop order T0 l :
  forall done st,
    NoDup l -> (forall dt, In dt l -> ~ In dt done) ->
    cancel_bound T0 done st ->
    cancel_bound T0 (rev l ++ done)
      (snd (for_each l (cancel_doctype order) st)).
Proof.
  induction l as [|a l IH]; intros done st Hnd Hfresh Hb; [exact Hb|].
  destruct (cancel_doctype_turn order a st) as (st1 & H1 & T1).
  simpl. rewrite (run_bind_ok _ _ _ _ _ H1), <- app_assoc. simpl.
  inversion Hnd as [|x l' Hnotin Hnd']; subst.
  apply IH; [exact Hnd' | |].
  - intros dt Hin [<-|Hd]; [contradiction|].
    exact (Hfresh dt (or_intror Hin) Hd).
  - apply (cancel_bound_turn order T0 done a st st1 T1);
      [apply Hfresh; left; reflexivity | exact Hb].
Qed.

(** X7.  From a connection with nothing pending, [cancel_shopify_order]
    cancels at most one document of each doctype: the submitted documents
    of a doctype are, afterwards, those of before or one fewer, so of two
    submitted Delivery Notes that carry the order id one stays submitted.
    A Payment Entry is never cancelled, no document is added or removed,
    and the connector commits none of the cancellations itself: the
    committed documents are those of before. *)
Theorem cancel_shopify_order_one_per_doctype order request_id st dt :
  clean st ->
  (submitted_count dt
     (work (snd (cancel_shopify_order order request_id st)))
   <= submitted_count dt (work st))%nat /\
  (submitted_count dt (work st)
   <= S (submitted_count dt
           (work (snd (cancel_shopify_order order request_id st)))))%nat /\
  (dt = PaymentEntry ->
   submitted_count dt (work (snd (cancel_shopify_order order request_id st)))
   = submitted_count dt (work st)) /\
  List.length (tabDoc (work (snd (cancel_shopify_order order request_id st))))
  = List.length (tabDoc (work st)) /\
  tabDoc (durable (snd (cancel_shopify_order order request_id st)))
  = tabDoc (durable st).
Proof.
  intros Hc. unfold clean in Hc.
  assert (Hb : cancel_bound (tabDoc (work st)) []
                 (set_flags_request_id request_id
                    (set_session_user "Administrator" st))).
  { unfold cancel_bound. simpl. rewrite <- Hc.
    split; [reflexivity|]. split; [reflexivity|]. intros dt'.
    split; [lia|]. split; [lia|]. intros _. lia. }
  assert (Hnd : NoDup [DeliveryNote; SalesInvoice; SalesOrder]).
  { repeat constructor; simpl; intuition discriminate. }
  pose proof (cancel_bound_loop order (tabDoc (work st))
                [DeliveryNote; SalesInvoice; SalesOrder] [] _ Hnd
                (fun dt _ H => H) Hb) as (Hdur & Hlen & Hcount).
  change (snd (for_each [DeliveryNote; SalesInvoice; SalesOrder]
                 (cancel_doctype order)
                 (set_flags_request_id request_id
                    (set_session_user "Administrator" st))))
    with (snd (cancel_shopify_order order request_id st)) in *.
  destruct (Hcount dt) as (H1 & H2 & H3).
  unfold submitted_count, count_docs.
  split; [exact H1|]. split; [exact H2|].
  split; [|split; [exact Hlen | rewrite <- Hc; exact Hdur]].
  intros ->. apply Nat.le_antisymm; [exact H1|]. apply H3.
  simpl. intuition discriminate.
Qed.

Lemma cancel_shopify_order_one_per_doctype_witness :
  submitted_count DeliveryNote (work demo_delivered_twice) = 2%nat /\
  (1 <= submitted_count DeliveryNote
          (work (snd (cancel_shopify_order
                        (demo_order "paid"
                           [demo_fulfillment; demo_fulfillment_2])
                        None demo_delivered_twice))))%nat.
Proof.
  assert (Hc : clean demo_delivered_twice) by (vm_compute; reflexivity).
  assert (H2 : submitted_count DeliveryNote (work demo_delivered_twice)
               = 2%nat) by (vm_compute; reflexivity).
  split; [exact H2|].
  pose proof (proj1 (proj2 (cancel_shopify_order_one_per_doctype
                              (demo_order "paid"
                                 [demo_fulfillment; demo_fulfillment_2])
                              None demo_delivered_twice DeliveryNote Hc)))
    as H.
  rewrite H2 in H. lia.
Defined.

(** ** Looking the Sales Order up again *)

Lemma get_sales_order_run id st :
  get_sales_order id st =
  match find_doc SalesOrder (by_order_id id) (work st) with
  | Some d =>
      match find_doc SalesOrder (has_name (name d)) (work st) with
      | Some so => (Ok (Some so), st)
      | None => (Raise (DoesNotExistError SalesOrder (name d)), st)
      end
  | None => (Ok None, st)
  end.
Proof.
  unfold get_sales_order, db_get_value, bind, gets, get_doc.
  destruct (find_doc SalesOrder (by_order_id id) (work st)) as [d|];
    [|reflexivity].
  simpl. destruct (find_doc SalesOrder (has_name (name d)) (work st));
    reflexivity.
Qed.

(** X8.  [get_sales_order] never raises and changes nothing.  It answers
    with a Sales Order exactly when some Sales Order carries the external
    id, whatever its docstatus: a cancelled order is found as well, since
    the query has no filter on the docstatus.  The order it answers with
    has the name of the first Sales Order that carries the id. *)
Theorem get_sales_order_finds id st :
  exists r,
    get_sales_order id st = (Ok r, st) /\
    (r = None <-> find_doc SalesOrder (by_order_id id) (work st) = None) /\
    (forall d,
       find_doc SalesOrder (by_order_id id) (work st) = Some d ->
       exists so, r = Some so /\ doctype so = SalesOrder /\
                  name so = name d /\ In so (tabDoc (work st))).
Proof.
  rewrite get_sales_order_run.
  destruct (find_doc SalesOrder (by_order_id id) (work st)) as [d|] eqn:Hd.
  - pose proof (find_doc_some _ _ _ _ Hd) as (Hin & Hdt & _).
    destruct (find_doc_exists SalesOrder (has_name (name d)) (work st) d
                Hin Hdt (docname_eqb_refl _)) as [so Hso].
    rewrite Hso. exists (Some so). split; [reflexivity|]. split.
    + split; discriminate.
    + intros d' H. injection H as <-.
      apply find_doc_some in Hso as (Hin' & Hdt' & Hn).
      apply docname_eqb_eq in Hn. exists so. auto.
  - exists None. split; [reflexivity|]. split; [split; reflexivity|].
    discriminate.
Qed.

(** ** What is pending when a creation raises *)

(** Until [create_sales_invoice], or a turn of [create_delivery_note],
    commits, which is the last thing either does, the committed store and
    the request at hand are those it started with: so they are when either
    raises. *)
Section Pending.

Variable d0 : DB.
Variable r0 : option string.

Let P := fun st => durable st = d0 /\ flags_request_id st = r0.

Lemma pending_doc_insert d : keeps P (doc_insert d).
Proof.
  intros st HP. destruct (doc_insert d st) as [[d'|e] st1] eqn:H.
  - apply doc_insert_ok in H as (_ & -> & _). exact HP.
  - apply doc_insert_raise in H as ->. exact HP.
Qed.

Lemma pending_doc_submit d : keeps P (doc_submit d).
Proof. apply keeps_doc_submit. intros d' st H. exact H. Qed.

Lemma pending_commit {A} (a : A) :
  run P (db_commit ;; ret a) (fun _ _ => True) P.
Proof.
  eapply run_seq with (Q1 := fun _ _ => True); [apply run_modify; auto|].
  intros ?. apply run_ret. auto.
Qed.

Lemma pending_create_sales_invoice order settings so :
  run P (create_sales_invoice order settings so) (fun _ _ => True) P.
Proof.
  unfold create_sales_invoice.
  eapply run_seq; [apply keeps_readonly, readonly_db_get_value|].
  intros existing.
  destruct (negb (is_some existing) && (docstatus so =? 1)
            && negb (truthy_Q (per_billed so))
            && truthy_Z (cint (ss_sync_sales_invoice settings)));
    [|apply run_ret; auto].
  eapply run_seq; [apply keeps_readonly, readonly_make_sales_invoice|].
  intros si.
  eapply run_seq; [apply keeps_readonly, readonly_getdate|].
  intros date. cbv zeta.
  eapply run_seq; [apply pending_doc_insert|]. intros si1.
  eapply run_seq; [apply pending_doc_submit|]. intros si2.
  eapply run_seq.
  { apply keeps_make_payment_entry_against_sales_invoice
      with (allowed := fun _ => True); auto; intros; assumption. }
  intros ?. apply pending_commit.
Qed.

Lemma pending_delivery_note_for order settings so fulfillment :
  run P (delivery_note_for order settings so fulfillment)
      (fun _ _ => True) P.
Proof.
  unfold delivery_note_for.
  eapply run_seq; [apply keeps_readonly, readonly_db_get_value|].
  intros existing.
  destruct (negb (is_some existing) && (docstatus so =? 1));
    [|apply run_ret; auto].
  eapply run_seq; [apply keeps_readonly, readonly_make_delivery_note|].
  intros dn.
  eapply run_seq; [apply keeps_readonly, readonly_getdate|].
  intros date.
  eapply run_seq; [apply keeps_readonly, readonly_gets|].
  intros dn_items. cbv zeta.
  eapply run_seq; [apply pending_doc_insert|]. intros dn1.
  eapply run_seq; [apply pending_doc_submit|]. intros dn2.
  apply pending_commit.
Qed.

End Pending.

(** ** What the connector writes on the documents it creates *)

Lemma set_cost_center_rows l cc :
  Forall (fun row => cost_center row = cc) (set_cost_center l cc).
Proof.
  unfold set_cost_center. induction l as [|x l IH]; simpl; constructor;
    [reflexivity | exact IH].
Qed.

Lemma payment_posted doc settings st u st' :
  make_payment_entry_against_sales_invoice doc settings st = (Ok u, st') ->
  exists pe0,
    doctype pe0 = PaymentEntry /\ reference_no pe0 = Some (name doc) /\
    reference_date pe0 = Some (today st) /\
    st' = posted pe0 st.
Proof.
  unfold make_payment_entry_against_sales_invoice. intros H.
  bind_ok H pe s1 E1. apply get_payment_entry_ok in E1 as (-> & d & _ & ->).
  bind_ok H date s2 E2. unfold nowdate, gets in E2. injection E2 as <- <-.
  bind_ok H pe1 s3 E3.
  match type of E3 with doc_insert ?d _ = _ => set (pe0 := d) in * end.
  apply doc_insert_ok in E3 as (-> & -> & _).
  bind_ok H pe2 s4 E4. apply doc_submit_ok in E4 as (-> & -> & _).
  unfold ret in H. injection H as _ <-.
  exists pe0. repeat split.
Qed.

Lemma create_sales_invoice_created order settings so st n st' :
  create_sales_invoice order settings so st = (Ok (Some n), st') ->
  exists si pe,
    tabDoc (work st') = pe :: si :: tabDoc (work st) /\
    tabShopifyLog (work st') = tabShopifyLog (work st) /\
    flags_request_id st' = flags_request_id st /\
    durable st' = work st' /\
    name si = n /\ invoice_of order settings si /\
    payment_of si (today st) pe.
Proof.
  rewrite create_sales_invoice_guard.
  destruct (invoice_due order settings so (work st)); [|discriminate].
  intros H.
  bind_ok H si s1 E1. apply make_sales_invoice_ok in E1 as (-> & so' & _ & ->).
  bind_ok H date s2 E2.
  assert (Hdate : date = o_created_at order).
  { unfold getdate, bind in E2.
    destruct (framework _ st) as [[u|e] s]; [|discriminate].
    unfold ret in E2. injection E2 as <- _. reflexivity. }
  apply readonly_run in E2 as Hs; [subst s2 | apply readonly_getdate].
  subst date. cbv zeta in H.
  bind_ok H si1 s3 E3.
  match type of E3 with doc_insert ?d _ = _ => set (si0 := d) in * end.
  apply doc_insert_ok in E3 as (-> & -> & _).
  bind_ok H si2 s4 E4. apply doc_submit_ok in E4 as (-> & -> & _).
  bind_ok H u s5 E5.
  apply payment_posted in E5 as (pe0 & Hpe & Href & Hdate & ->).
  unfold bind, db_commit, modify, ret in H. injection H as Hn Hst.
  assert (Hst' : st' = committed (posted pe0 (posted si0 st))).
  { rewrite <- Hst. unfold committed, posted. reflexivity. }
  clear Hst. subst st' n.
  exists (set_docstatus 1 (stored si0 st)),
         (set_docstatus 1 (stored pe0 (posted si0 st))).
  rewrite committed_work, committed_flags, !posted_docs, !posted_log,
    !posted_flags.
  split; [reflexivity|]. split; [reflexivity|]. split; [reflexivity|].
  split; [reflexivity|]. split; [reflexivity|]. split.
  - unfold invoice_of. simpl. repeat split. apply set_cost_center_rows.
  - unfold payment_of. simpl. repeat split; assumption.
Qed.

Lemma fulfilled_rows db dn_items fulfillment_items :
  Forall (fun row =>
            allow_zero_valuation_rate row = 1 /\
            exists item, In item fulfillment_items /\
                         qty row = li_quantity item)
         (get_fulfillment_items db dn_items fulfillment_items).
Proof.
  apply Forall_forall. intros row Hrow.
  apply get_fulfillment_items_in in Hrow as (dn_item & item & _ & Hitem & ->).
  apply find_some in Hitem as [Hin _]. apply in_rev in Hin.
  split; [reflexivity|]. exists item. split; [exact Hin | reflexivity].
Qed.

Lemma delivery_note_for_created order settings so f st r st' :
  delivery_note_for order settings so f st = (Ok r, st') ->
  (delivered so (work st) f = true /\ st' = st /\ r = [])
  \/
  exists dn,
    r = [name dn] /\ delivery_note_of order settings f dn /\
    tabDoc (work st') = dn :: tabDoc (work st) /\
    tabShopifyLog (work st') = tabShopifyLog (work st) /\
    flags_request_id st' = flags_request_id st /\
    durable st' = work st'.
Proof.
  rewrite delivery_note_for_guard.
  destruct (delivered so (work st) f).
  - intros H. injection H as <- <-. auto.
  - intros H. right.
    bind_ok H dn s1 E1. apply make_delivery_note_ok in E1 as (-> & so' & _ & ->).
    bind_ok H date s2 E2.
    assert (Hdate : date = fl_created_at f).
    { unfold getdate, bind in E2.
      destruct (framework _ st) as [[u|e] s]; [|discriminate].
      unfold ret in E2. injection E2 as <- _. reflexivity. }
    apply readonly_run in E2 as Hs; [subst s2 | apply readonly_getdate].
    subst date.
    bind_ok H its s3 E3. unfold gets in E3. injection E3 as <- <-.
    cbv zeta in H.
    bind_ok H dn1 s4 E4.
    match type of E4 with doc_insert ?d _ = _ => set (dn0 := d) in * end.
    apply doc_insert_ok in E4 as (-> & -> & _).
    bind_ok H dn2 s5 E5. apply doc_submit_ok in E5 as (-> & -> & _).
    unfold bind, db_commit, modify, ret in H. injection H as Hr Hst.
    assert (Hst' : st' = committed (posted dn0 st)).
    { rewrite <- Hst. unfold committed, posted. reflexivity. }
    clear Hst. subst st' r.
    exists (set_docstatus 1 (stored dn0 st)).
    rewrite committed_work, committed_flags, posted_docs, posted_log,
      posted_flags.
    split; [reflexivity|]. split.
    + unfold delivery_note_of. simpl. repeat split. apply fulfilled_rows.
    + repeat split.
Qed.

Lemma delivery_loop_created order settings so l :
  forall st names st',
    for_collect l (delivery_note_for order settings so) st = (Ok names, st') ->
    exists dns,
      tabDoc (work st') = (dns ++ tabDoc (work st))%list /\
      map name dns = rev names /\
      Forall (fun dn => exists f, In f l /\ delivery_note_of order settings f dn)
             dns /\
      (List.length names <= List.length l)%nat.
Proof.
  induction l as [|f l IH]; intros st names st' H.
  - simpl in H. unfold ret in H. injection H as <- <-.
    exists []. repeat split; constructor.
  - simpl in H. bind_ok H ys s1 E1. bind_ok H zs s2 E2.
    unfold ret in H. injection H as <- <-.
    apply IH in E2 as (dns & Hdocs & Hnames & Hall & Hlen).
    assert (Hall' : Forall (fun dn => exists f0, In f0 (f :: l) /\
                              delivery_note_of order settings f0 dn) dns).
    { eapply Forall_impl; [|exact Hall].
      intros dn (f0 & Hin & Hdn). exists f0. split; [right; exact Hin|].
      exact Hdn. }
    apply delivery_note_for_created in E1
      as [(_ & -> & ->)|(dn & -> & Hdn & Hd1 & _)].
    + exists dns. simpl. repeat split; try assumption. lia.
    + exists (dns ++ [dn])%list. rewrite Hdocs, Hd1, <- app_assoc.
      split; [reflexivity|]. split.
      * rewrite map_app, Hnames. reflexivity.
      * split.
        -- apply Forall_app. split; [exact Hall'|]. constructor; [|constructor].
           exists f. split; [left; reflexivity | exact Hdn].
        -- simpl. lia.
Qed.

(** X9.  When [create_delivery_note] returns a list of names, it has
    created exactly the Delivery Notes it names, the newest on top: at most
    one per fulfillment of the payload, each submitted, keyed by the id of
    its fulfillment, carrying the order id the fulfillment states, posted
    on the fulfillment's date, and with rows that allow a zero valuation
    rate and show quantities of the fulfillment. *)
Theorem create_delivery_note_creates order settings so st names st' :
  create_delivery_note order settings so st = (Ok (Some names), st') ->
  exists dns,
    tabDoc (work st') = (dns ++ tabDoc (work st))%list /\
    map name dns = rev names /\
    Forall (fun dn => exists f, In f (o_fulfillments order) /\
                                delivery_note_of order settings f dn) dns /\
    (List.length names <= List.length (o_fulfillments order))%nat.
Proof.
  unfold create_delivery_note.
  destruct (negb (truthy_Z (cint (ss_sync_delivery_note settings))));
    [discriminate|].
  intros H. bind_ok H dns s1 E1. unfold ret in H. injection H as <- <-.
  apply delivery_loop_created in E1. exact E1.
Qed.

Lemma create_delivery_note_creates_witness :
  exists dns,
    map name dns = [Name "DN-Shopify-" 1] /\
    Forall (fun dn =>
              exists f, In f [demo_fulfillment] /\
                        delivery_note_of (demo_order "paid" [demo_fulfillment])
                          demo_settings f dn) dns.
Proof.
  assert (H : create_delivery_note (demo_order "paid" [demo_fulfillment])
                demo_settings demo_sales_order demo_ordered
              = (Ok (Some [Name "DN-Shopify-" 1]),
                 snd (create_delivery_note
                        (demo_order "paid" [demo_fulfillment])
                        demo_settings demo_sales_order demo_ordered)))
    by (vm_compute; reflexivity).
  destruct (create_delivery_note_creates _ _ _ _ _ _ H)
    as (dns & _ & Hn & Hall & _).
  exists dns. split; [exact Hn | exact Hall].
Defined.

(** X10.  When [create_sales_invoice] returns a name, it has created two
    documents and committed them: the Sales Invoice it names, submitted,
    keyed by the order id, posted on the order's date, in the series of the
    settings or SI-Shopify-, with the cost center of the settings on every
    row; and on top of it a submitted Payment Entry that refers to the
    invoice by name and is dated today. *)
Theorem create_sales_invoice_creates order settings so st n st' :
  create_sales_invoice order settings so st = (Ok (Some n), st') ->
  exists si pe,
    tabDoc (work st') = pe :: si :: tabDoc (work st) /\
    durable st' = work st' /\
    name si = n /\ invoice_of order settings si /\
    payment_of si (today st) pe.
Proof.
  intros H.
  apply create_sales_invoice_created in H
    as (si & pe & Hd & _ & _ & Hc & Hn & Hsi & Hpe).
  exists si, pe. auto.
Qed.

Lemma create_sales_invoice_creates_witness :
  exists si pe,
    name si = Name "SI-Shopify-" 1 /\
    invoice_of (demo_order "paid" []) demo_settings si /\
    payment_of si "2020-01-01" pe.
Proof.
  assert (H : create_sales_invoice (demo_order "paid" []) demo_settings
                demo_sales_order demo_ordered
              = (Ok (Some (Name "SI-Shopify-" 1)),
                 snd (create_sales_invoice (demo_order "paid" [])
                        demo_settings demo_sales_order demo_ordered)))
    by (vm_compute; reflexivity).
  destruct (create_sales_invoice_creates _ _ _ _ _ _ H)
    as (si & pe & _ & _ & Hn & Hsi & Hpe).
  exists si, pe. split; [exact Hn|]. split; [exact Hsi | exact Hpe].
Defined.

(** ** Preparing an invoice, preparing the delivery notes *)

Lemma prepare_sales_invoice_run order request_id st :
  prepare_sales_invoice order request_id st =
  match invoice_preparation order (shopify_settings (work st))
          (set_flags_request_id request_id
             (set_session_user "Administrator" st)) with
  | (Ok _, st2) => (Ok tt, st2)
  | (Raise e, st2) =>
      (Ok tt, logged "Error" order (Some e) (set_work (durable st2) st2))
  end.
Proof.
  unfold prepare_sales_invoice, set_user, set_request_id,
    get_single_settings. rewrite run_bind. simpl. rewrite run_bind. simpl.
  rewrite run_bind. simpl. unfold try_except.
  destruct (invoice_preparation _ _ _) as [[u|e] st2]; reflexivity.
Qed.

Lemma prepare_delivery_note_run order request_id st :
  prepare_delivery_note order request_id st =
  match delivery_preparation order (shopify_settings (work st))
          (set_flags_request_id request_id
             (set_session_user "Administrator" st)) with
  | (Ok _, st2) => (Ok tt, st2)
  | (Raise e, st2) =>
      (Ok tt, logged "Error" order (Some e) (set_work (durable st2) st2))
  end.
Proof.
  unfold prepare_delivery_note, set_user, set_request_id,
    get_single_settings. rewrite run_bind. simpl. rewrite run_bind. simpl.
  rewrite run_bind. simpl. unfold try_except.
  destruct (delivery_preparation _ _ _) as [[u|e] st2]; reflexivity.
Qed.

Lemma invoice_preparation_run order settings st :
  invoice_preparation order settings st =
  match find_doc SalesOrder (by_order_id (o_id order)) (work st) with
  | None => (Ok tt, st)
  | Some d =>
      match find_doc SalesOrder (has_name (name d)) (work st) with
      | None => (Raise (DoesNotExistError SalesOrder (name d)), st)
      | Some so =>
          match create_sales_invoice order settings so st with
          | (Ok _, st1) => (Ok tt, logged "Success" order None st1)
          | (Raise e, st1) => (Raise e, st1)
          end
      end
  end.
Proof.
  unfold invoice_preparation, cstr. rewrite run_bind, get_sales_order_run.
  destruct (find_doc SalesOrder (by_order_id (o_id order)) (work st))
    as [d|]; [|reflexivity].
  destruct (find_doc SalesOrder (has_name (name d)) (work st)) as [so|];
    [|reflexivity].
  rewrite run_bind.
  destruct (create_sales_invoice order settings so st) as [[r|e] st1];
    reflexivity.
Qed.

(** X11.  From a connection with nothing pending, [prepare_sales_invoice]
    returns without raising and leaves nothing pending.  When no Sales
    Order carries the order id it does nothing at all: no document, no log
    record.  Otherwise it writes one log record for the request, and the
    invoice is made entirely or not at all: with an Error record the
    documents are those of before (an invoice that was inserted before the
    failure is rolled back); with a Success record they are those of
    before, or those of before under a submitted Sales Invoice and its
    submitted Payment Entry. *)
Theorem prepare_sales_invoice_all_or_nothing order request_id st :
  clean st ->
  exists st',
    prepare_sales_invoice order request_id st = (Ok tt, st') /\
    clean st' /\
    match find_doc SalesOrder (by_order_id (o_id order)) (work st) with
    | None => work st' = work st
    | Some _ =>
        exists status exc,
          tabShopifyLog (work st')
          = log_of status order exc request_id :: tabShopifyLog (work st) /\
          (status = "Error" /\ exc <> None /\
           tabDoc (work st') = tabDoc (work st)
           \/
           status = "Success" /\ exc = None /\
           (tabDoc (work st') = tabDoc (work st) \/
            exists si pe,
              tabDoc (work st') = pe :: si :: tabDoc (work st) /\
              invoice_of order (shopify_settings (work st)) si /\
              payment_of si (today st) pe))
    end.
Proof.
  intros Hc. unfold clean in Hc.
  rewrite prepare_sales_invoice_run, invoice_preparation_run.
  set (st1 := set_flags_request_id request_id
                (set_session_user "Administrator" st)).
  change (work st1) with (work st).
  destruct (find_doc SalesOrder (by_order_id (o_id order)) (work st))
    as [d|] eqn:Hd.
  2:{ exists st1. split; [reflexivity|]. split; [exact Hc | reflexivity]. }
  pose proof (find_doc_some _ _ _ _ Hd) as (Hin & Hdt & _).
  destruct (find_doc_exists SalesOrder (has_name (name d)) (work st) d
              Hin Hdt (docname_eqb_refl _)) as [so Hso].
  rewrite Hso.
  pose proof (pending_create_sales_invoice (durable st) request_id order
                (shopify_settings (work st)) so st1 (conj eq_refl eq_refl))
    as Hpend.
  destruct (create_sales_invoice order (shopify_settings (work st)) so st1)
    as [[r|e] st2] eqn:Hcsi.
  - eexists. split; [reflexivity|]. split; [symmetry; apply logged_durable|].
    exists "Success", None. rewrite logged_log, logged_docs.
    destruct r as [n|].
    + apply create_sales_invoice_created in Hcsi
        as (si & pe & Hdocs & Hlog & Hflags & _ & _ & Hsi & Hpe).
      split.
      * unfold log_record, log_of. rewrite Hflags, Hlog. reflexivity.
      * right. split; [reflexivity|]. split; [reflexivity|]. right.
        exists si, pe. rewrite Hdocs. auto.
    + apply create_sales_invoice_none in Hcsi as [_ ->]. split.
      * reflexivity.
      * right. split; [reflexivity|]. split; [reflexivity|]. left.
        reflexivity.
  - destruct Hpend as [Hdur Hflags].
    eexists. split; [reflexivity|]. split; [symmetry; apply logged_durable|].
    exists "Error", (Some e). rewrite logged_log, logged_docs.
    unfold log_record, log_of. simpl. rewrite Hdur, Hflags, <- Hc. split.
    + reflexivity.
    + left. split; [reflexivity|]. split; [discriminate | reflexivity].
Qed.

Lemma prepare_sales_invoice_all_or_nothing_witness :
  exists st',
    prepare_sales_invoice (demo_order "paid" []) None demo_ordered
    = (Ok tt, st') /\
    clean st'.
Proof.
  assert (Hc : clean demo_ordered) by (vm_compute; reflexivity).
  destruct (prepare_sales_invoice_all_or_nothing (demo_order "paid" []) None
              demo_ordered Hc) as (st' & Hrun & Hclean & _).
  exists st'. split; [exact Hrun | exact Hclean].
Defined.

Lemma run_for_collect_raising {A B} (I E : State -> Prop) (l : list A)
    (body : A -> M (list B)) :
  (forall x, run I (body x) (fun _ => I) E) ->
  run I (for_collect l body) (fun _ => I) E.
Proof.
  intros Hb. induction l as [|x l IH]; simpl.
  - apply run_ret. auto.
  - eapply run_seq; [apply Hb|]. intros ys.
    eapply run_seq; [apply IH|]. intros zs. apply run_ret. auto.
Qed.

(** While the delivery notes are created, the connection holds, with
    nothing pending, the documents it started with under submitted Delivery
    Notes; when a creation raises, so does the committed store. *)
Section DeliveryNotesAdded.

Variable T0 : list Doc.
Variable L0 : list ShopifyLog.
Variable r0 : option string.

Let I := fun st =>
  durable st = work st /\ flags_request_id st = r0 /\
  delivery_notes_added T0 L0 (work st).

Let E := fun st =>
  flags_request_id st = r0 /\ delivery_notes_added T0 L0 (durable st).

Lemma added_delivery_note_for order settings so f :
  run I (delivery_note_for order settings so f) (fun _ => I) E.
Proof.
  intros st (Hc & Hf & Hlog & dns & Hdocs & Hall).
  pose proof (pending_delivery_note_for (durable st) r0 order settings so f
                st (conj eq_refl Hf)) as Hpend.
  destruct (delivery_note_for order settings so f st) as [[r|e] st'] eqn:H.
  - apply delivery_note_for_created in H
      as [(_ & -> & _)|(dn & _ & Hdn & Hd1 & Hl1 & Hf1 & Hc1)].
    + repeat split; try assumption. exists dns. auto.
    + split; [exact Hc1|]. split; [congruence|]. split; [congruence|].
      exists (dn :: dns). rewrite Hd1, Hdocs. split; [reflexivity|].
      constructor; [|exact Hall].
      destruct Hdn as (H1 & H2 & _). auto.
  - destruct Hpend as [Hdur Hflags]. split; [exact Hflags|].
    rewrite Hdur, Hc. split; [exact Hlog|]. exists dns. auto.
Qed.

Lemma added_create_delivery_note order settings so :
  run I (create_delivery_note order settings so) (fun _ => I) E.
Proof.
  unfold create_delivery_note.
  destruct (negb (truthy_Z (cint (ss_sync_delivery_note settings))));
    [apply run_ret; intros s H; exact H|].
  eapply run_seq with (Q1 := fun _ => I);
    [|intros ?; apply run_ret; intros s H; exact H].
  apply run_for_collect_raising. intros f. apply added_delivery_note_for.
Qed.

Lemma added_delivery_preparation order settings :
  run I (delivery_preparation order settings)
      (fun _ st =>
         clean st /\
         tabShopifyLog (work st) = log_of "Success" order None r0 :: L0 /\
         exists dns,
           tabDoc (work st) = (dns ++ T0)%list /\
           Forall (fun d => doctype d = DeliveryNote /\ docstatus d = 1) dns)
      E.
Proof.
  unfold delivery_preparation.
  eapply run_seq with (Q1 := fun _ => I).
  { intros st HI. pose proof (readonly_get_sales_order (cstr (o_id order)) st)
      as Hr.
    destruct (get_sales_order (cstr (o_id order)) st) as [[a|e] s];
      simpl in Hr; subst s; [exact HI|].
    destruct HI as (Hc & Hf & Hlog & dns & Hdocs & Hall).
    split; [exact Hf|]. rewrite Hc. split; [exact Hlog|]. exists dns. auto. }
  intros sales_order.
  eapply run_seq with (Q1 := fun _ => I).
  { destruct sales_order as [so|]; [|apply run_ret; intros s H; exact H].
    eapply run_seq with (Q1 := fun _ => I);
      [apply added_create_delivery_note|].
    intros ?. apply run_ret. intros s H. exact H. }
  intros ? st (Hc & Hf & Hlog & dns & Hdocs & Hall).
  rewrite make_shopify_log_run.
  split; [symmetry; apply logged_durable|].
  rewrite logged_log, logged_docs. unfold log_record, log_of.
  rewrite Hf, Hlog. split; [reflexivity|]. exists dns. auto.
Qed.

End DeliveryNotesAdded.

(** X12.  From a connection with nothing pending,
    [prepare_delivery_note] returns without raising, leaves nothing
    pending, and writes exactly one log record for the request: Success, or
    Error with the exception.  Whatever the record says, the documents are
    those of before under submitted Delivery Notes only: a Delivery Note
    that was inserted but could not be submitted is rolled back, while
    those committed before the failure stay.  When no Sales Order carries
    the order id the record is a Success and nothing is created. *)
Theorem prepare_delivery_note_outcome order request_id st :
  clean st ->
  exists st' status exc dns,
    prepare_delivery_note order request_id st = (Ok tt, st') /\
    clean st' /\
    tabShopifyLog (work st')
    = log_of status order exc request_id :: tabShopifyLog (work st) /\
    (status = "Success" /\ exc = None \/ status = "Error" /\ exc <> None) /\
    tabDoc (work st') = (dns ++ tabDoc (work st))%list /\
    Forall (fun d => doctype d = DeliveryNote /\ docstatus d = 1) dns /\
    (find_doc SalesOrder (by_order_id (o_id order)) (work st) = None ->
     status = "Success" /\ dns = []).
Proof.
  intros Hc. unfold clean in Hc.
  rewrite prepare_delivery_note_run.
  set (st1 := set_flags_request_id request_id
                (set_session_user "Administrator" st)).
  destruct (find_doc SalesOrder (by_order_id (o_id order)) (work st))
    as [d|] eqn:Hd.
  2:{ unfold delivery_preparation, cstr.
      rewrite run_bind, get_sales_order_run. change (work st1) with (work st).
      rewrite Hd. rewrite run_bind. unfold ret at 1.
      rewrite make_shopify_log_run.
      exists (logged "Success" order None st1), "Success", None, [].
      split; [reflexivity|]. split; [symmetry; apply logged_durable|].
      rewrite logged_log, logged_docs.
      split; [reflexivity|]. split; [left; auto|]. split; [reflexivity|].
      split; [constructor | auto]. }
  assert (HI : durable st1 = work st1 /\ flags_request_id st1 = request_id /\
               delivery_notes_added (tabDoc (work st))
                 (tabShopifyLog (work st)) (work st1)).
  { split; [symmetry; exact Hc|]. split; [reflexivity|].
    split; [reflexivity|]. exists []. split; [reflexivity | constructor]. }
  pose proof (added_delivery_preparation (tabDoc (work st))
                (tabShopifyLog (work st)) request_id order
                (shopify_settings (work st)) st1 HI) as Hrun.
  destruct (delivery_preparation order (shopify_settings (work st)) st1)
    as [[u|e] st2].
  - destruct Hrun as (Hclean & Hlog & dns & Hdocs & Hall).
    exists st2, "Success", None, dns. split; [reflexivity|].
    split; [exact Hclean|]. split; [exact Hlog|]. split; [left; auto|].
    split; [exact Hdocs|]. split; [exact Hall | discriminate].
  - destruct Hrun as (Hf & Hlog & dns & Hdocs & Hall).
    exists (logged "Error" order (Some e) (set_work (durable st2) st2)),
           "Error", (Some e), dns.
    split; [reflexivity|]. split; [symmetry; apply logged_durable|].
    rewrite logged_log, logged_docs. unfold log_record, log_of. simpl.
    rewrite Hf, Hlog, Hdocs. split; [reflexivity|].
    split; [right; split; [reflexivity | discriminate]|].
    split; [reflexivity|]. split; [exact Hall | discriminate].
Qed.

Lemma prepare_delivery_note_outcome_witness :
  exists st' dns,
    prepare_delivery_note (demo_order "paid" [demo_fulfillment]) None
      demo_ordered = (Ok tt, st') /\
    tabDoc (work st') = (dns ++ tabDoc (work demo_ordered))%list /\
    Forall (fun d => doctype d = DeliveryNote /\ docstatus d = 1) dns.
Proof.
  assert (Hc : clean demo_ordered) by (vm_compute; reflexivity).
  destruct (prepare_delivery_note_outcome
              (demo_order "paid" [demo_fulfillment]) None demo_ordered Hc)
    as (st' & status & exc & dns & Hrun & _ & _ & _ & Hdocs & Hall & _).
  exists st', dns. split; [exact Hrun|]. split; [exact Hdocs | exact Hall].
Defined.

(** ** The log of a synchronisation *)

Lemma order_stage_log_flags order settings l r :
  keeps (fun st => tabShopifyLog (work st) = l /\ flags_request_id st = r)
        (order_stage order settings).
Proof.
  apply keeps_order_stage with (allowed := fun _ => True);
    auto; intros; assumption.
Qed.

Lemma invoice_stage_log_flags order settings so l r :
  keeps (fun st => tabShopifyLog (work st) = l /\ flags_request_id st = r)
        (invoice_stage order settings so).
Proof.
  apply keeps_invoice_stage with (allowed := fun _ => True);
    auto; intros; assumption.
Qed.

Lemma create_delivery_note_log_flags order settings so l r :
  keeps (fun st => tabShopifyLog (work st) = l /\ flags_request_id st = r)
        (create_delivery_note order settings so).
Proof.
  apply keeps_create_delivery_note with (allowed := fun _ => True);
    auto; intros; assumption.
Qed.

Lemma create_shopify_order_log order request_id st r st' :
  create_shopify_order order request_id st = (r, st') ->
  (find_doc SalesOrder (open_order (o_id order)) (work st) <> None /\
   tabShopifyLog (work st') = tabShopifyLog (work st))
  \/
  (find_doc SalesOrder (open_order (o_id order)) (work st) = None /\
   exists exc,
     tabShopifyLog (work st')
     = log_of "Success" order None request_id :: tabShopifyLog (work st)
     \/
     r = Ok None /\
     tabShopifyLog (work st')
     = log_of "Error" order exc request_id :: tabShopifyLog (work st)).
Proof.
  destruct (find_doc SalesOrder (open_order (o_id order)) (work st))
    as [d|] eqn:Hd.
  - destruct (create_shopify_order_existing order request_id st d Hd)
      as (so & -> & _).
    intros Hrun. injection Hrun as _ <-. left. split; [discriminate | reflexivity].
  - rewrite (create_shopify_order_new _ _ _ Hd). intros Hrun. right.
    split; [reflexivity|]. revert Hrun.
    pose proof (keeps_run _ _ (set_flags_request_id request_id st)
                  (order_stage_log_flags order (shopify_settings (work st))
                     (tabShopifyLog (work st)) request_id)
                  (conj eq_refl eq_refl)) as Hk.
    destruct (order_stage _ _ _) as [[so|e] st1]; simpl in Hk;
      destruct Hk as [Hl Hf]; intros Hrun; injection Hrun as <- <-.
    + exists None. left. rewrite logged_log. unfold log_record, log_of.
      rewrite Hl, Hf. reflexivity.
    + exists (Some e). right. split; [reflexivity|].
      rewrite logged_log. unfold log_record, log_of.
      rewrite Hl, Hf. reflexivity.
Qed.

Lemma create_shopify_invoice_log order so request_id st r st' :
  create_shopify_invoice order so request_id st = (r, st') ->
  tabShopifyLog (work st') = tabShopifyLog (work st) \/
  exists exc,
    tabShopifyLog (work st')
    = log_of "Error" order exc request_id :: tabShopifyLog (work st).
Proof.
  destruct (status_in (o_financial_status order) ["paid"; "refunded"])
    eqn:Hp.
  - rewrite (create_shopify_invoice_run _ _ _ _ Hp).
    pose proof (keeps_run _ _ (set_flags_request_id request_id st)
                  (invoice_stage_log_flags order (shopify_settings (work st))
                     so (tabShopifyLog (work st)) request_id)
                  (conj eq_refl eq_refl)) as Hk.
    destruct (invoice_stage _ _ _ _) as [[si|e] st1]; simpl in Hk;
      destruct Hk as [Hl Hf]; intros Hrun; injection Hrun as _ <-.
    + left. exact Hl.
    + right. exists (Some e). rewrite logged_log. unfold log_record, log_of.
      rewrite Hl, Hf. reflexivity.
  - rewrite create_shopify_invoice_quiet by (rewrite Hp; discriminate).
    intros Hrun. injection Hrun as _ <-. left. reflexivity.
Qed.

Lemma create_shopify_delivery_log order so request_id st r st' :
  create_shopify_delivery order so request_id st = (r, st') ->
  tabShopifyLog (work st') = tabShopifyLog (work st) \/
  exists exc,
    tabShopifyLog (work st')
    = log_of "Error" order exc request_id :: tabShopifyLog (work st).
Proof.
  rewrite create_shopify_delivery_run.
  destruct (o_fulfillments order) as [|f l].
  - intros Hrun. injection Hrun as _ <-. left. reflexivity.
  - pose proof (keeps_run _ _ (set_flags_request_id request_id st)
                  (create_delivery_note_log_flags order
                     (shopify_settings (work st)) so
                     (tabShopifyLog (work st)) request_id)
                  (conj eq_refl eq_refl)) as Hk.
    destruct (create_delivery_note _ _ _ _) as [[dns|e] st1]; simpl in Hk;
      destruct Hk as [Hl Hf]; intros Hrun; injection Hrun as _ <-.
    + left. exact Hl.
    + right. exists (Some e). rewrite logged_log. unfold log_record, log_of.
      rewrite Hl, Hf. reflexivity.
Qed.

(** X13.  [sync_sales_order] only adds to the log, and what it adds are
    records of the payload and of the request at hand: at most one record
    of the order stage, a Success or an Error, then at most two Error
    records, one of the invoice stage and one of the delivery stage.  An
    invoice or a delivery note that is created is not logged; so when the
    Sales Order was there already, whatever the run adds to the log is an
    Error. *)
Theorem sync_sales_order_log order request_id st :
  exists first others,
    tabShopifyLog (work (snd (sync_sales_order order request_id st)))
    = (others ++ first ++ tabShopifyLog (work st))%list /\
    (List.length first <= 1)%nat /\ (List.length others <= 2)%nat /\
    Forall (logs_request order request_id) (others ++ first)%list /\
    Forall (fun r => log_status r = "Success" \/ log_status r = "Error")
           first /\
    Forall (fun r => log_status r = "Error") others /\
    (find_doc SalesOrder (open_order (o_id order)) (work st) <> None ->
     first = []).
Proof.
  rewrite sync_sales_order_run.
  set (st0 := set_flags_request_id request_id
                (set_session_user "Administrator" st)).
  change (work st) with (work st0).
  destruct (create_shopify_order order request_id st0) as [r1 st1] eqn:H1.
  assert (Hfirst : exists first,
            tabShopifyLog (work st1)
            = (first ++ tabShopifyLog (work st0))%list /\
            (List.length first <= 1)%nat /\
            Forall (logs_request order request_id) first /\
            Forall (fun r => log_status r = "Success" \/ log_status r = "Error")
                   first /\
            (find_doc SalesOrder (open_order (o_id order)) (work st0) <> None
             -> first = [])).
  { apply create_shopify_order_log in H1
      as [[Hf Hl]|(Hf & exc & [Hl|[Hr Hl]])].
    - exists []. rewrite Hl. repeat split; auto; constructor.
    - exists [log_of "Success" order None request_id]. rewrite Hl.
      split; [reflexivity|]. split; [simpl; lia|].
      split; [repeat constructor|].
      split; [constructor; [left; reflexivity | constructor]|].
      congruence.
    - exists [log_of "Error" order exc request_id]. rewrite Hl.
      split; [reflexivity|]. split; [simpl; lia|].
      split; [repeat constructor|].
      split; [constructor; [right; reflexivity | constructor]|].
      congruence. }
  destruct Hfirst as (first & Hl1 & Hn1 & Hr1 & Hs1 & He1).
  assert (Hdone : forall st', tabShopifyLog (work st') = tabShopifyLog (work st1) ->
            exists first others,
              tabShopifyLog (work st')
              = (others ++ first ++ tabShopifyLog (work st0))%list /\
              (List.length first <= 1)%nat /\ (List.length others <= 2)%nat /\
              Forall (logs_request order request_id) (others ++ first)%list /\
              Forall (fun r => log_status r = "Success" \/
                               log_status r = "Error") first /\
              Forall (fun r => log_status r = "Error") others /\
              (find_doc SalesOrder (open_order (o_id order)) (work st0)
                 <> None -> first = [])).
  { intros st' Hl. exists first, []. rewrite Hl, Hl1. simpl.
    repeat split; auto. }
  destruct r1 as [[so|]|e]; [|apply Hdone; reflexivity..].
  destruct (total_create_shopify_invoice order so request_id st1)
    as (r2 & st2 & H2).
  destruct (total_create_shopify_delivery order so request_id st2)
    as (r3 & st3 & H3).
  rewrite H2, H3. simpl snd.
  assert (Hothers : exists others,
            tabShopifyLog (work st3)
            = (others ++ tabShopifyLog (work st1))%list /\
            (List.length others <= 2)%nat /\
            Forall (logs_request order request_id) others /\
            Forall (fun r => log_status r = "Error") others).
  { apply create_shopify_invoice_log in H2 as [Hl2|[e2 Hl2]];
      apply create_shopify_delivery_log in H3 as [Hl3|[e3 Hl3]];
      rewrite Hl3, Hl2.
    - exists []. repeat split; auto; constructor.
    - exists [log_of "Error" order e3 request_id].
      split; [reflexivity|]. split; [simpl; lia|].
      split; repeat constructor.
    - exists [log_of "Error" order e2 request_id].
      split; [reflexivity|]. split; [simpl; lia|].
      split; repeat constructor.
    - exists [log_of "Error" order e3 request_id;
              log_of "Error" order e2 request_id].
      split; [reflexivity|]. split; [simpl; lia|].
      split; repeat constructor. }
  destruct Hothers as (others & Hl3 & Hn3 & Hr3 & Hs3).
  exists first, others. rewrite Hl3, Hl1.
  split; [reflexivity|]. split; [exact Hn1|]. split; [exact Hn3|].
  split; [apply Forall_app; auto|]. auto.
Qed.

(** ** What the settings switch off *)

Lemma count_doctype_inserted dt d st :
  doctype d <> dt ->
  count_doctype dt (tabDoc (work (inserted d st)))
  = count_doctype dt (tabDoc (work st)).
Proof.
  intros Hd. unfold inserted, count_doctype. simpl.
  destruct (doctype_eqb (doctype d) dt) eqn:He; [|reflexivity].
  apply doctype_eqb_eq in He. contradiction.
Qed.

Lemma count_doctype_submitted dt d st :
  count_doctype dt (tabDoc (work (submitted d st)))
  = count_doctype dt (tabDoc (work st)).
Proof.
  unfold submitted. simpl.
  apply count_doctype_update, doctype_submit_row.
Qed.

(** Each stage inserts documents of its own doctypes only. *)
Lemma order_stage_inserts_orders order request_id dt k :
  dt <> SalesOrder ->
  keeps (fun st => count_doctype dt (tabDoc (work st)) = k)
        (create_shopify_order order request_id).
Proof.
  intros Hdt.
  apply keeps_create_shopify_order with (allowed := fun d => d = SalesOrder);
    auto.
  - intros d st H. rewrite count_doctype_submitted. exact H.
  - intros d st H _ Ha. rewrite count_doctype_inserted; congruence.
Qed.

Lemma delivery_stage_inserts_delivery_notes order so request_id dt k :
  dt <> DeliveryNote ->
  keeps (fun st => count_doctype dt (tabDoc (work st)) = k)
        (create_shopify_delivery order so request_id).
Proof.
  intros Hdt.
  apply keeps_create_shopify_delivery
    with (allowed := fun d => d = DeliveryNote); auto.
  - intros d st H. rewrite count_doctype_submitted. exact H.
  - intros d st H _ Ha. rewrite count_doctype_inserted; congruence.
Qed.

(** X14.  The two switches of the settings are obeyed by the whole
    synchronisation: when the order is neither paid nor refunded, or when
    the synchronisation of invoices is switched off, [sync_sales_order]
    creates no Sales Invoice and no Payment Entry; when the synchronisation
    of delivery notes is switched off it creates no Delivery Note, whatever
    the fulfillments of the payload. *)
Theorem sync_sales_order_switched_off order request_id st :
  (status_in (o_financial_status order) ["paid"; "refunded"] = false \/
   truthy_Z (cint (ss_sync_sales_invoice (shopify_settings (work st))))
   = false ->
   count_doctype SalesInvoice
     (tabDoc (work (snd (sync_sales_order order request_id st))))
   = count_doctype SalesInvoice (tabDoc (work st)) /\
   count_doctype PaymentEntry
     (tabDoc (work (snd (sync_sales_order order request_id st))))
   = count_doctype PaymentEntry (tabDoc (work st))) /\
  (truthy_Z (cint (ss_sync_delivery_note (shopify_settings (work st))))
   = false ->
   count_doctype DeliveryNote
     (tabDoc (work (snd (sync_sales_order order request_id st))))
   = count_doctype DeliveryNote (tabDoc (work st))).
Proof.
  rewrite sync_sales_order_run.
  set (st0 := set_flags_request_id request_id
                (set_session_user "Administrator" st)).
  change (work st) with (work st0).
  pose proof (fun dt H => keeps_run _ _ st0
                (order_stage_inserts_orders order request_id dt _ H) eq_refl)
    as Hcount1.
  pose proof (keeps_run _ _ st0
                (settings_kept_in_order_stage order request_id _) eq_refl)
    as Hset1.
  destruct (create_shopify_order order request_id st0) as [r1 st1].
  simpl in Hcount1, Hset1.
  destruct r1 as [[so|]|e];
    [|split; [intros _; split|intros _]; apply Hcount1; discriminate..].
  pose proof (keeps_run _ _ st1
                (settings_kept_in_invoice_stage order so request_id _)
                eq_refl) as Hset2.
  pose proof (keeps_run _ _ st1
                (no_delivery_note_in_invoice_stage order so request_id _)
                eq_refl) as Hcount2.
  destruct (total_create_shopify_invoice order so request_id st1)
    as (r2 & st2 & H2).
  rewrite H2 in Hset2, Hcount2 |- *. simpl in Hset2, Hcount2.
  pose proof (fun dt H => keeps_run _ _ st2
                (delivery_stage_inserts_delivery_notes order so request_id
                   dt _ H) eq_refl) as Hcount3.
  destruct (total_create_shopify_delivery order so request_id st2)
    as (r3 & st3 & H3).
  rewrite H3 in Hcount3 |- *. simpl in Hcount3. simpl snd. split.
  - intros Hoff.
    assert (Hq : create_shopify_invoice order so request_id st1
                 = (Ok None, set_flags_request_id request_id st1)).
    { apply create_shopify_invoice_quiet. intros Hp.
      destruct Hoff as [Hoff|Hoff]; [congruence|].
      unfold invoice_due. rewrite Hset1.
      change (work st) with (work st0). rewrite Hoff. apply andb_false_r. }
    rewrite Hq in H2. injection H2 as _ <-.
    split.
    + rewrite Hcount3 by discriminate. apply Hcount1. discriminate.
    + rewrite Hcount3 by discriminate. apply Hcount1. discriminate.
  - intros Hoff.
    destruct (create_shopify_delivery_quiet order so request_id st2)
      as [r Hq].
    { rewrite Hset2, Hset1. change (work st) with (work st0).
      rewrite Hoff. discriminate. }
    rewrite Hq in H3. injection H3 as _ <-.
    change (work (set_flags_request_id request_id st2)) with (work st2).
    rewrite Hcount2. apply Hcount1. discriminate.
Qed.

(** ** What the connector writes on the Sales Order *)

Lemma order_rows settings db date l :
  Forall2 (order_row settings db date) l
    (map (fun li => order_item_row settings (get_item_code db li) date li) l).
Proof.
  induction l as [|li l IH]; simpl; constructor; [|exact IH].
  unfold order_row. simpl. repeat split.
Qed.

(** X15.  When no Sales Order that is not cancelled carries the order id
    and [create_sales_order] returns, it has created one document and
    committed it: a submitted Sales Order keyed by the order id, in the
    series of the settings or SO-Shopify-, to be delivered today, of the
    company it was given or else of the company of the settings, with one
    row for every line item of the payload, in the payload's order, that
    has the line item's name, price and quantity and the item code
    [get_item_code] resolves it to, and with the charge lines that
    [get_order_taxes] returns. *)
Theorem create_sales_order_creates order settings for_company st so st' :
  find_doc SalesOrder (open_order (o_id order)) (work st) = None ->
  create_sales_order order settings for_company st = (Ok so, st') ->
  tabDoc (work st') = so :: tabDoc (work st) /\
  durable st' = work st' /\
  doctype so = SalesOrder /\ docstatus so = 1 /\
  shopify_order_id so = Some (o_id order) /\
  naming_series so
    = Some (or_default (ss_sales_order_series settings) "SO-Shopify-") /\
  delivery_date so = Some (today st) /\
  company so
    = (if truthy_opt truthy_str for_company then for_company
       else ss_company settings) /\
  Forall2 (order_row settings (work st) (today st))
          (o_line_items order) (items so) /\
  get_order_taxes order settings st = (Ok (taxes so), st).
Proof.
  intros Hn H. unfold create_sales_order in H.
  bind_ok H customer_id s0 E0.
  apply readonly_run in E0 as Hs0;
    [subst s0 | apply readonly_order_customer_id].
  bind_ok H cust s1 E1. unfold gets in E1. injection E1 as <- <-.
  bind_ok H found s2 E2. unfold db_get_value, gets in E2.
  rewrite Hn in E2. injection E2 as <- <-. simpl in H.
  bind_ok H so2 s3 E3.
  unfold bind, db_commit, modify, ret in H. injection H as Hso Hst.
  bind_ok E3 its s4 E4. rewrite get_order_items_run in E4.
  injection E4 as <- <-.
  bind_ok E3 date s5 E5. unfold nowdate, gets in E5. injection E5 as <- <-.
  bind_ok E3 txs s6 E6.
  apply readonly_run in E6 as Hs; [subst s6 | apply readonly_get_order_taxes].
  cbv zeta in E3.
  apply insert_submit_ok in E3 as [-> ->].
  match goal with
  | Hst : set_durable (work (posted ?d st)) _ = _ |- _ => set (so0 := d) in *
  end.
  assert (Hst' : st' = committed (posted so0 st)).
  { rewrite <- Hst. reflexivity. }
  clear Hst. subst st' so.
  rewrite committed_work, posted_docs.
  split; [reflexivity|]. split; [reflexivity|].
  assert (Hfields :
    doctype so0 = SalesOrder /\
    shopify_order_id so0 = Some (o_id order) /\
    naming_series so0
      = Some (or_default (ss_sales_order_series settings) "SO-Shopify-") /\
    delivery_date so0 = Some (today st) /\
    company so0
      = (if truthy_opt truthy_str for_company then for_company
         else ss_company settings) /\
    items so0
      = map (fun li => order_item_row settings (get_item_code (work st) li)
                         (today st) li) (o_line_items order) /\
    taxes so0 = txs).
  { subst so0. destruct (truthy_opt truthy_str for_company); repeat split. }
  destruct Hfields as (H1 & H2 & H3 & H4 & H5 & H6 & H7).
  change (doctype (set_docstatus 1 (stored so0 st))) with (doctype so0).
  change (docstatus (set_docstatus 1 (stored so0 st))) with 1.
  change (shopify_order_id (set_docstatus 1 (stored so0 st)))
    with (shopify_order_id so0).
  change (naming_series (set_docstatus 1 (stored so0 st)))
    with (naming_series so0).
  change (delivery_date (set_docstatus 1 (stored so0 st)))
    with (delivery_date so0).
  change (company (set_docstatus 1 (stored so0 st))) with (company so0).
  change (items (set_docstatus 1 (stored so0 st))) with (items so0).
  change (taxes (set_docstatus 1 (stored so0 st))) with (taxes so0).
  rewrite H6, H7.
  repeat split; try assumption. apply order_rows.
Qed.

Lemma create_sales_order_creates_witness :
  exists so st',
    create_sales_order (demo_order "paid" []) demo_settings None
      demo_validated = (Ok so, st') /\
    tabDoc (work st') = [so] /\
    Forall2 (order_row demo_settings (work demo_validated) "2020-01-01")
            [demo_item] (items so).
Proof.
  destruct (create_sales_order (demo_order "paid" []) demo_settings None
              demo_validated) as [[so|e] st'] eqn:H;
    [|vm_compute in H; discriminate H].
  destruct (create_sales_order_creates (demo_order "paid" []) demo_settings
              None demo_validated so st' eq_refl H)
    as (Hd & _ & _ & _ & _ & _ & _ & _ & Hrows & _).
  exists so, st'. split; [reflexivity|]. split; [exact Hd | exact Hrows].
Defined.

Lemma validate_item_known l settings st :
  Forall (fun item =>
            truthy_opt truthy_Z
              (py_or truthy_Z (li_product_id item) (li_id item)) = true ->
            item_exists (py_or truthy_Z (li_product_id item) (li_id item))
              (work st) = true) l ->
  for_each l (fun item =>
    let product_id := py_or truthy_Z (li_product_id item) (li_id item) in
    known <- gets (fun st => item_exists product_id (work st)) ;;
    if truthy_opt truthy_Z product_id && negb known
    then make_item (ss_warehouse settings) item
    else ret tt) st = (Ok tt, st).
Proof.
  induction 1 as [|item l Hitem Hl IH]; simpl; [reflexivity|].
  rewrite run_bind. unfold bind at 1, gets at 1.
  destruct (truthy_opt truthy_Z
              (py_or truthy_Z (li_product_id item) (li_id item))) eqn:Hp.
  - rewrite (Hitem eq_refl). simpl. exact IH.
  - simpl. exact IH.
Qed.

(** X16.  The two validations create a master only where one is missing.
    When the payload's customer is [null], [validate_customer] raises
    [AttributeError] and leaves the state as it was.  When it is not, and
    the payload has no customer, or a customer without an id, or a
    customer already answers to the id, [validate_customer] returns
    without calling the framework and leaves the state as it was; and so
    does [validate_item] when every line item has no product id (nor id),
    or an item already answers to it. *)
Theorem validations_create_only_what_is_missing order settings st :
  (o_customer order = Null ->
   validate_customer order settings st = (Raise AttributeError, st)) /\
  (o_customer order <> Null ->
   (forall c, o_customer order = Value c ->
      truthy_opt truthy_Z (cust_id c) = true ->
      truthy_opt truthy_str (customer_get_value (cust_id c) (work st))
      = true) ->
   validate_customer order settings st = (Ok tt, st)) /\
  (Forall (fun item =>
             truthy_opt truthy_Z
               (py_or truthy_Z (li_product_id item) (li_id item)) = true ->
             item_exists (py_or truthy_Z (li_product_id item) (li_id item))
               (work st) = true)
          (o_line_items order) ->
   validate_item order settings st = (Ok tt, st)).
Proof.
  split; [|split].
  - intros Hnull. unfold validate_customer, order_customer_id.
    rewrite Hnull. reflexivity.
  - intros Hc Hknown. unfold validate_customer, order_customer_id.
    destruct (o_customer order) as [| |c] eqn:Ho;
      [reflexivity | contradiction |].
    rewrite run_bind. unfold ret at 1.
    destruct (truthy_opt truthy_Z (cust_id c)) eqn:Hid; [|reflexivity].
    unfold bind, gets. rewrite (Hknown c eq_refl Hid). reflexivity.
  - intros Hi. unfold validate_item. apply validate_item_known. exact Hi.
Qed.

Lemma validations_create_only_what_is_missing_witness :
  validate_customer (demo_order "paid" [demo_fulfillment]) demo_settings
    demo_synced = (Ok tt, demo_synced) /\
  validate_item (demo_order "paid" [demo_fulfillment]) demo_settings
    demo_synced = (Ok tt, demo_synced).
Proof.
  destruct (validations_create_only_what_is_missing
              (demo_order "paid" [demo_fulfillment]) demo_settings
              demo_synced) as (_ & Hc & Hi).
  split.
  - apply Hc; [discriminate|].
    intros c Hv _. injection Hv as <-. vm_compute. reflexivity.
  - apply Hi. constructor; [|constructor]. intros _. vm_compute. reflexivity.
Defined.

(** ** What the invoice stage leaves pending *)

(** X17.  For a refunded order, when [create_shopify_invoice] returns the
    name of the invoice it created, the invoice and its payment are
    committed but the return invoice is not: the connection holds the
    committed documents under the submitted return invoice, which refers to
    the invoice returned and waits for the next commit. *)
Theorem return_invoice_is_left_pending order so request_id st n st' :
  o_financial_status order = Some "refunded" ->
  create_shopify_invoice order so request_id st = (Ok (Some n), st') ->
  exists ri si pe,
    tabDoc (work st') = ri :: tabDoc (durable st') /\
    tabDoc (durable st') = pe :: si :: tabDoc (work st) /\
    doctype ri = SalesInvoice /\ is_return ri = 1 /\
    return_against ri = Some n /\ docstatus ri = 1 /\
    name si = n /\ doctype si = SalesInvoice /\ doctype pe = PaymentEntry.
Proof.
  intros Hr. rewrite create_shopify_invoice_run by (rewrite Hr; reflexivity).
  destruct (invoice_stage _ _ _ _) as [[r|e] st1] eqn:Hi; [|discriminate].
  intros H. injection H as -> ->.
  apply invoice_stage_ok in Hi as [(Hnone & _)|(n' & s1 & Hn & Hc & Hk)];
    [discriminate|].
  injection Hn as <-.
  destruct Hk as [[Hf _]|(_ & ri0 & Hri & _ & Hret & Hag & ->)];
    [rewrite Hr in Hf; discriminate|].
  apply create_sales_invoice_some in Hc
    as (_ & si0 & pe0 & Hsi & _ & _ & -> & Hpe & _ & ->).
  set (st0 := set_flags_request_id request_id st) in *.
  exists (set_docstatus 1
            (stored ri0 (committed (posted pe0 (posted si0 st0))))),
         (set_docstatus 1 (stored si0 st0)),
         (set_docstatus 1 (stored pe0 (posted si0 st0))).
  rewrite posted_docs, posted_durable.
  change (durable (committed (posted pe0 (posted si0 st0))))
    with (work (posted pe0 (posted si0 st0))).
  rewrite committed_work, !posted_docs.
  repeat split; assumption.
Qed.

Lemma return_invoice_is_left_pending_witness :
  exists ri,
    tabDoc (work (snd (create_shopify_invoice (demo_order "refunded" [])
                         demo_sales_order None demo_ordered)))
    = ri :: tabDoc (durable (snd (create_shopify_invoice
                                    (demo_order "refunded" [])
                                    demo_sales_order None demo_ordered))) /\
    return_against ri = Some (Name "SI-Shopify-" 1).
Proof.
  assert (H : create_shopify_invoice (demo_order "refunded" [])
                demo_sales_order None demo_ordered
              = (Ok (Some (Name "SI-Shopify-" 1)),
                 snd (create_shopify_invoice (demo_order "refunded" [])
                        demo_sales_order None demo_ordered)))
    by (vm_compute; reflexivity).
  destruct (return_invoice_is_left_pending (demo_order "refunded" [])
              demo_sales_order None demo_ordered _ _ eq_refl H)
    as (ri & si & pe & Hw & _ & _ & _ & Hag & _).
  exists ri. split; [exact Hw | exact Hag].
Defined.

(** ** Orders that are there already *)

Lemma prepare_sales_invoice_quiet order request_id st d so :
  find_doc SalesOrder (by_order_id (o_id order)) (work st) = Some d ->
  find_doc SalesOrder (has_name (name d)) (work st) = Some so ->
  invoice_due order (shopify_settings (work st)) so (work st) = false ->
  prepare_sales_invoice order request_id st
  = (Ok tt, logged "Success" order None
              (set_flags_request_id request_id
                 (set_session_user "Administrator" st))).
Proof.
  intros Hd Hso Hdue.
  rewrite prepare_sales_invoice_run, invoice_preparation_run.
  change (work (set_flags_request_id request_id
                  (set_session_user "Administrator" st))) with (work st).
  rewrite Hd, Hso, create_sales_invoice_guard.
  change (work (set_flags_request_id request_id
                  (set_session_user "Administrator" st))) with (work st).
  rewrite Hdue. reflexivity.
Qed.

(** X18.  [prepare_sales_invoice] logs a Success also when it creates
    nothing: when the Sales Order it finds for the order id is not a
    submitted one (a cancelled order is found as well), or is billed, or
    when an invoice carries the order id already, or the synchronisation of
    invoices is switched off, it leaves the documents alone and writes a
    Success record. *)
Theorem prepare_sales_invoice_not_due order request_id st d so :
  find_doc SalesOrder (by_order_id (o_id order)) (work st) = Some d ->
  find_doc SalesOrder (has_name (name d)) (work st) = Some so ->
  invoice_due order (shopify_settings (work st)) so (work st) = false ->
  tabDoc (work (snd (prepare_sales_invoice order request_id st)))
  = tabDoc (work st) /\
  tabShopifyLog (work (snd (prepare_sales_invoice order request_id st)))
  = log_of "Success" order None request_id :: tabShopifyLog (work st).
Proof.
  intros Hd Hso Hdue.
  rewrite (prepare_sales_invoice_quiet _ _ _ _ _ Hd Hso Hdue).
  simpl snd. rewrite logged_docs, logged_log. split; reflexivity.
Qed.

Lemma prepare_sales_invoice_not_due_witness :
  map log_status
    (tabShopifyLog
       (work (snd (prepare_sales_invoice
                     (demo_order "paid" [demo_fulfillment]) None
                     demo_synced))))
  = "Success" :: map log_status (tabShopifyLog (work demo_synced)).
Proof.
  rewrite (proj2 (prepare_sales_invoice_not_due
                    (demo_order "paid" [demo_fulfillment])
                    None demo_synced demo_synced_order demo_synced_order
                    ltac:(vm_compute; reflexivity)
                    ltac:(vm_compute; reflexivity)
                    ltac:(vm_compute; reflexivity))).
  vm_compute. reflexivity.
Defined.

(** X19.  A Sales Order that is a draft is never completed by the
    connector.  When the first Sales Order that is not cancelled and
    carries the order id is a draft (as the one a failed submission leaves
    behind, which the Error record commits), [sync_sales_order] reuses it
    as it is: it creates no document, writes no log record and commits
    nothing, whatever the payload says of payment and fulfillments. *)
Theorem sync_sales_order_leaves_draft order request_id st d so :
  find_doc SalesOrder (open_order (o_id order)) (work st) = Some d ->
  find_doc SalesOrder (has_name (name d)) (work st) = Some so ->
  docstatus so <> 1 ->
  sync_sales_order order request_id st
  = (Ok tt, set_flags_request_id request_id
              (set_session_user "Administrator" st)).
Proof.
  intros Hd Hso Hs. apply settled_sync_sales_order.
  exists d, so. split; [exact Hd|]. split; [exact Hso|].
  apply Z.eqb_neq in Hs. split.
  - intros _. unfold invoice_due. rewrite Hs, andb_false_r. reflexivity.
  - intros _. apply forallb_forall. intros f _. unfold delivered.
    rewrite Hs. apply orb_true_r.
Qed.

Lemma sync_sales_order_leaves_draft_witness :
  docstatus demo_draft_order = 0 /\
  sync_sales_order (demo_order "paid" [demo_fulfillment]) None demo_drafted
  = (Ok tt, set_flags_request_id None
              (set_session_user "Administrator" demo_drafted)).
Proof.
  split; [vm_compute; reflexivity|].
  apply (sync_sales_order_leaves_draft (demo_order "paid" [demo_fulfillment])
           None demo_drafted demo_draft_order demo_draft_order).
  - vm_compute. reflexivity.
  - vm_compute. reflexivity.
  - vm_compute. discriminate.
Defined.

(** ** An invoice is made once *)

Lemma find_doc_update_some dt f dt' n g db :
  (forall d, doctype (g d) = doctype d) -> (forall d, f (g d) = f d) ->
  find_doc dt f db <> None ->
  find_doc dt f (set_tabDoc (update_doc dt' n g (tabDoc db)) db) <> None.
Proof.
  intros Hdt Hf. unfold find_doc. simpl.
  induction (tabDoc db) as [|d l IH]; simpl; [auto|].
  destruct (doctype_eqb (doctype d) dt' && has_name n d); simpl.
  - rewrite Hdt, Hf.
    destruct (doctype_eqb (doctype d) dt && f d); [discriminate | auto].
  - destruct (doctype_eqb (doctype d) dt && f d); [discriminate | exact IH].
Qed.

Lemma by_order_id_submit_row id d :
  by_order_id id (submit_row d) = by_order_id id d.
Proof. unfold submit_row. destruct (docstatus d =? 0); reflexivity. Qed.

(** The order stage leaves a Sales Invoice that carries the order id where
    it is. *)
Lemma invoice_stays_in_order_stage order request_id id :
  keeps (fun st => find_doc SalesInvoice (by_order_id id) (work st) <> None)
        (create_shopify_order order request_id).
Proof.
  apply keeps_create_shopify_order with (allowed := fun d => d = SalesOrder);
    auto.
  - intros d st H. unfold submitted.
    apply (find_doc_update_some SalesInvoice (by_order_id id) (doctype d)
             (name d) submit_row (work st));
      [apply doctype_submit_row | apply by_order_id_submit_row | exact H].
  - intros d st H _ Ha.
    rewrite (find_doc_under_other SalesInvoice (by_order_id id)
               (stored d st) (work (inserted d st)) (work st));
      [exact H | reflexivity |].
    simpl. rewrite Ha. discriminate.
Qed.

(** X20.  An invoice is made once per order id, for good.  The query that
    guards [create_sales_invoice] has no filter on the docstatus: once a
    Sales Invoice carries the order id, a cancelled one included,
    [sync_sales_order] creates no Sales Invoice and no Payment Entry for
    the order, and [prepare_sales_invoice] leaves the documents as they
    are. *)
Theorem invoice_is_made_once order request_id st :
  find_doc SalesInvoice (by_order_id (o_id order)) (work st) <> None ->
  count_doctype SalesInvoice
    (tabDoc (work (snd (sync_sales_order order request_id st))))
  = count_doctype SalesInvoice (tabDoc (work st)) /\
  count_doctype PaymentEntry
    (tabDoc (work (snd (sync_sales_order order request_id st))))
  = count_doctype PaymentEntry (tabDoc (work st)) /\
  tabDoc (work (snd (prepare_sales_invoice order request_id st)))
  = tabDoc (work st).
Proof.
  intros Hsi.
  assert (Hdue : forall settings so db,
            find_doc SalesInvoice (by_order_id (o_id order)) db <> None ->
            invoice_due order settings so db = false).
  { intros settings so db H. unfold invoice_due.
    destruct (find_doc SalesInvoice (by_order_id (o_id order)) db);
      [reflexivity | contradiction]. }
  split; [|split].
  3:{ rewrite prepare_sales_invoice_run, invoice_preparation_run.
      set (st1 := set_flags_request_id request_id
                    (set_session_user "Administrator" st)).
      change (work st1) with (work st).
      destruct (find_doc SalesOrder (by_order_id (o_id order)) (work st))
        as [d|] eqn:Hd; [|reflexivity].
      pose proof (find_doc_some _ _ _ _ Hd) as (Hin & Hdt & _).
      destruct (find_doc_exists SalesOrder (has_name (name d)) (work st) d
                  Hin Hdt (docname_eqb_refl _)) as [so Hso].
      rewrite Hso, create_sales_invoice_guard.
      change (work st1) with (work st).
      rewrite (Hdue _ _ _ Hsi). simpl snd. rewrite logged_docs.
      reflexivity. }
  all: rewrite sync_sales_order_run;
    set (st0 := set_flags_request_id request_id
                  (set_session_user "Administrator" st));
    change (work st) with (work st0) in *;
    pose proof (fun dt H => keeps_run _ _ st0
                  (order_stage_inserts_orders order request_id dt _ H)
                  eq_refl) as Hcount1;
    pose proof (keeps_run _ _ st0
                  (invoice_stays_in_order_stage order request_id
                     (o_id order)) Hsi) as Hsi1;
    destruct (create_shopify_order order request_id st0) as [r1 st1];
    simpl in Hcount1, Hsi1;
    (destruct r1 as [[so|]|e]; [|apply Hcount1; discriminate..]);
    rewrite create_shopify_invoice_quiet by (intros _; apply Hdue, Hsi1);
    pose proof (fun dt H => keeps_run _ _
                  (set_flags_request_id request_id st1)
                  (delivery_stage_inserts_delivery_notes order so request_id
                     dt _ H) eq_refl) as Hcount3;
    destruct (total_create_shopify_delivery order so request_id
                (set_flags_request_id request_id st1)) as (r3 & st3 & H3);
    rewrite H3 in Hcount3 |- *; simpl in Hcount3; simpl snd;
    rewrite Hcount3 by discriminate; apply Hcount1; discriminate.
Qed.

Lemma invoice_is_made_once_witness :
  tabDoc (work (snd (prepare_sales_invoice
                       (demo_order "paid" [demo_fulfillment]) None
                       demo_synced)))
  = tabDoc (work demo_synced).
Proof.
  apply (invoice_is_made_once (demo_order "paid" [demo_fulfillment]) None
           demo_synced).
  vm_compute. discriminate.
Defined.

(** ** Preparing twice *)

Lemma delivery_preparation_run order settings st :
  delivery_preparation order settings st =
  match find_doc SalesOrder (by_order_id (o_id order)) (work st) with
  | None => (Ok tt, logged "Success" order None st)
  | Some d =>
      match find_doc SalesOrder (has_name (name d)) (work st) with
      | None => (Raise (DoesNotExistError SalesOrder (name d)), st)
      | Some so =>
          match create_delivery_note order settings so st with
          | (Ok _, st1) => (Ok tt, logged "Success" order None st1)
          | (Raise e, st1) => (Raise e, st1)
          end
      end
  end.
Proof.
  unfold delivery_preparation, cstr. rewrite run_bind, get_sales_order_run.
  destruct (find_doc SalesOrder (by_order_id (o_id order)) (work st))
    as [d|]; [|reflexivity].
  destruct (find_doc SalesOrder (has_name (name d)) (work st)) as [so|];
    [|reflexivity].
  rewrite !run_bind.
  destruct (create_delivery_note order settings so st) as [[r|e] st1];
    reflexivity.
Qed.

Lemma settings_kept_in_create_sales_invoice order settings so s :
  keeps (fun st => shopify_settings (work st) = s)
        (create_sales_invoice order settings so).
Proof.
  apply keeps_create_sales_invoice with (allowed := fun _ => True); auto.
Qed.

Lemma settings_kept_in_create_delivery_note order settings so s :
  keeps (fun st => shopify_settings (work st) = s)
        (create_delivery_note order settings so).
Proof.
  apply keeps_create_delivery_note with (allowed := fun _ => True); auto.
Qed.

(** After a preparation of the invoice that logged no Error, no invoice is
    due. *)
Lemma prepare_sales_invoice_summary order request_id st :
  clean st ->
  error_count (work (snd (prepare_sales_invoice order request_id st)))
  = error_count (work st) ->
  find_doc SalesOrder (by_order_id (o_id order))
    (work (snd (prepare_sales_invoice order request_id st))) = None
  \/
  exists d so,
    find_doc SalesOrder (by_order_id (o_id order))
      (work (snd (prepare_sales_invoice order request_id st))) = Some d /\
    find_doc SalesOrder (has_name (name d))
      (work (snd (prepare_sales_invoice order request_id st))) = Some so /\
    invoice_due order
      (shopify_settings (work (snd (prepare_sales_invoice order request_id
                                      st))))
      so (work (snd (prepare_sales_invoice order request_id st))) = false.
Proof.
  intros Hc. unfold clean in Hc.
  rewrite prepare_sales_invoice_run, invoice_preparation_run.
  set (st1 := set_flags_request_id request_id
                (set_session_user "Administrator" st)).
  change (work st1) with (work st).
  destruct (find_doc SalesOrder (by_order_id (o_id order)) (work st))
    as [d|] eqn:Hd; [|intros _; left; exact Hd].
  pose proof (find_doc_some _ _ _ _ Hd) as (Hin & Hdt & _).
  destruct (find_doc_exists SalesOrder (has_name (name d)) (work st) d
              Hin Hdt (docname_eqb_refl _)) as [so Hso].
  rewrite Hso.
  pose proof (pending_create_sales_invoice (durable st) request_id order
                (shopify_settings (work st)) so st1 (conj eq_refl eq_refl))
    as Hpend.
  pose proof (keeps_run _ _ st1
                (settings_kept_in_create_sales_invoice order
                   (shopify_settings (work st)) so _) eq_refl) as Hset.
  destruct (create_sales_invoice order (shopify_settings (work st)) so st1)
    as [[r|e] st2] eqn:Hcsi; simpl in Hset; simpl snd.
  - intros _. right. exists d, so.
    change (shopify_settings (work (logged "Success" order None st2)))
      with (shopify_settings (work st2)).
    rewrite Hset.
    destruct r as [n|].
    + apply create_sales_invoice_created in Hcsi
        as (si & pe & Hdocs & _ & _ & _ & _ & Hsi & Hpe).
      destruct Hsi as (Hsi1 & _ & Hsi3 & _). destruct Hpe as (Hpe1 & _).
      assert (Hnew : Forall (fun x => doctype x <> SalesOrder) [pe; si]).
      { constructor; [rewrite Hpe1; discriminate|].
        constructor; [rewrite Hsi1; discriminate | constructor]. }
      split; [|split].
      * rewrite (find_doc_under_prefix SalesOrder _ (work st) _ [pe; si]);
          [exact Hd | rewrite logged_docs; exact Hdocs | exact Hnew].
      * rewrite (find_doc_under_prefix SalesOrder _ (work st) _ [pe; si]);
          [exact Hso | rewrite logged_docs; exact Hdocs | exact Hnew].
      * unfold invoice_due, find_doc. rewrite logged_docs, Hdocs. simpl.
        unfold by_order_id. rewrite Hpe1, Hsi1, Hsi3. simpl.
        rewrite Z.eqb_refl. reflexivity.
    + apply create_sales_invoice_none in Hcsi as [Hdue ->].
      split; [|split].
      * rewrite (find_doc_same_table _ _ (work st));
          [exact Hd | rewrite logged_docs; reflexivity].
      * rewrite (find_doc_same_table _ _ (work st));
          [exact Hso | rewrite logged_docs; reflexivity].
      * rewrite (invoice_due_same_invoices order _ so (work st));
          [exact Hdue|].
        apply find_doc_same_table. rewrite logged_docs. reflexivity.
  - destruct Hpend as [Hdur _].
    rewrite error_count_logged_error.
    rewrite (error_count_same_log (durable st2) (work st))
      by (rewrite Hdur, Hc; reflexivity).
    change (work (set_work (durable st2) st2)) with (durable st2).
    intros H. exfalso. lia.
Qed.

(** After a preparation of the delivery notes that logged no Error, no
    fulfillment of the payload needs a Delivery Note. *)
Lemma prepare_delivery_note_summary order request_id st :
  clean st ->
  error_count (work (snd (prepare_delivery_note order request_id st)))
  = error_count (work st) ->
  find_doc SalesOrder (by_order_id (o_id order))
    (work (snd (prepare_delivery_note order request_id st))) = None
  \/
  exists d so,
    find_doc SalesOrder (by_order_id (o_id order))
      (work (snd (prepare_delivery_note order request_id st))) = Some d /\
    find_doc SalesOrder (has_name (name d))
      (work (snd (prepare_delivery_note order request_id st))) = Some so /\
    (truthy_Z (cint (ss_sync_delivery_note
                       (shopify_settings
                          (work (snd (prepare_delivery_note order request_id
                                        st)))))) = true ->
     forallb (delivered so
                (work (snd (prepare_delivery_note order request_id st))))
             (o_fulfillments order) = true).
Proof.
  intros Hc. unfold clean in Hc.
  rewrite prepare_delivery_note_run, delivery_preparation_run.
  set (st1 := set_flags_request_id request_id
                (set_session_user "Administrator" st)).
  change (work st1) with (work st).
  destruct (find_doc SalesOrder (by_order_id (o_id order)) (work st))
    as [d|] eqn:Hd.
  2:{ intros _. left. simpl snd.
      rewrite (find_doc_same_table _ _ (work st));
        [exact Hd | rewrite logged_docs; reflexivity]. }
  pose proof (find_doc_some _ _ _ _ Hd) as (Hin & Hdt & _).
  destruct (find_doc_exists SalesOrder (has_name (name d)) (work st) d
              Hin Hdt (docname_eqb_refl _)) as [so Hso].
  rewrite Hso.
  assert (HI : durable st1 = work st1 /\ flags_request_id st1 = request_id /\
               delivery_notes_added (tabDoc (work st))
                 (tabShopifyLog (work st)) (work st1)).
  { split; [symmetry; exact Hc|]. split; [reflexivity|].
    split; [reflexivity|]. exists []. split; [reflexivity | constructor]. }
  pose proof (added_create_delivery_note (tabDoc (work st))
                (tabShopifyLog (work st)) request_id order
                (shopify_settings (work st)) so st1 HI) as Hadd.
  pose proof (keeps_run _ _ st1
                (settings_kept_in_create_delivery_note order
                   (shopify_settings (work st)) so _) eq_refl) as Hset.
  destruct (create_delivery_note order (shopify_settings (work st)) so st1)
    as [[r|e] st2] eqn:Hcdn; simpl in Hset; simpl snd.
  - intros _. right. exists d, so.
    change (shopify_settings (work (logged "Success" order None st2)))
      with (shopify_settings (work st2)).
    rewrite Hset.
    destruct Hadd as (_ & _ & _ & dns & Hdocs & Hall).
    assert (Hnew : Forall (fun x => doctype x <> SalesOrder) dns).
    { eapply Forall_impl; [|exact Hall]. intros x [Hx _]. rewrite Hx.
      discriminate. }
    split; [|split].
    + rewrite (find_doc_under_prefix SalesOrder _ (work st) _ dns);
        [exact Hd | rewrite logged_docs; exact Hdocs | exact Hnew].
    + rewrite (find_doc_under_prefix SalesOrder _ (work st) _ dns);
        [exact Hso | rewrite logged_docs; exact Hdocs | exact Hnew].
    + intros Hon. unfold create_delivery_note in Hcdn. rewrite Hon in Hcdn.
      simpl in Hcdn. bind_ok Hcdn names s E.
      unfold ret in Hcdn. injection Hcdn as _ <-.
      apply delivery_loop_ok in E as (_ & _ & _ & Hdel).
      apply forallb_forall. intros f Hf.
      rewrite forallb_forall in Hdel. specialize (Hdel f Hf).
      unfold delivered in *.
      rewrite (find_doc_same_table _ _ (work s)); [exact Hdel|].
      rewrite logged_docs. reflexivity.
  - destruct Hadd as (_ & Hlog & _).
    rewrite error_count_logged_error.
    change (work (set_work (durable st2) st2)) with (durable st2).
    rewrite (error_count_same_log (work st) (durable st2)) by exact Hlog.
    intros H. exfalso. lia.
Qed.

(** X21.  A preparation that went well, repeated, creates nothing.  From a
    connection with nothing pending, when [prepare_sales_invoice] logs no
    Error, a second call for the same payload leaves the documents as the
    first left them; and so it is with [prepare_delivery_note]. *)
Theorem preparation_repeated order request_id request_id' st :
  clean st ->
  (error_count (work (snd (prepare_sales_invoice order request_id st)))
   = error_count (work st) ->
   tabDoc (work (snd (prepare_sales_invoice order request_id'
                        (snd (prepare_sales_invoice order request_id st)))))
   = tabDoc (work (snd (prepare_sales_invoice order request_id st)))) /\
  (error_count (work (snd (prepare_delivery_note order request_id st)))
   = error_count (work st) ->
   tabDoc (work (snd (prepare_delivery_note order request_id'
                        (snd (prepare_delivery_note order request_id st)))))
   = tabDoc (work (snd (prepare_delivery_note order request_id st)))).
Proof.
  intros Hc. split; intros Herr.
  - destruct (prepare_sales_invoice_summary order request_id st Hc Herr)
      as [Hnone|(d & so & Hd & Hso & Hdue)].
    + set (st' := snd (prepare_sales_invoice order request_id st)) in *.
      rewrite prepare_sales_invoice_run, invoice_preparation_run.
      change (work (set_flags_request_id request_id'
                      (set_session_user "Administrator" st')))
        with (work st').
      rewrite Hnone. reflexivity.
    + rewrite (prepare_sales_invoice_quiet _ _ _ _ _ Hd Hso Hdue).
      simpl snd. rewrite logged_docs. reflexivity.
  - destruct (prepare_delivery_note_summary order request_id st Hc Herr)
      as [Hnone|(d & so & Hd & Hso & Hdel)].
    + set (st' := snd (prepare_delivery_note order request_id st)) in *.
      rewrite prepare_delivery_note_run, delivery_preparation_run.
      change (work (set_flags_request_id request_id'
                      (set_session_user "Administrator" st')))
        with (work st').
      rewrite Hnone. simpl snd. rewrite logged_docs. reflexivity.
    + set (st' := snd (prepare_delivery_note order request_id st)) in *.
      rewrite prepare_delivery_note_run, delivery_preparation_run.
      set (st1 := set_flags_request_id request_id'
                    (set_session_user "Administrator" st')).
      change (work st1) with (work st'). rewrite Hd, Hso.
      destruct (create_delivery_note_quiet order
                  (shopify_settings (work st')) so st1 Hdel) as [r ->].
      simpl snd. rewrite logged_docs. reflexivity.
Qed.

Lemma preparation_repeated_witness :
  tabDoc (work (snd (prepare_sales_invoice (demo_order "paid" []) None
                       (snd (prepare_sales_invoice (demo_order "paid" [])
                               None demo_ordered)))))
  = tabDoc (work (snd (prepare_sales_invoice (demo_order "paid" []) None
                         demo_ordered))).
Proof.
  apply (proj1 (preparation_repeated (demo_order "paid" []) None None
                  demo_ordered ltac:(vm_compute; reflexivity))).
  vm_compute. reflexivity.
Defined.
